(** * Comment-thread reconciliation of the pull-request extension

    A shallow embedding of the comment-thread engine of the extension:
    the diff-hunk model, the projection of review comments into comment
    threads ([provideDocumentComments], [workspaceLocalCommentsToCommentThreads],
    [outdatedCommentsToCommentThreads], [provideCommentInfoForReviewUri]),
    the reconciliation of live threads ([updateFileChangeCommentThreads],
    [updatePRorReviewCommentThreads], [updateComments]), the comment and
    review mutations ([editComment], [deleteComment], [editReaction],
    [updateCommentThreadRoot], [deleteReview]), the virtual document
    content of a pull-request file ([provideDocumentContent]) and the
    serialisation of [validateState] runs in the review manager
    ([updateState]).

    JavaScript numbers that hold line numbers, positions and identifiers
    are integers of [Z]; strings are [string]; arrays are lists; an object
    used as a dictionary is an association list in property-creation
    order, with the enumeration order of [for ... in] written out; live
    [vscode.CommentThread] objects live in a store addressed by
    references, so that identity and in-place mutation are visible. *)

From Stdlib Require Import ZArith List String Ascii Bool Lia Arith.
From Stdlib Require Import DecimalString DecimalZ DecimalPos.
From Stdlib Require Import Permutation.
Import ListNotations.

Set Implicit Arguments.

(** ** JavaScript values used by the code *)

Module JS.

(** [n.toString()] and [String(n)] of an integer number. *)
Definition toString (z : Z) : string := NilZero.string_of_int (Z.to_int z).

(** [Number(s)] on the decimal rendering of an integer; [None] is [NaN]
    (a comparison [x === NaN] is false for every [x]). *)
Definition Number (s : string) : option Z :=
  option_map Z.of_int (NilZero.int_of_string s).

(** [String(v)] for [v : number | null]. *)
Definition String_ (v : option Z) : string :=
  match v with
  | Some z => toString z
  | None => "null"%string
  end.

(** [s.substr(1)]. *)
Definition substr1 (s : string) : string :=
  match s with
  | EmptyString => EmptyString
  | String _ r => r
  end.

(** [arr.join('\n')]. *)
Definition newline : string := String "010"%char EmptyString.
Definition join (sep : string) (arr : list string) : string := String.concat sep arr.

(** [arr.findIndex(p)], [None] for [-1]. *)
Fixpoint findIndex {A} (p : A -> bool) (arr : list A) : option nat :=
  match arr with
  | [] => None
  | x :: r => if p x then Some O else option_map S (findIndex p r)
  end.

(** [arr.splice(index, 1, item)] (the array after the call). *)
Fixpoint splice_replace {A} (index : nat) (item : A) (arr : list A) : list A :=
  match arr, index with
  | [], _ => []
  | _ :: r, O => item :: r
  | x :: r, S i => x :: splice_replace i item r
  end.

(** [arr.splice(index, 1)] (the array after the call). *)
Fixpoint splice_remove {A} (index : nat) (arr : list A) : list A :=
  match arr, index with
  | [], _ => []
  | _ :: r, O => r
  | x :: r, S i => x :: splice_remove i r
  end.

End JS.

(** ** Diff hunk model (the classes [DiffLine] and [DiffHunk]) *)

Inductive DiffChangeType : Type := Context | Add | Delete | Control.

Definition DiffChangeType_eqb (a b : DiffChangeType) : bool :=
  match a, b with
  | Context, Context | Add, Add | Delete, Delete | Control, Control => true
  | _, _ => false
  end.

Record DiffLine : Type := mkDiffLine {
  dl_type : DiffChangeType;
  dl_oldLineNumber : Z;   (* 1 based *)
  dl_newLineNumber : Z;   (* 1 based *)
  dl_positionInHunk : Z;
  dl_raw : string
}.

(** The getter [text] of [DiffLine]: the raw line without its marker. *)
Definition text (l : DiffLine) : string := JS.substr1 (dl_raw l).

Record DiffHunk : Type := mkDiffHunk {
  oldLineNumber : Z;
  oldLength : Z;
  newLineNumber : Z;
  newLength : Z;
  positionInHunk : Z;
  diffLines : list DiffLine
}.

(** The statuses of [GitChangeType] that the code distinguishes. *)
Inductive GitChangeType : Type := ADD | DELETE | MODIFY | RENAME.

Definition GitChangeType_eqb (a b : GitChangeType) : bool :=
  match a, b with
  | ADD, ADD | DELETE, DELETE | MODIFY, MODIFY | RENAME, RENAME => true
  | _, _ => false
  end.

(** ** Objects used as dictionaries

    A dictionary object is the list of its properties in creation order.
    [for (k in o)] enumerates the keys that are array indices first, in
    ascending numeric order, and then the other keys in creation order. *)

Module Obj.

Definition t (V : Type) : Type := list (string * V).

Fixpoint get {V} (o : t V) (k : string) : option V :=
  match o with
  | [] => None
  | (k', v) :: r => if String.eqb k' k then Some v else get r k
  end.

(** [o[k] = v]: an existing property keeps its place. *)
Fixpoint set {V} (o : t V) (k : string) (v : V) : t V :=
  match o with
  | [] => [(k, v)]
  | (k', v') :: r => if String.eqb k' k then (k', v) :: r else (k', v') :: set r k v
  end.

(** [delete o[k]]. *)
Fixpoint delete {V} (o : t V) (k : string) : t V :=
  match o with
  | [] => []
  | (k', v') :: r => if String.eqb k' k then r else (k', v') :: delete r k
  end.

(** A key is an array index when it is the canonical decimal rendering of
    an integer between 0 and 2^32 - 2. *)
Definition array_index (k : string) : option Z :=
  match JS.Number k with
  | Some z =>
      if ((0 <=? z)%Z && (z <? 4294967295)%Z && String.eqb (JS.toString z) k)%bool
      then Some z else None
  | None => None
  end.

Fixpoint insert_index {V} (z : Z) (e : string * V) (l : list (Z * (string * V)))
  : list (Z * (string * V)) :=
  match l with
  | [] => [(z, e)]
  | (z', e') :: r =>
      if (z <=? z')%Z then (z, e) :: l else (z', e') :: insert_index z e r
  end.

Definition index_entries {V} (o : t V) : list (Z * (string * V)) :=
  fold_right (fun e acc =>
                match array_index (fst e) with
                | Some z => insert_index z e acc
                | None => acc
                end) [] o.

Definition is_plain_key {V} (e : string * V) : bool :=
  match array_index (fst e) with
  | Some _ => false
  | None => true
  end.

(** The properties in the order in which [for ... in] visits them. *)
Definition for_in {V} (o : t V) : list (string * V) :=
  map snd (index_entries o) ++ filter is_plain_key o.

Definition keys {V} (o : t V) : list string := map fst o.

End Obj.

(** [groupBy] of [common/utils]: a [reduce] that appends each element to
    the property named by its key. *)
Definition groupBy {T} (arr : list T) (fn : T -> string) : Obj.t (list T) :=
  fold_left (fun result el =>
               let key := fn el in
               Obj.set result key
                 (match Obj.get result key with
                  | Some g => g
                  | None => []
                  end ++ [el]))
            arr [].

(** ** Calls that can throw

    An asynchronous method is a state transformer that ends by returning
    or by throwing; the state it leaves behind is the state at that point. *)

Inductive Outcome (A : Type) : Type :=
| Returned (a : A)
| Threw (msg : string).

Arguments Returned {A} a.
Arguments Threw {A} msg.

Definition M (S A : Type) : Type := S -> S * Outcome A.

Definition ret {S A} (a : A) : M S A := fun s => (s, Returned a).

Definition throw {S A} (msg : string) : M S A := fun s => (s, Threw msg).

Definition bind {S A B} (m : M S A) (k : A -> M S B) : M S B :=
  fun s => match m s with
           | (s', Returned a) => k a s'
           | (s', Threw msg) => (s', Threw msg)
           end.

Definition get {S} : M S S := fun s => (s, Returned s).

Definition modify {S} (f : S -> S) : M S unit := fun s => (f s, Returned tt).

(** [await call]: the outcome of a remote call, which leaves the local
    state alone. *)
Definition await {S A} (o : Outcome A) : M S A := fun s => (s, o).

(** [try { m } catch (e) { throw new Error(h(e)) }]. *)
Definition rethrow {S A} (h : string -> string) (m : M S A) : M S A :=
  fun s => match m s with
           | (s', Returned a) => (s', Returned a)
           | (s', Threw msg) => (s', Threw (h msg))
           end.

Declare Scope js_scope.
Delimit Scope js_scope with js.
Notation "x <- m ;; k" := (bind m (fun x => k))
  (at level 61, m at next level, right associativity) : js_scope.
Notation "m ;;; k" := (bind m (fun _ => k))
  (at level 61, right associativity) : js_scope.

(** A call of a function that can throw, inside a method. *)
Definition call {S A} (o : Outcome A) : M S A := fun s => (s, o).

(** Sequencing of calls that can throw, outside of a method. *)
Definition andThen {A B} (o : Outcome A) (k : A -> Outcome B) : Outcome B :=
  match o with
  | Returned a => k a
  | Threw msg => Threw msg
  end.

(** A loop that pushes onto [ret] what its body gives for each element,
    and that the first throw of the body ends. *)
Fixpoint pushEach {A B} (body : A -> Outcome (list B)) (l : list A) (ret : list B)
  : Outcome (list B) :=
  match l with
  | [] => Returned ret
  | x :: rest => andThen (body x) (fun items => pushEach body rest (ret ++ items))
  end.

(** ** Comments, threads and file changes *)

Record Uri : Type := mkUri {
  scheme : string;
  uri_path : string;
  query : string
}.

(** [a.toString() === b.toString()]. *)
Definition Uri_eqb (a b : Uri) : bool :=
  (String.eqb (scheme a) (scheme b) && String.eqb (uri_path a) (uri_path b)
   && String.eqb (query a) (query b))%bool.

(** A [vscode.Range]. *)
Record Range : Type := mkRange {
  startLine : Z;
  startCharacter : Z;
  endLine : Z;
  endCharacter : Z
}.

(** The error of [new vscode.Position(line, character)] of the editor API
    for a negative line. *)
Definition illegalLine : string := "Illegal argument: line must be non-negative".

(** [new vscode.Range(new vscode.Position(line, 0), new vscode.Position(line, 0))]:
    the constructor of the position throws on a negative line. *)
Definition lineRange (line : Z) : Outcome Range :=
  if (line <? 0)%Z then Threw illegalLine else Returned (mkRange line 0 line 0).

(** [new vscode.Range(startLine, 0, endLine, 0)]: the constructor builds the
    two positions, which throws on a negative line, and puts the earlier
    one first. *)
Definition newRange (startLine endLine : Z) : Outcome Range :=
  if ((startLine <? 0)%Z || (endLine <? 0)%Z)%bool then Threw illegalLine
  else if (startLine <? endLine)%Z then Returned (mkRange startLine 0 endLine 0)
  else Returned (mkRange endLine 0 startLine 0).

(** A reaction summary as the comment widget shows it. *)
Record CommentReaction : Type := mkReaction {
  label : string;
  hasReacted : bool;
  count : Z
}.

(** The raw review comment ([Comment] of [common/comment]). *)
Record Comment : Type := mkComment {
  id : Z;
  pullRequestReviewId : option Z;
  path : string;
  position : option Z;            (* null for an outdated comment *)
  originalPosition : option Z;
  originalCommitId : option string;
  body : string;
  diffHunk : string;
  diffHunks : option (list DiffHunk);
  absolutePosition : option Z;    (* transient, set per view *)
  reactions : option (list CommentReaction)
}.

Definition set_absolutePosition (c : Comment) (p : option Z) : Comment :=
  mkComment (id c) (pullRequestReviewId c) (path c) (position c)
            (originalPosition c) (originalCommitId c) (body c) (diffHunk c)
            (diffHunks c) p (reactions c).

Definition set_reactions (c : Comment) (r : option (list CommentReaction)) : Comment :=
  mkComment (id c) (pullRequestReviewId c) (path c) (position c)
            (originalPosition c) (originalCommitId c) (body c) (diffHunk c)
            (diffHunks c) (absolutePosition c) r.

(** A [vscode.Command], by its command identifier. *)
Definition Command : Type := string.

(** The widget comment, [vscode.Comment & { _rawComment: Comment }]. *)
Record VSComment : Type := mkVSComment {
  commentId : string;
  body_value : string;
  commentReactions : option (list CommentReaction);
  selectCommand : option Command;
  _rawComment : Comment
}.

Inductive CommentThreadCollapsibleState : Type := Collapsed | Expanded.

(** A [vscode.CommentThread].  [commands] stands for the pair
    [acceptInputCommand]/[additionalCommands] that
    [getCommentThreadCommands] builds from the draft mode. *)
Record CommentThread : Type := mkThread {
  threadId : string;
  resource : Uri;
  range : Range;
  comments : list VSComment;
  collapsibleState : CommentThreadCollapsibleState;
  commands : option bool
}.

Definition set_comments (t : CommentThread) (cs : list VSComment) : CommentThread :=
  mkThread (threadId t) (resource t) (range t) cs (collapsibleState t) (commands t).

Definition set_collapsibleState (t : CommentThread) (s : CommentThreadCollapsibleState)
  : CommentThread :=
  mkThread (threadId t) (resource t) (range t) (comments t) s (commands t).

Definition set_commands (t : CommentThread) (inDraftMode : bool) : CommentThread :=
  mkThread (threadId t) (resource t) (range t) (comments t) (collapsibleState t)
           (Some inDraftMode).

(** [InMemFileChangeNode] and [GitFileChangeNode] carry the same fields for
    the code below; [sha] is only set on the latter. *)
Record FileChange : Type := mkFileChange {
  status : GitChangeType;
  fileName : string;
  previousFileName : option string;
  filePath : Uri;
  parentFilePath : Uri;
  isPartial : bool;
  patch : string;
  fc_diffHunks : list DiffHunk;
  fc_comments : list Comment;
  sha : option string
}.

Definition set_fc_comments (f : FileChange) (cs : list Comment) : FileChange :=
  mkFileChange (status f) (fileName f) (previousFileName f) (filePath f)
               (parentFilePath f) (isPartial f) (patch f) (fc_diffHunks f) cs (sha f).

(** A node of the file tree: a [RemoteFileChangeNode] has no local diff. *)
Inductive FileChangeNode : Type :=
| RemoteFileChangeNode (name : string)
| InMemFileChangeNode (f : FileChange).

Definition node_fileName (n : FileChangeNode) : string :=
  match n with
  | RemoteFileChangeNode name => name
  | InMemFileChangeNode f => fileName f
  end.

(** [gitFileChangeNodeFilter]: the nodes that are not remote. *)
Definition gitFileChangeNodeFilter (nodes : list FileChangeNode) : list FileChange :=
  flat_map (fun n => match n with
                     | RemoteFileChangeNode _ => []
                     | InMemFileChangeNode f => [f]
                     end) nodes.

(** ** Position mapping *)

(** Modelled from the spec: [getZeroBased] of [common/diffPositionMapping],
    which is not part of the sources at hand: [n - 1] if [n > 0], else [n]. *)
Definition getZeroBased (n : Z) : Z := if (0 <? n)%Z then (n - 1)%Z else n.

(** Modelled from the spec: [getDiffLineByPosition] of
    [common/diffPositionMapping], the exact-position lookup of a diff line
    in the hunks. *)
Definition getDiffLineByPosition (hunks : list DiffHunk) (pos : Z) : option DiffLine :=
  find (fun l => (dl_positionInHunk l =? pos)%Z) (flat_map diffLines hunks).

(** Modelled from the spec: [getAbsolutePosition] of
    [common/diffPositionMapping]: the old or new line number of the diff
    line at the comment's position, a negative sentinel if there is none. *)
Definition spec_getAbsolutePosition (c : Comment) (hunks : list DiffHunk) (isBase : bool) : Z :=
  match position c with
  | None => (-1)%Z
  | Some p =>
      match getDiffLineByPosition hunks p with
      | Some l => if isBase then dl_oldLineNumber l else dl_newLineNumber l
      | None => (-1)%Z
      end
  end.

(** Parameters of a [pr:] and of a [review:] document URI ([common/uri]). *)
Record PRUriParams : Type := mkPRUriParams {
  pr_fileName : string;
  pr_isBase : bool;
  pr_baseCommit : string;
  pr_prNumber : Z
}.

Record ReviewUriParams : Type := mkReviewUriParams {
  rv_path : string;
  rv_commit : string;
  rv_base : bool;
  rv_isOutdated : bool
}.

(** The collaborators of the comment engine whose code is not part of the
    sources at hand; the development is parametric in them.  The URI
    parsers return [None] for a URI that does not parse. *)
Record Env : Type := mkEnv {
  getAbsolutePosition : Comment -> list DiffHunk -> bool -> Z;
  getPositionInDiff : Comment -> list DiffHunk -> bool -> Z;
  getLastDiffLine : string -> option DiffLine;
  mapCommentsToHead : list DiffHunk -> string -> list Comment -> list Comment;
  mapHeadLineToDiffHunkPosition : list DiffHunk -> string -> Z -> bool -> Z;
  diffWith : string -> string -> string;     (* repository.diffWith(sha, file) *)
  show : string -> string -> option string;  (* repository.show(commit, path) *)
  getModifiedContentFromDiffHunk : string -> string -> string;
  nodePath_join : string -> string -> string;
  formatError : string -> string;
  fromPRUri : Uri -> option PRUriParams;
  fromReviewUri : Uri -> option ReviewUriParams;
  rootUri : Uri;
  headSha : string
}.

(** Modelled from the spec: [convertToVSCodeComment] of [github/utils]: the
    widget comment of a raw comment, carrying the back-reference to it. *)
Definition convertToVSCodeComment (c : Comment) (command : option Command) : VSComment :=
  mkVSComment (JS.toString (id c)) (body c) (reactions c) command c.

(** ** Projection of comments into thread descriptors *)

Record CommentInfo : Type := mkCommentInfo {
  threads : list CommentThread;
  commentingRanges : list Range;
  inDraftMode : option bool
}.

(** [getCommentingRanges] of [pullRequestNode.ts]. *)
Definition getCommentingRanges (hunks : list DiffHunk) (isBase : bool)
  : Outcome (list Range) :=
  pushEach (fun diffHunk =>
              let startingLine :=
                getZeroBased (if isBase then oldLineNumber diffHunk else newLineNumber diffHunk) in
              let length :=
                getZeroBased (if isBase then oldLength diffHunk else newLength diffHunk) in
              andThen (newRange startingLine (startingLine + length)%Z)
                      (fun range => Returned [range]))
           hunks [].

(** The key [String(comment.position)] and [String(comment.originalPosition)]. *)
Definition positionKey (c : Comment) : string := JS.String_ (position c).
Definition originalPositionKey (c : Comment) : string := JS.String_ (originalPosition c).

(** The absolute position that [provideDocumentComments] resolves for the
    first comment of a group. *)
Definition resolvedPosition (E : Env) (fc : FileChange) (isBase : bool) (firstComment : Comment) : Z :=
  if isPartial fc
  then getPositionInDiff E firstComment (fc_diffHunks fc) isBase
  else getAbsolutePosition E firstComment (fc_diffHunks fc) isBase.

(** The body of the loop over [sections] in [provideDocumentComments]: the
    threads that one group contributes. *)
Definition documentThreadOfGroup (E : Env) (uri : Uri) (isBase : bool) (fc : FileChange)
           (section : string * list Comment) : Outcome (list CommentThread) :=
  match snd section with
  | [] => Returned []   (* [groupBy] creates no empty group *)
  | firstComment :: _ =>
      let commentAbsolutePosition := resolvedPosition E fc isBase firstComment in
      if (commentAbsolutePosition <? 0)%Z then Returned []   (* continue *)
      else
        andThen (lineRange (getZeroBased commentAbsolutePosition))
                (fun range =>
                   Returned
                     [mkThread (JS.toString (id firstComment)) uri range
                               (map (fun comment => convertToVSCodeComment comment None)
                                    (snd section))
                               Expanded None])
  end.

(** [provideDocumentComments] of [pullRequestNode.ts]; [None] is the
    [undefined] returned for a missing or remote file change. *)
Definition provideDocumentComments (E : Env) (uri : Uri) (isBase : bool)
           (fileChange : option FileChangeNode) (matchingComments : list Comment)
           (inDraftMode : bool) : Outcome (option CommentInfo) :=
  match fileChange with
  | None => Returned None
  | Some (RemoteFileChangeNode _) => Returned None
  | Some (InMemFileChangeNode fc) =>
      andThen (if isPartial fc then Returned [mkRange 0 0 0 0]
               else getCommentingRanges (fc_diffHunks fc) isBase)
        (fun commentingRanges =>
           match matchingComments with
           | [] => Returned (Some (mkCommentInfo [] commentingRanges (Some inDraftMode)))
           | _ =>
               let sections := groupBy matchingComments positionKey in
               andThen (pushEach (documentThreadOfGroup E uri isBase fc)
                                 (Obj.for_in sections) [])
                 (fun threads =>
                    Returned (Some (mkCommentInfo threads commentingRanges
                                                  (Some inDraftMode))))
           end)
  end.

(** [firstComment.absolutePosition || 0]. *)
Definition absolutePosition_or_0 (c : Comment) : Z :=
  match absolutePosition c with
  | Some p => p
  | None => 0%Z
  end.

Definition workspaceUri (E : Env) (c : Comment) : Uri :=
  mkUri (scheme (rootUri E)) (nodePath_join E (uri_path (rootUri E)) (path c))
        (query (rootUri E)).

Definition workspaceThreadOfGroup (E : Env) (command : option Command)
           (collapsibleState : CommentThreadCollapsibleState)
           (section : string * list Comment) : Outcome (list CommentThread) :=
  match snd section with
  | [] => Returned []   (* [groupBy] creates no empty group *)
  | firstComment :: _ =>
      andThen (lineRange (getZeroBased (absolutePosition_or_0 firstComment)))
              (fun range =>
                 Returned
                   [mkThread (JS.toString (id firstComment)) (workspaceUri E firstComment)
                             range
                             (map (fun comment => convertToVSCodeComment comment command)
                                  (snd section))
                             collapsibleState None])
  end.

(** [workspaceLocalCommentsToCommentThreads]; [fileChange] is [None] for a
    falsy argument. *)
Definition workspaceLocalCommentsToCommentThreads (E : Env) (fileChange : option FileChange)
           (fileComments : list Comment) (collapsibleState : CommentThreadCollapsibleState)
  : Outcome (list CommentThread) :=
  match fileChange with
  | None => Returned []
  | Some fc =>
      match fileComments with
      | [] => Returned []
      | _ =>
          let sections := groupBy fileComments positionKey in
          let command :=
            if GitChangeType_eqb (status fc) DELETE then Some "pr.viewChanges"%string else None in
          pushEach (workspaceThreadOfGroup E command collapsibleState) (Obj.for_in sections) []
      end
  end.

(** The body of the loop of [outdatedCommentsToCommentThreads].  The code
    writes [absolutePosition] into the first comment of the group before
    the group is converted, so the thread's first comment carries it. *)
Definition outdatedThreadOfGroup (fc : FileChange)
           (collapsibleState : CommentThreadCollapsibleState)
           (section : string * list Comment) : Outcome (list CommentThread) :=
  match snd section with
  | [] => Returned []   (* [groupBy] creates no empty group *)
  | firstComment :: rest =>
      let diffLine :=
        match originalPosition firstComment with
        | Some p => getDiffLineByPosition
                      (match diffHunks firstComment with Some h => h | None => [] end) p
        | None => None
        end in
      let firstComment' :=
        match diffLine with
        | Some l => set_absolutePosition firstComment (Some (dl_newLineNumber l))
        | None => firstComment
        end in
      andThen (lineRange (getZeroBased (absolutePosition_or_0 firstComment')))
              (fun range =>
                 Returned
                   [mkThread (JS.toString (id firstComment')) (filePath fc) range
                             (map (fun comment =>
                                     convertToVSCodeComment comment
                                                            (Some "pr.viewChanges"%string))
                                  (firstComment' :: rest))
                             collapsibleState None])
  end.

(** [outdatedCommentsToCommentThreads]. *)
Definition outdatedCommentsToCommentThreads (fc : FileChange) (fileComments : list Comment)
           (collapsibleState : CommentThreadCollapsibleState)
  : Outcome (list CommentThread) :=
  match fileComments with
  | [] => Returned []
  | _ =>
      let sections := groupBy fileComments positionKey in
      pushEach (outdatedThreadOfGroup fc collapsibleState) (Obj.for_in sections) []
  end.

(** ** The store of live comment threads

    A live [vscode.CommentThread] is an object with identity: the maps of
    the providers hold references to it, assignments to its fields are
    seen through every reference, and [dispose()] is a call on the object.
    [disposed] is the log of the [dispose()] calls, in call order. *)

Module Store.

Record t : Type := mk {
  heap : nat -> CommentThread;
  next : nat;
  disposed : list nat
}.

Definition read (st : t) (r : nat) : CommentThread := heap st r.

Definition write (r : nat) (th : CommentThread) (st : t) : t :=
  mk (fun r' => if Nat.eqb r' r then th else heap st r') (next st) (disposed st).

Definition dispose (r : nat) (st : t) : t :=
  mk (heap st) (next st) (disposed st ++ [r]).

Definition alloc (th : CommentThread) (st : t) : nat * t :=
  (next st,
   mk (fun r' => if Nat.eqb r' (next st) then th else heap st r') (S (next st)) (disposed st)).

End Store.

(** Modelled from the spec: [createVSCodeCommentThread] of [github/utils]:
    it creates the live thread of a descriptor through the comment
    controller and copies the comments, the commands of the draft mode and
    the collapse state into it (the same steps are written out in
    [updatePRorReviewCommentThreads]). *)
Definition createVSCodeCommentThread (thread : CommentThread) (inDraftMode : bool)
           (st : Store.t) : nat * Store.t :=
  Store.alloc (mkThread (threadId thread) (resource thread) (range thread)
                        (comments thread) (collapsibleState thread) (Some inDraftMode)) st.

(** [threads.forEach(t => result.push(createVSCodeCommentThread(t, ...)))]. *)
Definition createAll (descriptors : list CommentThread) (inDraftMode : bool) (st : Store.t)
  : list nat * Store.t :=
  fold_left (fun acc thread =>
               let '(r, st') := createVSCodeCommentThread thread inDraftMode (snd acc) in
               (fst acc ++ [r], st'))
            descriptors ([], st).

(** The remote API client ([PullRequestManager]), as the answers it gives. *)
Record Remote : Type := mkRemote {
  authenticate : bool;
  remote_inDraftMode : Outcome bool;
  editReviewComment : Comment -> string -> Outcome Comment;
  deleteReviewComment : string -> Outcome unit;
  createComment : string -> string -> Z -> Outcome Comment;
  addCommentReaction : Comment -> CommentReaction -> Outcome (list CommentReaction);
  deleteCommentReaction : Comment -> CommentReaction -> Outcome (list CommentReaction);
  (* [deletedReviewId] and [deletedReviewComments] *)
  remote_deleteReview : Outcome (Z * list Comment)
}.

(** ** [ReviewDocumentCommentProvider], comment-controller revision
    (the first class of [unnamed/part_000]) *)

Module Review.

Local Open Scope js_scope.

Record State : Type := mkState {
  _localFileChanges : list FileChange;
  _obsoleteFileChanges : list FileChangeNode;
  _comments : list Comment;
  _workspaceFileChangeCommentThreads : Obj.t (list nat);
  _obsoleteFileChangeCommentThreads : Obj.t (list nat);
  _reviewDocumentCommentThreads : Obj.t (list nat);
  _prDocumentCommentThreads : Obj.t (list nat);
  activePullRequest : bool;        (* whether [_prManager.activePullRequest] is set *)
  pr_inDraftMode : bool;           (* [activePullRequest.inDraftMode] *)
  inputBox : option string;        (* [commentController.inputBox], with its value *)
  store : Store.t
}.

Definition set_localFileChanges (v : list FileChange) (s : State) : State :=
  mkState v (_obsoleteFileChanges s) (_comments s) (_workspaceFileChangeCommentThreads s)
          (_obsoleteFileChangeCommentThreads s) (_reviewDocumentCommentThreads s)
          (_prDocumentCommentThreads s) (activePullRequest s) (pr_inDraftMode s)
          (inputBox s) (store s).

Definition set_obsoleteFileChanges (v : list FileChangeNode) (s : State) : State :=
  mkState (_localFileChanges s) v (_comments s) (_workspaceFileChangeCommentThreads s)
          (_obsoleteFileChangeCommentThreads s) (_reviewDocumentCommentThreads s)
          (_prDocumentCommentThreads s) (activePullRequest s) (pr_inDraftMode s)
          (inputBox s) (store s).

Definition set__comments (v : list Comment) (s : State) : State :=
  mkState (_localFileChanges s) (_obsoleteFileChanges s) v
          (_workspaceFileChangeCommentThreads s)
          (_obsoleteFileChangeCommentThreads s) (_reviewDocumentCommentThreads s)
          (_prDocumentCommentThreads s) (activePullRequest s) (pr_inDraftMode s)
          (inputBox s) (store s).

Definition set_maps (w o r p : Obj.t (list nat)) (s : State) : State :=
  mkState (_localFileChanges s) (_obsoleteFileChanges s) (_comments s) w o r p
          (activePullRequest s) (pr_inDraftMode s) (inputBox s) (store s).

Definition set_pr_inDraftMode (v : bool) (s : State) : State :=
  mkState (_localFileChanges s) (_obsoleteFileChanges s) (_comments s)
          (_workspaceFileChangeCommentThreads s)
          (_obsoleteFileChangeCommentThreads s) (_reviewDocumentCommentThreads s)
          (_prDocumentCommentThreads s) (activePullRequest s) v (inputBox s) (store s).

Definition set_inputBox (v : option string) (s : State) : State :=
  mkState (_localFileChanges s) (_obsoleteFileChanges s) (_comments s)
          (_workspaceFileChangeCommentThreads s)
          (_obsoleteFileChangeCommentThreads s) (_reviewDocumentCommentThreads s)
          (_prDocumentCommentThreads s) (activePullRequest s) (pr_inDraftMode s) v (store s).

Definition set_store (v : Store.t) (s : State) : State :=
  mkState (_localFileChanges s) (_obsoleteFileChanges s) (_comments s)
          (_workspaceFileChangeCommentThreads s)
          (_obsoleteFileChangeCommentThreads s) (_reviewDocumentCommentThreads s)
          (_prDocumentCommentThreads s) (activePullRequest s) (pr_inDraftMode s)
          (inputBox s) v.

(** A file change object, by the list that holds it and its index there. *)
Inductive FileRef : Type :=
| LocalFile (i : nat)
| ObsoleteFile (i : nat).

Definition file_at (s : State) (r : FileRef) : option FileChange :=
  match r with
  | LocalFile i => nth_error (_localFileChanges s) i
  | ObsoleteFile i =>
      match nth_error (_obsoleteFileChanges s) i with
      | Some (InMemFileChangeNode f) => Some f
      | _ => None
      end
  end.

Fixpoint update_nth {A} (i : nat) (f : A -> A) (l : list A) : list A :=
  match l, i with
  | [], _ => []
  | x :: r, O => f x :: r
  | x :: r, S j => x :: update_nth j f r
  end.

(** [file.comments = cs] on the object that [r] refers to. *)
Definition set_file_comments (r : FileRef) (cs : list Comment) (s : State) : State :=
  match r with
  | LocalFile i =>
      set_localFileChanges
        (update_nth i (fun f => set_fc_comments f cs) (_localFileChanges s)) s
  | ObsoleteFile i =>
      set_obsoleteFileChanges
        (update_nth i (fun n => match n with
                                | InMemFileChangeNode f =>
                                    InMemFileChangeNode (set_fc_comments f cs)
                                | RemoteFileChangeNode _ => n
                                end) (_obsoleteFileChanges s)) s
  end.

Definition file_comments (s : State) (r : FileRef) : list Comment :=
  match file_at s r with
  | Some f => fc_comments f
  | None => []
  end.

(** [findMatchedFileByUri]: the first file change, among the obsolete ones
    for an outdated review URI and among the local ones otherwise, that
    the URI names.  A URI of another scheme leaves [fileName] undefined and
    the comparison of paths throws on the first candidate. *)
Definition findMatchedFileByUri (E : Env) (s : State) (uri : Uri) : Outcome (option FileRef) :=
  let isReview := String.eqb (scheme uri) "review" in
  let isFile := String.eqb (scheme uri) "file" in
  let isPR := String.eqb (scheme uri) "pr" in
  let reviewQuery := if isReview then fromReviewUri E uri else None in
  if (isReview && match reviewQuery with None => true | Some _ => false end)%bool
  then Threw "fromReviewUri"
  else if (isPR && match fromPRUri E uri with None => true | Some _ => false end)%bool
  then Threw "fromPRUri"
  else
    let isOutdated := match reviewQuery with Some q => rv_isOutdated q | None => false end in
    let target : option string :=
      if isPR then option_map pr_fileName (fromPRUri E uri)
      else if isFile then Some (uri_path uri)
      else option_map rv_path reviewQuery in
    let matches (fc : FileChange) : bool :=
      match target with
      | Some name =>
          if (isReview || isPR)%bool then String.eqb (fileName fc) name
          else String.eqb (nodePath_join E (uri_path (rootUri E)) (fileName fc)) name
      | None => false
      end
    in
    let matchesNode (n : FileChangeNode) : bool :=
      match n with
      | InMemFileChangeNode fc => matches fc
      | RemoteFileChangeNode _ => false
      end in
    match target with
    | None =>
        match (if isOutdated then gitFileChangeNodeFilter (_obsoleteFileChanges s)
               else _localFileChanges s) with
        | [] => Returned None
        | _ => Threw "Uri.file"
        end
    | Some _ =>
        Returned (if isOutdated
                  then option_map ObsoleteFile (JS.findIndex matchesNode (_obsoleteFileChanges s))
                  else option_map LocalFile (JS.findIndex matches (_localFileChanges s)))
    end.

(** [c.id.toString() === comment.commentId] and [c.id === Number(comment.commentId)]. *)
Definition same_id (comment : VSComment) (c : Comment) : bool :=
  String.eqb (JS.toString (id c)) (commentId comment).

Definition number_id (comment : VSComment) (c : Comment) : bool :=
  match JS.Number (commentId comment) with
  | Some z => (id c =? z)%Z
  | None => false
  end.

(** [i = cs.findIndex(...); if (i > -1) cs.splice(i, 1, item)]. *)
Definition replace_comment (comment : VSComment) (item : Comment) (cs : list Comment)
  : list Comment :=
  match JS.findIndex (same_id comment) cs with
  | Some index => JS.splice_replace index item cs
  | None => cs
  end.

(** [i = cs.findIndex(...); if (i > -1) cs.splice(i, 1)]. *)
Definition remove_comment (comment : VSComment) (cs : list Comment) : list Comment :=
  match JS.findIndex (same_id comment) cs with
  | Some index => JS.splice_remove index cs
  | None => cs
  end.

(** [thread.comments.map(cmt => cmt.commentId === v.commentId ? v : cmt)]. *)
Definition replace_in_thread (v : VSComment) (cs : list VSComment) : list VSComment :=
  map (fun cmt => if String.eqb (commentId cmt) (commentId v) then v else cmt) cs.

Definition modify_thread (thread : nat) (f : CommentThread -> CommentThread) : M State unit :=
  modify (fun s => set_store (Store.write thread (f (Store.read (store s) thread)) (store s)) s).

(** [editComment]. *)
Definition editComment (E : Env) (R : Remote) (thread : nat) (comment : VSComment)
  : M State unit :=
  rethrow (formatError E)
    (s <- get ;;
     match authenticate R, inputBox s with
     | true, Some value =>
         if negb (activePullRequest s)
         then throw "Unable to find active pull request"
         else
           matchedFile <- await (findMatchedFileByUri E s
                                   (resource (Store.read (store s) thread))) ;;
           match matchedFile with
           | None => throw "Unable to find matching file"
           | Some file =>
               match find (number_id comment) (file_comments s file) with
               | None => throw "Unable to find comment"
               | Some rawComment =>
                   editedComment <- await (editReviewComment R rawComment value) ;;
                   (* Update the cached comments of the file *)
                   modify (fun s => set_file_comments file
                                      (replace_comment comment editedComment
                                                       (file_comments s file)) s) ;;;
                   (* Also update this._comments *)
                   modify (fun s => set__comments
                                      (replace_comment comment editedComment (_comments s)) s) ;;;
                   modify_thread thread
                     (fun th => set_comments th
                                  (replace_in_thread
                                     (convertToVSCodeComment editedComment None)
                                     (comments th)))
               end
           end
     | _, _ => ret tt
     end).

(** [deleteComment]. *)
Definition deleteComment (E : Env) (R : Remote) (thread : nat) (comment : VSComment)
  : M State unit :=
  rethrow (formatError E)
    (s <- get ;;
     if negb (activePullRequest s)
     then throw "Unable to find active pull request"
     else
       matchedFile <- await (findMatchedFileByUri E s
                               (resource (Store.read (store s) thread))) ;;
       match matchedFile with
       | None => throw "Unable to find matching file"
       | Some file =>
           await (deleteReviewComment R (commentId comment)) ;;;
           modify (fun s => set_file_comments file
                              (remove_comment comment (file_comments s file)) s) ;;;
           modify (fun s => set__comments (remove_comment comment (_comments s)) s) ;;;
           modify_thread thread
             (fun th =>
                match JS.findIndex (fun c => String.eqb (commentId c) (commentId comment))
                                   (comments th) with
                | Some index => set_comments th (JS.splice_remove index (comments th))
                | None => th
                end) ;;;
           inDraftMode <- await (remote_inDraftMode R) ;;
           s' <- get ;;
           if Bool.eqb inDraftMode (pr_inDraftMode s')
           then ret tt
           else modify (set_pr_inDraftMode inDraftMode)
       end).

(** [editReaction].  The remote answer is the reaction summary that
    [parseGraphQLReaction] makes of the returned reaction groups. *)
Definition editReaction (E : Env) (R : Remote) (documentUri : Uri) (comment : VSComment)
           (reaction : CommentReaction) (addReaction : bool) : M State unit :=
  rethrow (formatError E)
    (s <- get ;;
     if negb (activePullRequest s)
     then throw "Unable to find active pull request"
     else
       matchedFile <- await (findMatchedFileByUri E s documentUri) ;;
       match matchedFile with
       | None => throw "Unable to find matching file"
       | Some file =>
           match find (number_id comment) (file_comments s file) with
           | None => throw "Unable to find comment"
           | Some rawComment =>
               reactionGroups <- await (if addReaction
                                        then addCommentReaction R rawComment reaction
                                        else deleteCommentReaction R rawComment reaction) ;;
               (* Update the cached comments of the file *)
               modify (fun s =>
                         match JS.findIndex (same_id comment) (file_comments s file) with
                         | Some index =>
                             set_file_comments file
                               (update_nth index
                                           (fun c => set_reactions c (Some reactionGroups))
                                           (file_comments s file)) s
                         | None => s
                         end)
           end
       end).

(** [updateCommentThreadRoot]: the first comment of a new thread. *)
Definition updateCommentThreadRoot (E : Env) (R : Remote) (thread : nat) (text : string)
  : M State unit :=
  s <- get ;;
  let uri := resource (Store.read (store s) thread) in
  matchedFile <- await (findMatchedFileByUri E s uri) ;;
  q <- (if String.eqb (query uri) ""
        then ret None
        else match fromReviewUri E uri with
             | Some q => ret (Some q)
             | None => throw "fromReviewUri"
             end) ;;
  let isBase := match q with Some q => rv_base q | None => false end in
  match matchedFile with
  | None => throw "Cannot find document"
  | Some file =>
      if negb (activePullRequest s)
      then throw "No active pull request"
      else
        match file_at s file with
        | None => throw "Cannot find document"
        | Some matched =>
            (* git diff sha -- fileName *)
            let contentDiff := diffWith E (headSha E) (fileName matched) in
            let position :=
              mapHeadLineToDiffHunkPosition E (fc_diffHunks matched) contentDiff
                (startLine (range (Store.read (store s) thread)) + 1)%Z isBase in
            if (position <? 0)%Z
            then throw "Comment position cannot be negative"
            else
              rawComment <- await (createComment R text (fileName matched) position) ;;
              modify_thread thread
                (fun th => set_comments th [convertToVSCodeComment rawComment None]) ;;;
              inDraftMode <- await (remote_inDraftMode R) ;;
              modify_thread thread (fun th => set_commands th inDraftMode) ;;;
              modify (fun s => set_file_comments file (file_comments s file ++ [rawComment]) s) ;;;
              modify (fun s => set__comments (_comments s ++ [rawComment]) s)
        end
  end.

(** The filter of [deleteReview] on the comments of a thread. *)
Definition is_deleted (deletedReviewComments : list Comment) (comment : VSComment) : bool :=
  existsb (fun deletedComment =>
             String.eqb (JS.toString (id deletedComment)) (commentId comment))
          deletedReviewComments.

Definition survivors (deletedReviewComments : list Comment) (cs : list VSComment)
  : list VSComment :=
  filter (fun comment => negb (is_deleted deletedReviewComments comment)) cs.

(** The body of [commentThreadMap[fileName].forEach(thread => ...)]. *)
Definition deleteReview_thread (deletedReviewComments : list Comment)
           (acc : list nat * Store.t) (thread : nat) : list nat * Store.t :=
  let st := snd acc in
  let th := Store.read st thread in
  let st1 :=
    Store.write thread (set_comments th (survivors deletedReviewComments (comments th))) st in
  match comments (Store.read st1 thread) with
  | [] => (fst acc, Store.dispose thread st1)
  | _ :: _ => (fst acc ++ [thread], st1)
  end.

(** The body of [for (let fileName in commentThreadMap)]. *)
Definition deleteReview_entry (deletedReviewComments : list Comment)
           (acc : Obj.t (list nat) * Store.t) (fileName : string)
  : Obj.t (list nat) * Store.t :=
  match Obj.get (fst acc) fileName with
  | None => acc   (* the key was enumerated, so the property exists *)
  | Some entry =>
      let '(threads, st) :=
        fold_left (deleteReview_thread deletedReviewComments) entry ([], snd acc) in
      match threads with
      | [] => (Obj.delete (fst acc) fileName, st)
      | _ :: _ => (Obj.set (fst acc) fileName threads, st)
      end
  end.

Definition deleteReview_map (deletedReviewComments : list Comment)
           (commentThreadMap : Obj.t (list nat)) (st : Store.t)
  : Obj.t (list nat) * Store.t :=
  fold_left (deleteReview_entry deletedReviewComments)
            (map fst (Obj.for_in commentThreadMap)) (commentThreadMap, st).

(** [deleteReview]. *)
Definition deleteReview (R : Remote) : M State unit :=
  res <- await (remote_deleteReview R) ;;
  let deletedReviewComments := snd res in
  modify (fun s => match inputBox s with
                   | Some (String _ _) => set_inputBox (Some EmptyString) s
                   | _ => s
                   end) ;;;
  modify (fun s =>
            let '(w, st1) := deleteReview_map deletedReviewComments
                               (_workspaceFileChangeCommentThreads s) (store s) in
            let '(o, st2) := deleteReview_map deletedReviewComments
                               (_obsoleteFileChangeCommentThreads s) st1 in
            let '(p, st3) := deleteReview_map deletedReviewComments
                               (_prDocumentCommentThreads s) st2 in
            let '(r, st4) := deleteReview_map deletedReviewComments
                               (_reviewDocumentCommentThreads s) st3 in
            set_store st4 (set_maps w o r p s)).

(** The first loop of [updateFileChangeCommentThreads]: a projected thread
    whose id an existing thread carries updates that live thread in place;
    any other one gets a new live thread. *)
Definition updateOrCreate (existingCommentThreads : list nat) (inDraftMode : bool)
           (acc : list nat * Store.t) (thread : CommentThread) : list nat * Store.t :=
  let st := snd acc in
  let matchedThread :=
    filter (fun existingThread =>
              String.eqb (threadId (Store.read st existingThread)) (threadId thread))
           existingCommentThreads in
  match matchedThread with
  | matched0 :: _ =>
      let th := Store.read st matched0 in
      (fst acc ++ [matched0],
       Store.write matched0
                   (mkThread (threadId th) (resource th) (range thread) (comments thread)
                             (collapsibleState th) (Some inDraftMode)) st)
  | [] =>
      let '(r, st') := createVSCodeCommentThread thread inDraftMode st in
      (fst acc ++ [r], st')
  end.

(** The second loop: an existing thread that no projected thread matches
    is disposed. *)
Definition disposeUnmatched (newThreads : list CommentThread) (st : Store.t)
           (existingThread : nat) : Store.t :=
  match filter (fun thread =>
                  String.eqb (threadId thread) (threadId (Store.read st existingThread)))
               newThreads with
  | [] => Store.dispose existingThread st
  | _ :: _ => st
  end.

(** The [else] branch of [updateFileChangeCommentThreads] once the new
    threads are projected. *)
Definition reconcileThreads (existingCommentThreads : list nat)
           (newThreads : list CommentThread) (inDraftMode : bool) (st : Store.t)
  : list nat * Store.t :=
  let '(resultThreads, st1) :=
    fold_left (updateOrCreate existingCommentThreads inDraftMode) newThreads ([], st) in
  (resultThreads, fold_left (disposeUnmatched newThreads) existingCommentThreads st1).

(** [updateFileChangeCommentThreads(fileChanges, fileName, inDraftMode)]. *)
Definition updateFileChangeCommentThreads (E : Env) (fileChanges : list FileChange)
           (name : string) (inDraftMode : bool) : M State unit :=
  s <- get ;;
  match Obj.get (_workspaceFileChangeCommentThreads s) name with
  | None => throw "TypeError"   (* a method call on [undefined] *)
  | Some existingCommentThreads =>
      match filter (fun fileChange => String.eqb (fileName fileChange) name) fileChanges with
      | [] =>
          modify (fun s =>
                    set_maps (Obj.delete (_workspaceFileChangeCommentThreads s) name)
                             (_obsoleteFileChangeCommentThreads s)
                             (_reviewDocumentCommentThreads s)
                             (_prDocumentCommentThreads s)
                             (set_store (fold_left (fun st thread => Store.dispose thread st)
                                                   existingCommentThreads (store s)) s))
      | matchedFile :: _ =>
          let contentDiff := diffWith E (headSha E) (fileName matchedFile) in
          let matchingComments :=
            mapCommentsToHead E (fc_diffHunks matchedFile) contentDiff
                              (fc_comments matchedFile) in
          newThreads <- call (workspaceLocalCommentsToCommentThreads
                                E (Some matchedFile) matchingComments Collapsed) ;;
          modify (fun s =>
                    let '(resultThreads, st) :=
                      reconcileThreads existingCommentThreads newThreads inDraftMode
                                       (store s) in
                    set_maps (Obj.set (_workspaceFileChangeCommentThreads s) name resultThreads)
                             (_obsoleteFileChangeCommentThreads s)
                             (_reviewDocumentCommentThreads s)
                             (_prDocumentCommentThreads s)
                             (set_store st s))
      end
  end.

(** [updatePRorReviewCommentThreads(map, fileName, threads,
    matchedFileCommentThreads, inDraftMode)], on the map it is given. *)
Definition updatePRorReviewCommentThreads (map_ : Obj.t (list nat)) (name : string)
           (threads_ matchedFileCommentThreads : list nat) (inDraftMode : bool)
           (st : Store.t) : Obj.t (list nat) * Store.t :=
  match threads_ with
  | [] => (map_, st)
  | thread0 :: _ =>
      let resourceUri := resource (Store.read st thread0) in
      let acc1 :=
        fold_left
          (fun (acc : list nat * Store.t) thread =>
             let st := snd acc in
             match find (fun localFileCommentThread =>
                           String.eqb (threadId (Store.read st localFileCommentThread))
                                      (threadId (Store.read st thread)))
                        matchedFileCommentThreads with
             | Some matchedFileCommentThread =>
                 (fst acc ++ [matchedFileCommentThread],
                  Store.write matchedFileCommentThread
                              (set_commands (Store.read st matchedFileCommentThread)
                                            inDraftMode) st)
             | None => (fst acc, Store.dispose thread st)
             end)
          threads_ ([], st) in
      let acc2 :=
        fold_left
          (fun (acc : list nat * Store.t) localFileCommentThread =>
             let st := snd acc in
             let local := Store.read st localFileCommentThread in
             match find (fun thread =>
                           String.eqb (threadId (Store.read st thread)) (threadId local))
                        threads_ with
             | Some _ => acc
             | None =>
                 let '(vscodeThread, st') :=
                   Store.alloc (mkThread (threadId local) resourceUri (range local)
                                         (comments local) (collapsibleState local)
                                         (Some inDraftMode)) st in
                 (fst acc ++ [vscodeThread], st')
             end)
          matchedFileCommentThreads acc1 in
      (Obj.set map_ name (fst acc2), snd acc2)
  end.

(** [JSON.parse(uri.query).commit], through the review URI parser. *)
Definition uriCommit (E : Env) (u : Uri) : option string :=
  option_map rv_commit (fromReviewUri E u).

Definition option_string_eqb (a : option string) (b : string) : bool :=
  match a with
  | Some a' => String.eqb a' b
  | None => false
  end.

(** [findMatchedFileChangeForReviewDiffView], for a URI that parses to
    [query]. *)
Definition findMatchedFileChangeForReviewDiffView (E : Env) (fileChanges : list FileChangeNode)
           (q : ReviewUriParams) : option FileChange :=
  match filter (fun fileChange =>
                  if negb (String.eqb (fileName fileChange) (rv_path q)) then false
                  else if (negb (String.eqb (scheme (filePath fileChange)) "review")
                           && option_string_eqb (sha fileChange) (rv_commit q))%bool then true
                  else if option_string_eqb (uriCommit E (filePath fileChange)) (rv_commit q)
                  then true
                  else option_string_eqb (uriCommit E (parentFilePath fileChange)) (rv_commit q))
               (gitFileChangeNodeFilter fileChanges) with
  | matched :: _ => Some matched
  | [] => None
  end.

(** The loop over the groups of outdated comments in
    [provideCommentInfoForReviewUri]; the [return] stands inside the loop,
    after the first thread that is pushed. *)
Fixpoint outdatedReviewThreads (E : Env) (q : ReviewUriParams)
         (sections : list (string * list Comment)) : Outcome (option CommentInfo) :=
  match sections with
  | [] => Returned None
  | (_, commentGroup) :: rest =>
      match commentGroup with
      | [] => outdatedReviewThreads E q rest   (* [groupBy] creates no empty group *)
      | firstComment :: _ =>
          match getLastDiffLine E (diffHunk firstComment) with
          | None => outdatedReviewThreads E q rest   (* continue *)
          | Some diffLine =>
              let lineNumber :=
                if rv_base q then dl_oldLineNumber diffLine
                else if (0 <? dl_oldLineNumber diffLine)%Z then (-1)%Z
                     else dl_newLineNumber diffLine in
              if (lineNumber <? 0)%Z then outdatedReviewThreads E q rest   (* continue *)
              else
                andThen (lineRange lineNumber)
                  (fun range =>
                     Returned
                       (Some (mkCommentInfo
                                [mkThread (JS.toString (id firstComment))
                                          (mkUri "file"
                                                 (nodePath_join E (uri_path (rootUri E))
                                                                (path firstComment)) "")
                                          range
                                          (map (fun comment =>
                                                  convertToVSCodeComment comment None)
                                               commentGroup)
                                          Expanded None]
                                [] None)))
          end
      end
  end.

(** [provideCommentInfoForReviewUri(document, query, inDraftMode)], for a
    document whose URI parses to [query].  The first branch is the live
    view of a file of the pull request, the second the view of an
    outdated commit. *)
Definition provideCommentInfoForReviewUri (E : Env) (s : State) (q : ReviewUriParams)
  : Outcome (option CommentInfo) :=
  match findMatchedFileChangeForReviewDiffView E
          (map InMemFileChangeNode (_localFileChanges s)) q with
  | Some matchedFile =>
      let isBase := rv_base q in
      let matchingComments :=
        map (fun comment =>
               set_absolutePosition comment
                 (Some (getAbsolutePosition E comment (fc_diffHunks matchedFile) isBase)))
            (fc_comments matchedFile) in
      andThen (workspaceLocalCommentsToCommentThreads E (Some matchedFile)
                 (filter (fun comment =>
                            match absolutePosition comment with
                            | Some p => (0 <? p)%Z
                            | None => false
                            end) matchingComments)
                 Expanded)
        (fun threads_ =>
           andThen (getCommentingRanges (fc_diffHunks matchedFile) isBase)
             (fun commentingRanges_ =>
                Returned (Some (mkCommentInfo threads_ commentingRanges_ None))))
  | None =>
      let comments_ :=
        match findMatchedFileChangeForReviewDiffView E (_obsoleteFileChanges s) q with
        | None =>
            filter (fun comment =>
                      (String.eqb (path comment) (rv_path q)
                       && match originalCommitId comment with
                          | Some c => String.eqb (c ++ "^") (rv_commit q)
                          | None => String.eqb "undefined^" (rv_commit q)
                          end)%bool)
                   (_comments s)
        | Some matchedObsoleteFile => fc_comments matchedObsoleteFile
        end in
      match comments_ with
      | [] => Returned None
      | _ :: _ =>
          outdatedReviewThreads E q (Obj.for_in (groupBy comments_ originalPositionKey))
      end
  end.

(** The calls of the API client that the replies use. *)
Record ReviewApi : Type := mkReviewApi {
  (* [createCommentReply(pullRequest, body, reply_to)] *)
  createCommentReply : string -> Comment -> Outcome Comment
}.

(** [createOrReplyComment]. *)
Definition createOrReplyComment (E : Env) (R : Remote) (A : ReviewApi) (thread : nat)
  : M State unit :=
  s <- get ;;
  match authenticate R, inputBox s with
  | true, Some value =>
      match comments (Store.read (store s) thread) with
      | comment :: _ =>
          rawComment <- await (createCommentReply A value (_rawComment comment)) ;;
          modify_thread thread
            (fun th => set_comments th
                         (comments th ++ [convertToVSCodeComment rawComment None])) ;;;
          modify (set_inputBox (Some EmptyString))
      | [] =>
          (* create new comment thread *)
          updateCommentThreadRoot E R thread value ;;;
          modify (set_inputBox (Some EmptyString))
      end
  | _, _ => ret tt
  end.

End Review.

(** ** Detecting an edited thread: [commentsEditedInThread]

    The function is written twice in the sources, with the same text: at
    the top of [pullRequestNode.ts] and inside [updateComments]. *)

(** The test of the loop over the reactions, at index [i]. *)
Definition reactionDiffersAt (matching old : list CommentReaction) (i : nat) : bool :=
  match nth_error matching i, nth_error old i with
  | Some m, Some o =>
      (negb (String.eqb (label m) (label o))
       || negb (Bool.eqb (hasReacted m) (hasReacted o)))%bool
  | _, _ => false   (* not reached: the lengths are equal *)
  end.

(** The callback of [oldComments.some(...)]. *)
Definition commentEdited (newComments : list VSComment) (oldComment : VSComment) : bool :=
  let matchingComment :=
    filter (fun newComment => String.eqb (commentId newComment) (commentId oldComment))
           newComments in
  match matchingComment with
  | [matching] =>
      if negb (String.eqb (body_value matching) (body_value oldComment)) then true
      else
        match commentReactions matching, commentReactions oldComment with
        | None, None => false   (* no comment reactions *)
        | Some rm, Some ro =>
            if negb (Nat.eqb (List.length rm) (List.length ro)) then true
            else existsb (reactionDiffersAt rm ro) (seq 0 (List.length rm))
        | _, _ => true
        end
  | _ => true
  end.

Definition commentsEditedInThread (oldComments newComments : list VSComment) : bool :=
  existsb (commentEdited newComments) oldComments.

(** The condition under which a matched thread counts as changed:
    [match.comments.length !== thread.comments.length ||
     commentsEditedInThread(match.comments, thread.comments)]. *)
Definition threadChanged (oldComments newComments : list VSComment) : bool :=
  (negb (Nat.eqb (List.length oldComments) (List.length newComments))
   || commentsEditedInThread oldComments newComments)%bool.

(** ** [ReviewDocumentCommentProvider], event-emitter revision
    (the second class of [unnamed/part_000]) *)

Module ReviewEvents.

Local Open Scope js_scope.

Record State : Type := mkState {
  _localFileChanges : list FileChange;
  _comments : list Comment
}.

(** A [vscode.CommentThreadChangedEvent], as the provider fires it on the
    emitter of the document threads and, with the same three lists, on the
    emitter of the workspace threads; [draftMode] is the field
    [inDraftMode] of the former. *)
Record CommentThreadChangedEvent : Type := mkEvent {
  added : list CommentThread;
  removed : list CommentThread;
  changed : list CommentThread;
  draftMode : bool
}.

(** [allCommentsToCommentThreads]. *)
Definition allCommentsToCommentThreads (E : Env) (s : State) (comments_ : list Comment)
           (collapsibleState : CommentThreadCollapsibleState)
  : Outcome (list CommentThread) :=
  match comments_ with
  | [] => Returned []
  | _ :: _ =>
      let fileCommentGroups := groupBy comments_ path in
      pushEach
        (fun group : string * list Comment =>
           match filter (fun fileChange => String.eqb (fileName fileChange) (fst group))
                        (_localFileChanges s) with
           | matched0 :: _ =>
               workspaceLocalCommentsToCommentThreads E (Some matched0) (snd group)
                                                      collapsibleState
           | [] => Returned []
           end)
        (Obj.for_in fileCommentGroups) []
  end.

(** The first loop of [updateComments]: the old threads that no new thread
    matches. *)
Definition removedThreads (oldCommentThreads newCommentThreads : list CommentThread)
  : list CommentThread :=
  fold_left
    (fun removed thread =>
       match filter (fun newThread => String.eqb (threadId newThread) (threadId thread))
                    newCommentThreads with
       | [] => removed ++ [thread]
       | _ :: _ => removed
       end)
    oldCommentThreads [].

(** The second loop of [updateComments], which fills [added] and
    [changed]. *)
Definition addedAndChanged (oldCommentThreads newCommentThreads : list CommentThread)
  : list CommentThread * list CommentThread :=
  fold_left
    (fun (acc : list CommentThread * list CommentThread) thread =>
       let matchingCommentThread :=
         filter (fun oldComment => String.eqb (threadId oldComment) (threadId thread))
                oldCommentThreads in
       (* No old threads match this thread, it is new *)
       let thread' :=
         match matchingCommentThread with
         | [] => if String.eqb (scheme (resource thread)) "file"
                 then set_collapsibleState thread Collapsed else thread
         | _ :: _ => thread
         end in
       let added :=
         match matchingCommentThread with
         | [] => fst acc ++ [thread']
         | _ :: _ => fst acc
         end in
       (* Check if comment has been updated *)
       let changed :=
         fold_left
           (fun changed match_ =>
              if (negb (Nat.eqb (List.length (comments match_)) (List.length (comments thread')))
                  || commentsEditedInThread
                       (comments (hd match_ matchingCommentThread))
                       (comments thread'))%bool
              then changed ++ [thread'] else changed)
           matchingCommentThread (snd acc) in
       (added, changed))
    newCommentThreads ([], []).

(** [updateComments(comments)]: the event it fires, if any, and the state
    it leaves.  The draft mode is awaited inside the argument of the first
    [fire], before any event is fired and before the comments are
    stored. *)
Definition updateComments (E : Env) (R : Remote) (comments_ : list Comment)
  : M State (option CommentThreadChangedEvent) :=
  s <- get ;;
  oldCommentThreads <- call (allCommentsToCommentThreads E s (_comments s) Expanded) ;;
  newCommentThreads <- call (allCommentsToCommentThreads E s comments_ Expanded) ;;
  let removed := removedThreads oldCommentThreads newCommentThreads in
  let added := fst (addedAndChanged oldCommentThreads newCommentThreads) in
  let changed := snd (addedAndChanged oldCommentThreads newCommentThreads) in
  match added, removed, changed with
  | [], [], [] => ret None
  | _, _, _ =>
      inDraftMode <- await (remote_inDraftMode R) ;;
      modify (fun s =>
                mkState
                  (map (fun change =>
                          set_fc_comments change
                            (filter (fun comment =>
                                       (String.eqb (fileName change) (path comment)
                                        && match position comment with
                                           | Some _ => true
                                           | None => false
                                           end)%bool)
                                    comments_))
                       (_localFileChanges s))
                  comments_) ;;;
      ret (Some (mkEvent added removed changed inDraftMode))
  end.

(** [deleteDraft]: the state that it leaves and the event that it fires
    when the remote call returns. *)
Definition deleteDraft (E : Env) (R : Remote) (activePullRequest : bool)
  : M State CommentThreadChangedEvent :=
  (if activePullRequest then ret tt
   else throw "Unable to find active pull request") ;;;
  res <- await (remote_deleteReview R) ;;
  let deletedReviewId := fst res in
  let deletedReviewComments := snd res in
  s <- get ;;
  oldCommentThreads <- call (allCommentsToCommentThreads E s (_comments s) Expanded) ;;
  let filtered :=
    map (fun thread =>
           set_comments thread (Review.survivors deletedReviewComments (comments thread)))
        oldCommentThreads in
  let removed := filter (fun thread => match comments thread with
                                       | [] => true
                                       | _ :: _ => false
                                       end) filtered in
  let changed := filter (fun thread => match comments thread with
                                       | [] => false
                                       | _ :: _ => true
                                       end) filtered in
  let commentsByFile := groupBy deletedReviewComments path in
  modify (fun s =>
            mkState
              (fold_left
                 (fun files (group : string * list Comment) =>
                    match JS.findIndex
                            (fun fileChange => String.eqb (fileName fileChange) (fst group))
                            files with
                    | Some i =>
                        Review.update_nth i
                          (fun matchedFile =>
                             set_fc_comments matchedFile
                               (filter (fun comment =>
                                          negb (match pullRequestReviewId comment with
                                                | Some r => (r =? deletedReviewId)%Z
                                                | None => false
                                                end))
                                       (fc_comments matchedFile)))
                          files
                    | None => files
                    end)
                 (Obj.for_in commentsByFile) (_localFileChanges s))
              (filter (fun comment =>
                         negb (existsb (fun deletedComment =>
                                          (id deletedComment =? id comment)%Z)
                                       deletedReviewComments))
                      (_comments s))) ;;;
  ret (mkEvent [] removed changed false).

End ReviewEvents.

(** ** [PRNode] of [pullRequestNode.ts] *)

Module PRNode.

Local Open Scope js_scope.

Record State : Type := mkState {
  _fileChanges : list FileChangeNode;
  _fileChangeCommentThreads : Obj.t (list nat);
  store : Store.t
}.

Definition set_store (st : Store.t) (s : State) : State :=
  mkState (_fileChanges s) (_fileChangeCommentThreads s) st.

(** [createCommentThread(fileName, commentThreads, inDraftMode)]. *)
Definition createCommentThread (name : string) (commentThreads : list CommentThread)
           (inDraftMode : bool) (s : State) : State :=
  let '(threads_, st) := createAll commentThreads inDraftMode (store s) in
  mkState (_fileChanges s) (Obj.set (_fileChangeCommentThreads s) name threads_) st.

(** The first loop of [updateFileChangeCommentThreads], under the comment
    [// remove]; [newCommentThreads] is [None] for [undefined]. *)
Definition disposeOld (oldCommentThreads : list nat)
           (newCommentThreads : option (list CommentThread)) (st : Store.t) : Store.t :=
  fold_left
    (fun st thread =>
       (* No current threads match old thread, it has been removed *)
       let matchingThreads :=
         option_map
           (filter (fun newThread =>
                      String.eqb (threadId newThread) (threadId (Store.read st thread))))
           newCommentThreads in
       match matchingThreads with
       | Some _ => Store.dispose thread st   (* [matchingThreads !== undefined] *)
       | None => st
       end)
    oldCommentThreads st.

(** The loop over the new threads: it collects [added] and assigns the new
    comments to the matched threads that changed. *)
Definition addOrUpdate (oldCommentThreads : list nat)
           (acc : list CommentThread * Store.t) (thread : CommentThread)
  : list CommentThread * Store.t :=
  let st := snd acc in
  let matchingCommentThread :=
    filter (fun oldComment =>
              String.eqb (threadId (Store.read st oldComment)) (threadId thread))
           oldCommentThreads in
  let thread' :=
    match matchingCommentThread with
    | [] => if String.eqb (scheme (resource thread)) "file"
            then set_collapsibleState thread Collapsed else thread
    | _ :: _ => thread
    end in
  let added :=
    match matchingCommentThread with
    | [] => fst acc ++ [thread']
    | _ :: _ => fst acc
    end in
  (added,
   fold_left
     (fun st match_ =>
        if (negb (Nat.eqb (List.length (comments (Store.read st match_)))
                          (List.length (comments thread')))
            || commentsEditedInThread
                 (comments (Store.read st (hd match_ matchingCommentThread)))
                 (comments thread'))%bool
        then Store.write match_ (set_comments (Store.read st match_) (comments thread')) st
        else st)
     matchingCommentThread st).

(** [updateFileChangeCommentThreads(oldCommentThreads, newCommentThreads,
    newFileChange, inDraftMode)]. *)
Definition updateFileChangeCommentThreads (oldCommentThreads : list nat)
           (newCommentThreads : option (list CommentThread)) (newFileChange : FileChange)
           (inDraftMode : bool) (s : State) : State :=
  (* remove *)
  let s1 := set_store (disposeOld oldCommentThreads newCommentThreads (store s)) s in
  match newCommentThreads with
  | Some ((_ :: _) as news) =>
      let '(added, st) := fold_left (addOrUpdate oldCommentThreads) news ([], store s1) in
      let s2 := set_store st s1 in
      match added with
      | [] => s2
      | _ :: _ => createCommentThread (fileName newFileChange) added inDraftMode s2
      end
  | _ => s1
  end.

Definition threadsOf (info : option CommentInfo) : option (list CommentThread) :=
  Some (match info with
        | Some i => threads i
        | None => []
        end).

(** The body of the loop of [updateComments(fileChanges)] for the old file
    change [oldFileChange]. *)
Definition updateComments_file (E : Env) (fileChanges : list FileChangeNode)
           (inDraftMode : bool) (oldFileChange : FileChangeNode) : M State unit :=
  match oldFileChange with
  | RemoteFileChangeNode _ => ret tt   (* continue *)
  | InMemFileChangeNode old =>
      match gitFileChangeNodeFilter
              (filter (fun fileChange =>
                         String.eqb (node_fileName fileChange) (fileName old)) fileChanges) with
      | [] => ret tt   (* continue *)
      | newFileChange :: _ =>
          s <- get ;;
          match Obj.get (_fileChangeCommentThreads s) (fileName old) with
          | None => throw "TypeError"   (* [filter] on [undefined] *)
          | Some entry =>
              let oldLeftSideCommentThreads :=
                filter (fun thread =>
                          Uri_eqb (resource (Store.read (store s) thread))
                                  (parentFilePath old)) entry in
              newLeftSideCommentThreads <-
                call (provideDocumentComments E (parentFilePath newFileChange) true
                        (Some (InMemFileChangeNode newFileChange))
                        (fc_comments newFileChange) inDraftMode) ;;
              modify (updateFileChangeCommentThreads oldLeftSideCommentThreads
                        (threadsOf newLeftSideCommentThreads) newFileChange inDraftMode) ;;;
              s' <- get ;;
              match Obj.get (_fileChangeCommentThreads s') (fileName old) with
              | None => throw "TypeError"
              | Some entry' =>
                  let oldRightSideCommentThreads :=
                    filter (fun thread =>
                              Uri_eqb (resource (Store.read (store s') thread))
                                      (filePath old)) entry' in
                  newRightSideCommentThreads <-
                    call (provideDocumentComments E (filePath newFileChange) true
                            (Some (InMemFileChangeNode newFileChange))
                            (fc_comments newFileChange) inDraftMode) ;;
                  modify (updateFileChangeCommentThreads oldRightSideCommentThreads
                            (threadsOf newRightSideCommentThreads) newFileChange inDraftMode)
              end
          end
      end
  end.

(** [updateComments(fileChanges)]. *)
Definition updateComments (E : Env) (fileChanges : list FileChangeNode) (inDraftMode : bool)
  : M State unit :=
  s <- get ;;
  fold_left (fun m oldFileChange =>
               m ;;; updateComments_file E fileChanges inDraftMode oldFileChange)
            (_fileChanges s) (ret tt).

(** The body of the loop of [deleteReview] for one path of the deleted
    comments. *)
Definition deleteReview_path (deletedReviewId : Z) (deletedReviewComments : list Comment)
           (s : State) (filePath_ : string) : State :=
  match JS.findIndex (fun fileChange => String.eqb (node_fileName fileChange) filePath_)
                     (_fileChanges s) with
  | None => s
  | Some i =>
      match nth_error (_fileChanges s) i with
      | Some (InMemFileChangeNode matchingFileChange) =>
          let '(map_, st) :=
            match Obj.get (_fileChangeCommentThreads s) (fileName matchingFileChange) with
            | Some _ =>   (* an array is truthy, also when it is empty *)
                Review.deleteReview_entry deletedReviewComments
                  (_fileChangeCommentThreads s, store s) (fileName matchingFileChange)
            | None => (_fileChangeCommentThreads s, store s)
            end in
          (* Remove deleted comments from the file change's comment list *)
          mkState
            (Review.update_nth i
               (fun n =>
                  InMemFileChangeNode
                    (set_fc_comments matchingFileChange
                       (filter (fun comment =>
                                  negb (match pullRequestReviewId comment with
                                        | Some r => (r =? deletedReviewId)%Z
                                        | None => false
                                        end))
                               (fc_comments matchingFileChange))))
               (_fileChanges s))
            map_ st
      | _ => s
      end
  end.

(** [deleteReview]. *)
Definition deleteReview (R : Remote) : M State unit :=
  res <- await (remote_deleteReview R) ;;
  let deletedReviewId := fst res in
  let deletedReviewComments := snd res in
  (* Group comments by file and then position to create threads. *)
  let commentsByPath := groupBy deletedReviewComments path in
  modify (fun s =>
            fold_left (deleteReview_path deletedReviewId deletedReviewComments)
                      (map fst (Obj.for_in commentsByPath)) s).

(** [findMatchingFileNode(uri)]: the index in [_fileChanges] of the first
    file change with the file name of the URI, and the file change. *)
Definition findMatchingFileNode (E : Env) (s : State) (uri : Uri)
  : Outcome (nat * FileChange) :=
  match fromPRUri E uri with
  | None => Threw "is not valid PR document"
  | Some params =>
      match JS.findIndex (fun change => String.eqb (node_fileName change) (pr_fileName params))
                         (_fileChanges s) with
      | None => Threw "No matching file found"
      | Some i =>
          match nth_error (_fileChanges s) i with
          | Some (InMemFileChangeNode fileChange) => Returned (i, fileChange)
          | _ => Threw "Comments not supported on remote file changes"
          end
      end
  end.

(** [editComment(thread, comment)]; [inputBox] is the input box of the
    comment controller. *)
Definition editComment (E : Env) (R : Remote) (inputBox : option string) (thread : nat)
           (comment : VSComment) : M State unit :=
  s <- get ;;
  match authenticate R, inputBox with
  | true, Some value =>
      found <- await (findMatchingFileNode E s (resource (Store.read (store s) thread))) ;;
      let '(i, fileChange) := found in
      match find (Review.same_id comment) (fc_comments fileChange) with
      | None => throw "Unable to find comment"
      | Some existingComment =>
          rawComment <- await (editReviewComment R existingComment value) ;;
          modify (fun s =>
                    mkState
                      (Review.update_nth i
                         (fun n =>
                            match n with
                            | InMemFileChangeNode f =>
                                InMemFileChangeNode
                                  (set_fc_comments f
                                     (Review.replace_comment comment rawComment
                                                             (fc_comments f)))
                            | RemoteFileChangeNode _ => n
                            end)
                         (_fileChanges s))
                      (_fileChangeCommentThreads s) (store s)) ;;;
          modify (fun s =>
                    set_store
                      (Store.write thread
                         (set_comments (Store.read (store s) thread)
                            (Review.replace_in_thread
                               (convertToVSCodeComment rawComment None)
                               (comments (Store.read (store s) thread))))
                         (store s)) s)
      end
  | _, _ => ret tt
  end.

(** The two loops of [provideDocumentContent] over the diff lines. *)
Definition leftLines (hunks : list DiffHunk) : list string :=
  fold_left
    (fun left diffHunk =>
       fold_left
         (fun left diffLine =>
            match dl_type diffLine with
            | Add => left                        (* nothing *)
            | Delete => left ++ [text diffLine]
            | Control => left                    (* nothing *)
            | Context => left ++ [text diffLine]
            end)
         (diffLines diffHunk) left)
    hunks [].

Definition rightLines (hunks : list DiffHunk) : list string :=
  fold_left
    (fun right diffHunk =>
       fold_left
         (fun right diffLine =>
            match dl_type diffLine with
            | Add => right ++ [text diffLine]
            | Delete => right                    (* nothing *)
            | Control => right                   (* nothing *)
            | Context => right ++ [text diffLine]
            end)
         (diffLines diffHunk) right)
    hunks [].

Definition readContentFromDiffHunk (fileChange : FileChange) : bool :=
  (isPartial fileChange || GitChangeType_eqb (status fileChange) ADD
   || GitChangeType_eqb (status fileChange) DELETE)%bool.

(** [provideDocumentContent(uri)]. *)
Definition provideDocumentContent (E : Env) (s : State) (uri : Uri) : Outcome string :=
  match fromPRUri E uri with
  | None => Returned EmptyString
  | Some params =>
      match gitFileChangeNodeFilter
              (filter (fun contentChange =>
                         match contentChange with
                         | InMemFileChangeNode f => String.eqb (fileName f) (pr_fileName params)
                         | RemoteFileChangeNode _ => false
                         end) (_fileChanges s)) with
      | fileChange :: _ =>
          if readContentFromDiffHunk fileChange then
            if pr_isBase params
            then Returned (JS.join JS.newline (leftLines (fc_diffHunks fileChange)))
            else Returned (JS.join JS.newline (rightLines (fc_diffHunks fileChange)))
          else
            let originalFileName :=
              if GitChangeType_eqb (status fileChange) RENAME
              then previousFileName fileChange else Some (fileName fileChange) in
            match originalFileName with
            | None => Threw "TypeError"   (* [path.join] on [undefined] *)
            | Some name =>
                match show E (pr_baseCommit params)
                           (nodePath_join E (uri_path (rootUri E)) name) with
                | None => Threw "show"
                | Some originalContent =>
                    if pr_isBase params then Returned originalContent
                    else Returned (getModifiedContentFromDiffHunk E originalContent
                                                                  (patch fileChange))
                end
            end
      | [] => Returned EmptyString
      end
  end.

(** The node together with [pullRequestModel.inDraftMode]. *)
Record NodeState : Type := mkNodeState {
  node : State;
  model_inDraftMode : bool
}.

(** [fileChange.comments = f(fileChange.comments)] on the file change at
    the index [i] of [_fileChanges]. *)
Definition map_file_comments (i : nat) (f : list Comment -> list Comment) (s : State) : State :=
  mkState
    (Review.update_nth i
       (fun n => match n with
                 | InMemFileChangeNode fc =>
                     InMemFileChangeNode (set_fc_comments fc (f (fc_comments fc)))
                 | RemoteFileChangeNode _ => n
                 end)
       (_fileChanges s))
    (_fileChangeCommentThreads s) (store s).

(** [deleteComment(thread, comment)]. *)
Definition deleteComment (E : Env) (R : Remote) (thread : nat) (comment : VSComment)
  : M NodeState unit :=
  s <- get ;;
  found <- await (findMatchingFileNode E (node s)
                    (resource (Store.read (store (node s)) thread))) ;;
  let i := fst found in
  await (deleteReviewComment R (commentId comment)) ;;;
  modify (fun s =>
            mkNodeState (map_file_comments i (Review.remove_comment comment) (node s))
                        (model_inDraftMode s)) ;;;
  modify (fun s =>
            let th := Store.read (store (node s)) thread in
            match JS.findIndex (fun c => String.eqb (commentId c) (commentId comment))
                               (comments th) with
            | Some index =>
                mkNodeState
                  (set_store (Store.write thread
                                (set_comments th (JS.splice_remove index (comments th)))
                                (store (node s)))
                             (node s))
                  (model_inDraftMode s)
            | None => s
            end) ;;;
  inDraftMode <- await (remote_inDraftMode R) ;;
  s' <- get ;;
  if Bool.eqb inDraftMode (model_inDraftMode s')
  then ret tt
  else modify (fun s => mkNodeState (node s) inDraftMode).

End PRNode.

(** ** [ReviewManager.updateState]: serialising [validateState]

    The event loop is single-threaded; a run of the asynchronous method
    [validateState] is in flight from its call to the completion of its
    body and yields at each [await].  A promise is named by a number: the
    promise of a direct call of [validateState] is the promise of that
    run; the promise that [p.then(callback)] returns is the promise of the
    run that the callback starts once [p] is fulfilled.  The model covers
    the runs that return. *)

Module ReviewManager.

Record State : Type := mkState {
  _validateStatusInProgress : option nat;
  switchingToReviewMode : bool;
  running : list nat;            (* the runs of [validateState] in flight *)
  chained : list (nat * nat);    (* [(p, q)]: run [q] starts when [p] is fulfilled *)
  fresh : nat                    (* the next promise *)
}.

Definition initial : State := mkState None false [] [] 0.

Definition is_pending (s : State) (p : nat) : bool :=
  (existsb (Nat.eqb p) (running s) || existsb (fun c => Nat.eqb p (snd c)) (chained s))%bool.

(** [updateState()]. *)
Definition updateState (s : State) : State :=
  if switchingToReviewMode s then s
  else
    match _validateStatusInProgress s with
    | None =>
        (* this._validateStatusInProgress = this.validateState() *)
        mkState (Some (fresh s)) (switchingToReviewMode s) (running s ++ [fresh s])
                (chained s) (S (fresh s))
    | Some p =>
        (* this._validateStatusInProgress = p.then(async _ => await this.validateState()) *)
        if is_pending s p
        then mkState (Some (fresh s)) (switchingToReviewMode s) (running s)
                     (chained s ++ [(p, fresh s)]) (S (fresh s))
        else
          (* [p] is fulfilled: the callback runs in the next microtask *)
          mkState (Some (fresh s)) (switchingToReviewMode s) (running s ++ [fresh s])
                  (chained s) (S (fresh s))
    end.

(** The two ways in which the body of [validateState] returns: through one
    of its early [return]s, or at its end, after the statement
    [this._validateStatusInProgress = undefined]. *)
Inductive Completion : Type := EarlyReturn | ReachesEnd.

(** Run [p] returns: its promise is fulfilled and the callbacks chained on
    it start their runs. *)
Definition complete (p : nat) (c : Completion) (s : State) : option State :=
  if existsb (Nat.eqb p) (running s)
  then
    Some (mkState
            (match c with
             | ReachesEnd => None
             | EarlyReturn => _validateStatusInProgress s
             end)
            (switchingToReviewMode s)
            (filter (fun r => negb (Nat.eqb r p)) (running s)
             ++ map snd (filter (fun c => Nat.eqb (fst c) p) (chained s)))
            (filter (fun c => negb (Nat.eqb (fst c) p)) (chained s))
            (fresh s))
  else None.

Inductive Event : Type :=
| Request                               (* a call of [updateState] *)
| Completes (p : nat) (c : Completion)  (* run [p] of [validateState] returns *)
| SetSwitchingToReviewMode (b : bool).  (* the setter [switchingToReviewMode] *)

Definition step (s : State) (e : Event) : option State :=
  match e with
  | Request => Some (updateState s)
  | Completes p c => complete p c s
  | SetSwitchingToReviewMode newState =>
      let s' := mkState (_validateStatusInProgress s) newState (running s) (chained s)
                        (fresh s) in
      Some (if newState then s' else updateState s')
  end.

Fixpoint run (s : State) (trace : list Event) : option State :=
  match trace with
  | [] => Some s
  | e :: rest =>
      match step s e with
      | Some s' => run s' rest
      | None => None
      end
  end.

End ReviewManager.

(** ** Vocabulary of the statements *)

(** The diff lines that make up the base side and the head side of a file. *)
Definition onBaseSide (l : DiffLine) : bool :=
  match dl_type l with
  | Context | Delete => true
  | Add | Control => false
  end.

Definition onHeadSide (l : DiffLine) : bool :=
  match dl_type l with
  | Context | Add => true
  | Delete | Control => false
  end.

(** What makes one old comment count as edited against the new comments. *)
Definition edited_against (newComments : list VSComment) (oldComment : VSComment) : Prop :=
  let matching :=
    filter (fun newComment => String.eqb (commentId newComment) (commentId oldComment))
           newComments in
  List.length matching <> 1
  \/ exists m, matching = [m]
       /\ (body_value m <> body_value oldComment
           \/ (commentReactions m = None /\ commentReactions oldComment <> None)
           \/ (commentReactions m <> None /\ commentReactions oldComment = None)
           \/ exists rm ro,
                commentReactions m = Some rm /\ commentReactions oldComment = Some ro
                /\ (List.length rm <> List.length ro
                    \/ exists i a b,
                         nth_error rm i = Some a /\ nth_error ro i = Some b
                         /\ (label a <> label b \/ hasReacted a <> hasReacted b))).

(** [new] is [old] with [item] written at each index whose element
    satisfies [p]; every other index keeps its element, and so do the
    length and the order. *)
Definition replaced_in_place {A} (p : A -> bool) (item : A) (old new : list A) : Prop :=
  List.length new = List.length old
  /\ forall j, nth_error new j = option_map (fun c => if p c then item else c) (nth_error old j).

(** At most one element of [l] satisfies [p]. *)
Definition at_most_one {A} (p : A -> bool) (l : list A) : Prop :=
  forall i j x y, nth_error l i = Some x -> nth_error l j = Some y ->
                  p x = true -> p y = true -> i = j.

(** The groups of [groupBy]: the group of a key holds, in the order of the
    array, the elements with that key, and exists when there is one. *)
Definition group_of {T} (fn : T -> string) (arr : list T) (k : string) : list T :=
  filter (fun el => String.eqb (fn el) k) arr.

(** The thread [t] shows the raw comment [c]; exactly one thread of [ts]
    shows [c]: there is one index of [ts] whose thread shows it. *)
Definition shows (t : CommentThread) (c : Comment) : Prop :=
  exists vc, In vc (comments t) /\ _rawComment vc = c.

Definition exactly_one_shows (ts : list CommentThread) (c : Comment) : Prop :=
  exists i t,
    nth_error ts i = Some t /\ shows t c
    /\ forall j t', nth_error ts j = Some t' -> shows t' c -> j = i.

(** What a loop body pushes when it returns; nothing when it throws. *)
Definition itemsOf {A} (o : Outcome (list A)) : list A :=
  match o with
  | Returned items => items
  | Threw _ => []
  end.

(** The line numbers and lengths of the hunks are not negative, as the
    parser of a diff gives them. *)
Definition hunksFromDiff (hunks : list DiffHunk) : Prop :=
  forall h, In h hunks ->
            (0 <= oldLineNumber h /\ 0 <= oldLength h
             /\ 0 <= newLineNumber h /\ 0 <= newLength h)%Z.

(** The live threads of [existing] that carry the id of [thread], looked
    up in the store [st]. *)
Definition matchedIn (st : Store.t) (existing : list nat) (thread : CommentThread) : list nat :=
  filter (fun existingThread =>
            String.eqb (threadId (Store.read st existingThread)) (threadId thread))
         existing.

(** No projected thread carries the id of the live thread [r]. *)
Definition unmatched (st : Store.t) (news : list CommentThread) (r : nat) : bool :=
  match filter (fun thread => String.eqb (threadId thread) (threadId (Store.read st r)))
               news with
  | [] => true
  | _ :: _ => false
  end.

(** The live thread [r] keeps a comment when the deleted ones are taken
    out of it. *)
Definition keeps (deleted : list Comment) (st : Store.t) (r : nat) : bool :=
  match Review.survivors deleted (comments (Store.read st r)) with
  | [] => false
  | _ :: _ => true
  end.

(** The thread [t] without the deleted comments. *)
Definition pruned (deleted : list Comment) (t : CommentThread) : CommentThread :=
  set_comments t (Review.survivors deleted (comments t)).

(** Every thread of [st'] is the thread of [st] or that thread pruned. *)
Definition prunes (deleted : list Comment) (st st' : Store.t) : Prop :=
  forall r, Store.read st' r = Store.read st r
            \/ Store.read st' r = pruned deleted (Store.read st r).

(** The entry of a file in a map of live threads once the emptied threads
    are taken out; an entry without threads is removed. *)
Definition prunedEntry (deleted : list Comment) (st : Store.t) (entry : option (list nat))
  : option (list nat) :=
  match entry with
  | None => None
  | Some ths =>
      match filter (keeps deleted st) ths with
      | [] => None
      | r :: rest => Some (r :: rest)
      end
  end.

(** The state of the loop of [deleteReview] over the keys of the map [m0]
    once the keys [visited] are done: [m] and [st] are the map and the
    store at that point, [base] the store before the deletion started and
    [disposed0] the disposal log before the loop. *)
Definition visitedPruned (deleted : list Comment) (base : Store.t) (m0 : Obj.t (list nat))
           (disposed0 : list nat) (visited : list string)
           (m : Obj.t (list nat)) (st : Store.t) : Prop :=
  NoDup (Obj.keys m)
  /\ prunes deleted base st
  /\ (forall k, In k visited ->
                Obj.get m k = prunedEntry deleted base (Obj.get m0 k)
                /\ forall ths r, Obj.get m0 k = Some ths -> In r ths ->
                                 Store.read st r = pruned deleted (Store.read base r))
  /\ (forall k, ~ In k visited -> Obj.get m k = Obj.get m0 k)
  /\ (forall r, In r (Store.disposed st) <->
                In r disposed0
                \/ exists k ths, In k visited /\ Obj.get m0 k = Some ths /\ In r ths
                                 /\ keeps deleted base r = false).

(** The four maps of live threads that [deleteReview] walks through. *)
Definition trackedMaps (s : Review.State) : list (Obj.t (list nat)) :=
  [Review._workspaceFileChangeCommentThreads s;
   Review._obsoleteFileChangeCommentThreads s;
   Review._prDocumentCommentThreads s;
   Review._reviewDocumentCommentThreads s].

(** The live thread [r] is referenced from an entry of the map [m]. *)
Definition tracked (m : Obj.t (list nat)) (r : nat) : Prop :=
  exists k ths, In (k, ths) m /\ In r ths.

(** The chained runs wait in a line behind the run [p]: each waits for the
    one before it, and the promises are numbered in the order of their
    creation, below [bound]. *)
Fixpoint chainFrom (p bound : nat) (l : list (nat * nat)) : Prop :=
  match l with
  | [] => True
  | (a, b) :: r => a = p /\ (p < b)%nat /\ (b < bound)%nat /\ chainFrom b bound r
  end.

Fixpoint chainEnd (p : nat) (l : list (nat * nat)) : nat :=
  match l with
  | [] => p
  | (_, b) :: r => chainEnd b r
  end.

(** At most one run of [validateState] is in flight, the others wait in a
    line behind it, and [_validateStatusInProgress] is the promise of the
    last one. *)
Definition serialised (s : ReviewManager.State) : Prop :=
  match ReviewManager.running s with
  | [] =>
      ReviewManager.chained s = []
      /\ forall p, ReviewManager._validateStatusInProgress s = Some p ->
                   (p < ReviewManager.fresh s)%nat
  | [p0] =>
      (p0 < ReviewManager.fresh s)%nat
      /\ chainFrom p0 (ReviewManager.fresh s) (ReviewManager.chained s)
      /\ ReviewManager._validateStatusInProgress s
         = Some (chainEnd p0 (ReviewManager.chained s))
  | _ :: _ :: _ => False
  end.

(** An event other than a run that reaches the end of [validateState]. *)
Definition keepsField (e : ReviewManager.Event) : Prop :=
  match e with
  | ReviewManager.Completes _ ReviewManager.ReachesEnd => False
  | _ => True
  end.


(** ** Further parts of [ReviewManager] *)

(** [try { m } catch (e) { Logger.appendLine(e) }]. *)
Definition catch_log {S} (m : M S unit) : M S unit :=
  fun s => match m s with
           | (s', Returned a) => (s', Returned a)
           | (s', Threw _) => (s', Returned tt)
           end.

(** [a === b] on a field that may be [undefined]. *)
Definition option_eqb {A} (eqb : A -> A -> bool) (a b : option A) : bool :=
  match a, b with
  | Some x, Some y => eqb x y
  | None, None => true
  | _, _ => false
  end.

(** *** The listener of [repository.state.onDidChange] *)

Module RepositoryState.

(** [UpstreamRef] and [Branch] of the git extension API, with the fields
    that the listener compares. *)
Record UpstreamRef : Type := mkUpstreamRef {
  up_remote : string;
  up_name : string
}.

Record Branch : Type := mkBranch {
  br_type : Z;
  br_name : option string;
  br_commit : option string;
  br_remote : option string;
  br_upstream : option UpstreamRef;
  br_ahead : option Z;
  br_behind : option Z
}.

(** [Remote] of [common/remote.ts]; [host], [owner] and [repositoryName]
    are its getters on the parsed protocol. *)
Record Remote : Type := mkRemote {
  remoteName : string;
  url : string;
  host : string;
  owner : string;
  repositoryName : string
}.

(** [Remote.equals]. *)
Definition equals (this remote : Remote) : bool :=
  if negb (String.eqb (remoteName this) (remoteName remote)) then false
  else if negb (String.eqb (host this) (host remote)) then false
  else if negb (String.eqb (owner this) (owner remote)) then false
  else if negb (String.eqb (repositoryName this) (repositoryName remote)) then false
  else true.

(** [_previousRepositoryState]. *)
Record t : Type := mk {
  HEAD : option Branch;
  remotes : list Remote
}.

Definition sameUpstream (oldHead newHead : Branch) : bool :=
  match br_upstream oldHead with
  | Some oldUpstream =>
      match br_upstream newHead with
      | Some newUpstream =>
          (String.eqb (up_name oldUpstream) (up_name newUpstream)
           && String.eqb (up_remote oldUpstream) (up_remote newUpstream))%bool
      | None => false
      end
  | None =>
      match br_upstream newHead with
      | Some _ => false
      | None => true
      end
  end.

Definition sameHead (oldHead newHead : Branch) : bool :=
  (sameUpstream oldHead newHead
   && option_eqb Z.eqb (br_ahead oldHead) (br_ahead newHead)
   && option_eqb Z.eqb (br_behind oldHead) (br_behind newHead)
   && option_eqb String.eqb (br_commit oldHead) (br_commit newHead)
   && option_eqb String.eqb (br_name oldHead) (br_name newHead)
   && option_eqb String.eqb (br_remote oldHead) (br_remote newHead)
   && Z.eqb (br_type oldHead) (br_type newHead))%bool.

Definition sameRemotes (previous remotes_ : list Remote) : bool :=
  (Nat.eqb (List.length previous) (List.length remotes_)
   && forallb (fun remote => existsb (fun r => equals remote r) remotes_) previous)%bool.

(** The listener, for the head [newHead] of the repository and the remotes
    [remotes_] that [parseRepositoryRemotes] reads from it: the previous
    state that it leaves, and whether it calls [updateState]. *)
Definition onDidChange (previous : t) (newHead : option Branch) (remotes_ : list Remote)
  : t * bool :=
  match HEAD previous, newHead with
  | None, None =>
      (* both oldHead and newHead are undefined *)
      (previous, false)
  | oldHead, _ =>
      let sameHead_ :=
        match oldHead, newHead with
        | Some o, Some n => sameHead o n
        | _, _ => false
        end in
      if (negb sameHead_ || negb (sameRemotes (remotes previous) remotes_))%bool
      then (mk newHead remotes_, true)
      else (previous, false)
  end.

(** The listener on the manager: the request for a validation goes to
    [updateState]. *)
Definition notify (w : t * ReviewManager.State) (newHead : option Branch)
           (remotes_ : list Remote) : t * ReviewManager.State :=
  let '(previous, called) := onDidChange (fst w) newHead remotes_ in
  (previous, if called then ReviewManager.updateState (snd w) else snd w).

End RepositoryState.

(** *** The pull request data of the review manager *)

Module ReviewData.

Local Open Scope js_scope.

(** The fields [_comments], [_localFileChanges] and [_obsoleteFileChanges]
    of the review manager. *)
Record State : Type := mkState {
  _comments : list Comment;
  _localFileChanges : list FileChange;
  _obsoleteFileChanges : list FileChangeNode
}.

(** [hunks.map(h => h.diffLines.filter(l => l.type !== filter).map(l => l.text))
          .reduce((prev, curr) => prev.concat(...curr), [])]. *)
Definition linesExcept (diffChangeTypeFilter : DiffChangeType) (hunks : list DiffHunk)
  : list string :=
  fold_left (fun prev curr => prev ++ curr)
            (map (fun diffHunk =>
                    map text
                        (filter (fun diffLine =>
                                   negb (DiffChangeType_eqb (dl_type diffLine)
                                                            diffChangeTypeFilter))
                                (diffLines diffHunk)))
                 hunks)
            [].

(** [fileChange.sha === commit ||
     (fileChange.parentSha ? fileChange.parentSha : `${fileChange.sha}^`) === commit];
    [parentSha] is the field of that name of [GitFileChangeNode]. *)
Definition atCommit (parentSha : FileChange -> option string) (commit : string)
           (fileChange : FileChange) : bool :=
  (Review.option_string_eqb (sha fileChange) commit
   || String.eqb
        (match parentSha fileChange with
         | Some (String a r) => String a r
         | _ => (match sha fileChange with
                 | Some s => s
                 | None => "undefined"
                 end ++ "^")%string
         end)
        commit)%bool.

Definition changedItems (parentSha : FileChange -> option string) (q : ReviewUriParams)
           (fileChanges : list FileChange) : list FileChange :=
  filter (atCommit parentSha (rv_commit q))
         (filter (fun change => String.eqb (fileName change) (rv_path q)) fileChanges).

Definition diffChangeTypeFilter (q : ReviewUriParams) (changedItem : FileChange)
  : DiffChangeType :=
  if Review.option_string_eqb (sha changedItem) (rv_commit q) then Delete else Add.

(** [provideTextDocumentContent(uri)], the fallback content of a [review:]
    document; [None] is [undefined]. *)
Definition provideTextDocumentContent (E : Env) (parentSha : FileChange -> option string)
           (s : State) (uri : Uri) : Outcome (option string) :=
  match fromReviewUri E uri with
  | None => Threw "fromReviewUri"
  | Some q =>
      match changedItems parentSha q (_localFileChanges s) with
      | changedItem :: _ =>
          Returned (Some (JS.join JS.newline
                            (linesExcept (diffChangeTypeFilter q changedItem)
                                         (fc_diffHunks changedItem))))
      | [] =>
          match changedItems parentSha q (gitFileChangeNodeFilter (_obsoleteFileChanges s)) with
          | changedItem :: _ =>
              (* it's from obsolete file changes, which means the content is in complete. *)
              let commentGroups := groupBy (fc_comments changedItem) originalPositionKey in
              let ret :=
                fold_left
                  (fun ret (group : string * list Comment) =>
                     match snd group with
                     | [] => ret   (* [groupBy] creates no empty group *)
                     | first :: _ =>
                         match diffHunks first with
                         | None => ret   (* continue *)
                         | Some hunks =>
                             ret ++ linesExcept (diffChangeTypeFilter q changedItem) hunks
                         end
                     end)
                  (Obj.for_in commentGroups) [] in
              Returned (Some (JS.join JS.newline ret))
          | [] => Returned None
          end
      end
  end.

(** A file of the parsed diff ([InMemFileChange] and [SlimFileChange] of
    [common/file]), with the fields that the review manager reads. *)
Inductive ContentChange : Type :=
| InMemFileChange (status_ : GitChangeType) (fileName_ : string) (isPartial_ : bool)
                  (diffHunks_ : list DiffHunk)
| SlimFileChange (status_ : GitChangeType) (fileName_ : string).

Definition change_status (change : ContentChange) : GitChangeType :=
  match change with
  | InMemFileChange st _ _ _ => st
  | SlimFileChange st _ => st
  end.

Definition change_fileName (change : ContentChange) : string :=
  match change with
  | InMemFileChange _ name _ _ => name
  | SlimFileChange _ name => name
  end.

(** The pull request with the answers of the API client and of the
    repository, and the URI builders of [common/uri]. *)
Record Source : Type := mkSource {
  getPullRequestComments : Outcome (list Comment);
  getPullRequestFileChangesInfo : Outcome string;
  parseDiff : string -> string -> Outcome (list ContentChange);   (* data, merge base *)
  diffBetween : string -> string -> string -> Outcome string;    (* base, head, file *)
  parsePatch : string -> Outcome (list DiffHunk);
  pr_mergeBase : option string;
  pr_base_sha : string;
  pr_head_sha : string;
  (* [rootUri.with({ path: resolve(rootUri.fsPath, fileName) })] *)
  localUri : string -> Uri;
  (* [Uri.parse(join(`commit~${commit.substr(0, 8)}`, fileName))] *)
  commitUri : string -> string -> Uri;
  (* uri, filePath, commit, isOutdated, base *)
  toReviewUri : Uri -> option string -> option string -> bool -> bool -> Uri;
  (* uri, filePath, commit, isOutdated, base *)
  toDiffViewFileUri : Uri -> string -> string -> bool -> bool -> Uri
}.

(** [pr.mergeBase || pr.base.sha]. *)
Definition mergeBaseOf (P : Source) : string :=
  match pr_mergeBase P with
  | Some (String a r) => String a r
  | _ => pr_base_sha P
  end.

(** [try { diffHunks = parsePatch(await diffBetween(base, head, file)) }
     catch (e) { log }], with [diffHunks] empty before. *)
Definition hunksBetween (P : Source) (base head file : string) : list DiffHunk :=
  match diffBetween P base head file with
  | Returned patch_ =>
      match parsePatch P patch_ with
      | Returned hunks => hunks
      | Threw _ => []
      end
  | Threw _ => []
  end.

(** The node that [getLocalChangeNodes] makes of one file of the diff. *)
Definition localChangeNode (P : Source) (activeComments : list Comment)
           (change : ContentChange) : FileChange :=
  let name := change_fileName change in
  let uri := localUri P name in
  mkFileChange
    (change_status change) name None
    (match change_status change with
     | DELETE => toReviewUri P uri None (Some EmptyString) false false
     | _ => toDiffViewFileUri P uri name (pr_head_sha P) false false
     end)
    (toReviewUri P uri (Some name)
                 (Some (match change_status change with
                        | ADD => EmptyString
                        | _ => mergeBaseOf P
                        end)) false true)
    (match change with
     | InMemFileChange _ _ isPartial_ _ => isPartial_
     | SlimFileChange _ _ => false
     end)
    EmptyString
    (match change with
     | InMemFileChange _ _ _ diffHunks_ => diffHunks_
     | SlimFileChange _ _ => hunksBetween P (pr_base_sha P) (pr_head_sha P) name
     end)
    (filter (fun comment => String.eqb (path comment) name) activeComments)
    (Some (pr_head_sha P)).

(** [getLocalChangeNodes(pr, contentChanges, activeComments)]. *)
Definition getLocalChangeNodes (P : Source) (contentChanges : list ContentChange)
           (activeComments : list Comment) : list FileChange :=
  fold_left (fun nodes change => nodes ++ [localChangeNode P activeComments change])
            contentChanges [].

(** [comment.position] as a condition: a position that is [null] or [0]
    is falsy. *)
Definition hasPosition (comment : Comment) : bool :=
  match position comment with
  | Some p => negb (p =? 0)%Z
  | None => false
  end.

(** The key [comment.originalCommitId] of [groupBy]. *)
Definition commitKey (comment : Comment) : string :=
  match originalCommitId comment with
  | Some commit => commit
  | None => "undefined"
  end.

(** The obsolete file change that the inner loop of [getPullRequestData]
    pushes for the comments [oldComments] of the file [name] at [commit]. *)
Definition obsoleteFileChange (P : Source) (commit name : string)
           (oldComments : list Comment) : FileChange :=
  let uri := commitUri P commit name in
  let commit0 :=
    match oldComments with
    | first :: _ => originalCommitId first
    | [] => None   (* [groupBy] creates no empty group *)
    end in
  mkFileChange MODIFY name None
               (toReviewUri P uri (Some name) commit0 true false)
               (toReviewUri P uri (Some name) commit0 true true)
               false EmptyString
               (hunksBetween P (pr_base_sha P) commit name)
               oldComments (Some commit).

(** The two loops of [getPullRequestData] over the outdated comments. *)
Definition obsoleteFileChanges (P : Source) (outdatedComments : list Comment)
  : list FileChangeNode :=
  fold_left
    (fun acc (commitGroup : string * list Comment) =>
       fold_left
         (fun acc (fileGroup : string * list Comment) =>
            acc ++ [InMemFileChangeNode
                      (obsoleteFileChange P (fst commitGroup) (fst fileGroup)
                                          (snd fileGroup))])
         (Obj.for_in (groupBy (snd commitGroup) path)) acc)
    (Obj.for_in (groupBy outdatedComments commitKey)) [].

(** [getPullRequestData(pr)]. *)
Definition getPullRequestData (P : Source) : M State unit :=
  catch_log
    (comments_ <- await (getPullRequestComments P) ;;
     modify (fun s => mkState comments_ (_localFileChanges s) (_obsoleteFileChanges s)) ;;;
     let activeComments := filter hasPosition comments_ in
     let outdatedComments := filter (fun comment => negb (hasPosition comment)) comments_ in
     data <- await (getPullRequestFileChangesInfo P) ;;
     contentChanges <- await (parseDiff P data (mergeBaseOf P)) ;;
     modify (fun s => mkState (_comments s)
                              (getLocalChangeNodes P contentChanges activeComments)
                              (_obsoleteFileChanges s)) ;;;
     modify (fun s => mkState (_comments s) (_localFileChanges s)
                              (obsoleteFileChanges P outdatedComments))).

End ReviewData.

(** ** Vocabulary of the further statements *)

(** The comments that do not belong to the review [reviewId], and a file
    change without the comments of that review. *)
Definition notOfReview (reviewId : Z) (comment : Comment) : bool :=
  negb (match pullRequestReviewId comment with
        | Some r => (r =? reviewId)%Z
        | None => false
        end).

Definition withoutReview (reviewId : Z) (f : FileChange) : FileChange :=
  set_fc_comments f (filter (notOfReview reviewId) (fc_comments f)).

Definition nodeWithoutReview (reviewId : Z) (n : FileChangeNode) : FileChangeNode :=
  match n with
  | InMemFileChangeNode f => InMemFileChangeNode (withoutReview reviewId f)
  | RemoteFileChangeNode _ => n
  end.

(** [l.find(x => x.name === k)], updated in place by [upd]. *)
Definition touch_first {A} (name : A -> string) (upd : A -> A) (l : list A) (k : string)
  : list A :=
  match JS.findIndex (fun x => String.eqb (name x) k) l with
  | Some i => Review.update_nth i upd l
  | None => l
  end.

(** [x], at the index [i] of [l], is the first element of [l] with its
    name. *)
Definition first_named {A} (name : A -> string) (l : list A) (i : nat) (x : A) : bool :=
  match JS.findIndex (fun y => String.eqb (name y) (name x)) l with
  | Some j => Nat.eqb j i
  | None => false
  end.

(** Some deleted comment has the path [k]. *)
Definition names_path (deleted : list Comment) (k : string) : bool :=
  existsb (fun d => String.eqb (path d) k) deleted.

(** The first file change named [k] exists and is held in memory (it is
    not a [RemoteFileChangeNode]). *)
Definition inMemFirst (files : list FileChangeNode) (k : string) : bool :=
  match JS.findIndex (fun n => String.eqb (node_fileName n) k) files with
  | Some i =>
      match nth_error files i with
      | Some (InMemFileChangeNode _) => true
      | _ => false
      end
  | None => false
  end.

(** Some thread of [l] carries the id of [t]. *)
Definition sharesId (l : list CommentThread) (t : CommentThread) : bool :=
  existsb (fun x => String.eqb (threadId x) (threadId t)) l.

(** A thread that is reported as added is collapsed when it is on a file
    of the workspace. *)
Definition collapsedOnFile (t : CommentThread) : CommentThread :=
  if String.eqb (scheme (resource t)) "file" then set_collapsibleState t Collapsed else t.

(** The stores [st] and [st'] have allocated and disposed the same threads,
    and every thread has the same id in both. *)
Definition sameThreadIds (st st' : Store.t) : Prop :=
  Store.next st' = Store.next st
  /\ Store.disposed st' = Store.disposed st
  /\ forall r, threadId (Store.read st' r) = threadId (Store.read st r).

(** No live thread of [olds] carries the id of [t] in the store [st]. *)
Definition isNewFor (st : Store.t) (olds : list nat) (t : CommentThread) : bool :=
  negb (existsb (fun r => String.eqb (threadId (Store.read st r)) (threadId t)) olds).
(** ** Sample data

    A pull request with the file [a.ts], whose patch is the hunk
    [@@ -10,3 +10,4 @@] with the lines [ ctx1], [+added1], [ ctx2] and
    [ ctx3], and review comments on it. *)

Module Sample.

Definition hunk : DiffHunk :=
  mkDiffHunk 10 3 10 4 0
    [mkDiffLine Control (-1) (-1) 0 "@@ -10,3 +10,4 @@";
     mkDiffLine Context 10 10 1 " ctx1";
     mkDiffLine Add (-1) 11 2 "+added1";
     mkDiffLine Context 11 12 3 " ctx2";
     mkDiffLine Context 12 13 4 " ctx3"].

Definition root : Uri := mkUri "file" "/repo" "".

Definition env : Env :=
  mkEnv spec_getAbsolutePosition
        spec_getAbsolutePosition
        (fun _ => Some (mkDiffLine Add (-1) 11 2 "+added1"))
        (fun hunks _ cs =>
           map (fun c => set_absolutePosition c (Some (spec_getAbsolutePosition c hunks false))) cs)
        (fun _ _ line _ => line)
        (fun _ _ => EmptyString)
        (fun _ _ => None)
        (fun content _ => content)
        (fun a b => (a ++ "/" ++ b)%string)
        (fun msg => msg)
        (fun u => if String.eqb (scheme u) "pr"
                  then Some (mkPRUriParams (uri_path u) (String.eqb (query u) "base") "b0" 1)
                  else None)
        (fun u => if String.eqb (scheme u) "review"
                  then Some (mkReviewUriParams (uri_path u) (query u) false false)
                  else None)
        root
        "h0".

(** Two comments of review 7 on the added line, a comment of review 8 on
    the last line, and two outdated comments. *)
Definition comment1 : Comment :=
  mkComment 1 (Some 7%Z) "a.ts" (Some 2%Z) (Some 2%Z) (Some "c0"%string) "first" "" None None None.

Definition comment2 : Comment :=
  mkComment 2 (Some 7%Z) "a.ts" (Some 2%Z) (Some 2%Z) (Some "c0"%string) "second" "" None None None.

Definition comment3 : Comment :=
  mkComment 3 (Some 8%Z) "a.ts" (Some 4%Z) (Some 4%Z) (Some "c0"%string) "third" "" None None None.

Definition outdated1 : Comment :=
  mkComment 4 (Some 7%Z) "a.ts" None (Some 3%Z) (Some "c0"%string) "old one" "" (Some [hunk])
            None None.

Definition outdated2 : Comment :=
  mkComment 5 (Some 7%Z) "a.ts" None (Some 1%Z) (Some "c0"%string) "old two" "" (Some [hunk])
            None None.

Definition prBase : Uri := mkUri "pr" "a.ts" "base".
Definition prHead : Uri := mkUri "pr" "a.ts" "head".
Definition workspaceFile : Uri := mkUri "file" "/repo/a.ts" "".

Definition file (cs : list Comment) : FileChange :=
  mkFileChange ADD "a.ts" None prHead prBase false "" [hunk] cs (Some "h0"%string).

Definition obsoleteFile (cs : list Comment) : FileChange :=
  mkFileChange MODIFY "a.ts" None (mkUri "review" "a.ts" "c0") (mkUri "review" "a.ts" "c0^")
               false "" [hunk] cs (Some "c0"%string).

(** A live thread on the head side with the comments [cs]. *)
Definition liveThread (uri : Uri) (cs : list Comment) : CommentThread :=
  mkThread (JS.toString (id (hd comment1 cs))) uri (mkRange 10 0 10 0)
           (map (fun c => convertToVSCodeComment c None) cs) Expanded (Some false).

Definition emptyThread : CommentThread :=
  mkThread EmptyString root (mkRange 0 0 0 0) [] Expanded None.

(** A store that holds the given live threads at the references 0, 1, ... *)
Definition storeOf (ths : list CommentThread) : Store.t :=
  Store.mk (fun r => nth r ths emptyThread) (List.length ths) [].

(** A remote that edits, creates and deletes as asked. *)
Definition remote : Remote :=
  mkRemote true (Returned false)
           (fun raw value =>
              Returned (mkComment (id raw) (pullRequestReviewId raw) (path raw) (position raw)
                                  (originalPosition raw) (originalCommitId raw) value
                                  (diffHunk raw) (diffHunks raw) (absolutePosition raw)
                                  (reactions raw)))
           (fun _ => Returned tt)
           (fun text_ name pos =>
              Returned (mkComment 9 None name (Some pos) (Some pos) None text_ "" None None None))
           (fun _ r => Returned [r])
           (fun _ _ => Returned [])
           (Returned (7%Z, [comment1; comment2])).

(** A remote whose mutations all fail. *)
Definition failingRemote : Remote :=
  mkRemote true (Returned false)
           (fun _ _ => Threw "502")
           (fun _ => Threw "502")
           (fun _ _ _ => Threw "502")
           (fun _ _ => Threw "502")
           (fun _ _ => Threw "502")
           (Threw "502").

(** The review provider on the branch of the pull request: thread 0 holds
    the comments 1 and 2, thread 1 the comment 3. *)
Definition reviewState : Review.State :=
  Review.mkState [file [comment1; comment2; comment3]] []
                 [comment1; comment2; comment3]
                 [("a.ts"%string, [0; 1]%nat)] [] [] []
                 true false (Some "edited"%string)
                 (storeOf [liveThread workspaceFile [comment1; comment2];
                           liveThread workspaceFile [comment3]]).

(** The node of the pull request in the tree, as [getChildren] leaves it
    for a comment on a context line: thread 0 shows the comment 3 on the
    base side, thread 1 on the head side. *)
Definition prNodeState : PRNode.State :=
  PRNode.mkState [InMemFileChangeNode (file [comment3])]
                 [("a.ts"%string, [0; 1]%nat)]
                 (storeOf [liveThread prBase [comment3]; liveThread prHead [comment3]]).

(** The review provider with the obsolete file change of the commit [c0],
    which carries the two outdated comments. *)
Definition outdatedState : Review.State :=
  Review.mkState [] [InMemFileChangeNode (obsoleteFile [outdated1; outdated2])]
                 [outdated1; outdated2] [] [] [] []
                 true false None (storeOf []).

(** The threads 0 and 1 of the workspace file and the threads 2 and 3 of
    the open pull-request document of [a.ts]. *)
Definition documentStore : Store.t :=
  storeOf [liveThread workspaceFile [comment1; comment2];
           liveThread workspaceFile [comment3];
           liveThread prHead [comment1];
           liveThread prHead [outdated1]].

End Sample.


(** ** Further sample data *)

Module Scenario.

(** The provider of the event-emitter revision on the sample file. *)
Definition eventsState : ReviewEvents.State :=
  ReviewEvents.mkState [Sample.file [Sample.comment1; Sample.comment2; Sample.comment3]]
                       [Sample.comment1; Sample.comment2; Sample.comment3].

(** The comment 3 gone and a comment 6 on the first context line. *)
Definition comment6 : Comment :=
  mkComment 6 (Some 8%Z) "a.ts" (Some 1%Z) (Some 1%Z) (Some "c0"%string) "sixth" "" None None None.

(** A server that stores the reply as the comment 10 of the review 8. *)
Definition replyApi : Review.ReviewApi :=
  Review.mkReviewApi
    (fun text_ replyTo =>
       Returned (mkComment 10 (Some 8%Z) (path replyTo) (position replyTo)
                           (originalPosition replyTo) (originalCommitId replyTo) text_ ""
                           None None None)).

(** The data of the review manager for the sample pull request. *)
Definition reviewData : ReviewData.State :=
  ReviewData.mkState
    [Sample.comment1; Sample.comment2; Sample.comment3; Sample.outdated1; Sample.outdated2]
    [Sample.file [Sample.comment1; Sample.comment2; Sample.comment3]]
    [InMemFileChangeNode (Sample.obsoleteFile [Sample.outdated1; Sample.outdated2])].

(** The pull request as the server and the repository give it: the five
    comments and a diff with the one added file; no patch of an older
    commit is at hand. *)
Definition source : ReviewData.Source :=
  ReviewData.mkSource
    (Returned [Sample.comment1; Sample.comment2; Sample.comment3;
               Sample.outdated1; Sample.outdated2])
    (Returned "diff"%string)
    (fun _ _ => Returned [ReviewData.InMemFileChange ADD "a.ts" false [Sample.hunk]])
    (fun _ _ _ => Threw "no such commit")
    (fun _ => Returned [])
    None "b0" "h0"
    (fun name => mkUri "file" ("/repo/" ++ name) "")
    (fun commit name => mkUri "commit" name commit)
    (fun uri _ commit _ _ =>
       mkUri "review" (uri_path uri) (match commit with Some c => c | None => "" end))
    (fun uri _ commit _ _ => mkUri "review" (uri_path uri) commit).

(** The node of the pull request with a comment of review 7 and one of
    review 8 on the file: thread 0 shows the comment 1, thread 1 the
    comment 3. *)
Definition reviewedNode : PRNode.State :=
  PRNode.mkState [InMemFileChangeNode (Sample.file [Sample.comment1; Sample.comment3])]
                 [("a.ts"%string, [0; 1]%nat)]
                 (Sample.storeOf [Sample.liveThread Sample.prHead [Sample.comment1];
                                  Sample.liveThread Sample.prHead [Sample.comment3]]).

End Scenario.
(** * Properties *)

(** ** Lists built by pushing in a loop *)

Lemma fold_left_push {A B} (f : A -> list B) (l : list A) (init : list B) :
  fold_left (fun acc x => acc ++ f x) l init = init ++ flat_map f l.
Proof.
  revert init. induction l as [|x l IH]; intros init; simpl.
  - now rewrite app_nil_r.
  - rewrite IH. now rewrite app_assoc.
Qed.

Lemma flat_map_single {A B} (p : A -> bool) (f : A -> B) (l : list A) :
  flat_map (fun x => if p x then [f x] else []) l = map f (filter p l).
Proof.
  induction l as [|x l IH]; simpl; [reflexivity|].
  destruct (p x); simpl; now rewrite IH.
Qed.

(** ** The content of a pull-request document *)

Lemma leftLines_filter (hunks : list DiffHunk) :
  PRNode.leftLines hunks = map text (filter onBaseSide (flat_map diffLines hunks)).
Proof.
  unfold PRNode.leftLines.
  assert (inner : forall ls acc,
             fold_left (fun left diffLine =>
                          match dl_type diffLine with
                          | Add => left
                          | Delete => left ++ [text diffLine]
                          | Control => left
                          | Context => left ++ [text diffLine]
                          end) ls acc
             = acc ++ map text (filter onBaseSide ls)).
  { induction ls as [|l ls IH]; intros acc; simpl.
    - now rewrite app_nil_r.
    - rewrite IH. unfold onBaseSide.
      destruct (dl_type l); simpl; try reflexivity; now rewrite <- app_assoc. }
  assert (outer : forall hs acc,
             fold_left (fun left diffHunk =>
                          fold_left (fun left diffLine =>
                                       match dl_type diffLine with
                                       | Add => left
                                       | Delete => left ++ [text diffLine]
                                       | Control => left
                                       | Context => left ++ [text diffLine]
                                       end) (diffLines diffHunk) left) hs acc
             = acc ++ map text (filter onBaseSide (flat_map diffLines hs))).
  { induction hs as [|h hs IH]; intros acc; simpl.
    - now rewrite app_nil_r.
    - rewrite IH, inner, filter_app, map_app. now rewrite app_assoc. }
  apply (outer hunks []).
Qed.

Lemma rightLines_filter (hunks : list DiffHunk) :
  PRNode.rightLines hunks = map text (filter onHeadSide (flat_map diffLines hunks)).
Proof.
  unfold PRNode.rightLines.
  assert (inner : forall ls acc,
             fold_left (fun right diffLine =>
                          match dl_type diffLine with
                          | Add => right ++ [text diffLine]
                          | Delete => right
                          | Control => right
                          | Context => right ++ [text diffLine]
                          end) ls acc
             = acc ++ map text (filter onHeadSide ls)).
  { induction ls as [|l ls IH]; intros acc; simpl.
    - now rewrite app_nil_r.
    - rewrite IH. unfold onHeadSide.
      destruct (dl_type l); simpl; try reflexivity; now rewrite <- app_assoc. }
  assert (outer : forall hs acc,
             fold_left (fun right diffHunk =>
                          fold_left (fun right diffLine =>
                                       match dl_type diffLine with
                                       | Add => right ++ [text diffLine]
                                       | Delete => right
                                       | Control => right
                                       | Context => right ++ [text diffLine]
                                       end) (diffLines diffHunk) right) hs acc
             = acc ++ map text (filter onHeadSide (flat_map diffLines hs))).
  { induction hs as [|h hs IH]; intros acc; simpl.
    - now rewrite app_nil_r.
    - rewrite IH, inner, filter_app, map_app. now rewrite app_assoc. }
  apply (outer hunks []).
Qed.

(** C10.  For a file change whose content is read from its diff hunks
    (partial, added or deleted), [provideDocumentContent] returns, joined
    with a newline, the texts of the context and deleted lines of all hunks
    in hunk and line order for the base side, and the texts of the context
    and added lines for the head side; no added or control line is part of
    the base side, no deleted or control line part of the head side. *)
Theorem provideDocumentContent_from_diff_hunks :
  forall (E : Env) (s : PRNode.State) (uri : Uri) (params : PRUriParams)
         (fileChange : FileChange) (others : list FileChange),
    fromPRUri E uri = Some params ->
    gitFileChangeNodeFilter
      (filter (fun contentChange =>
                 match contentChange with
                 | InMemFileChangeNode f => String.eqb (fileName f) (pr_fileName params)
                 | RemoteFileChangeNode _ => false
                 end) (PRNode._fileChanges s)) = fileChange :: others ->
    isPartial fileChange = true \/ status fileChange = ADD \/ status fileChange = DELETE ->
    let side := if pr_isBase params then onBaseSide else onHeadSide in
    let lines := filter side (flat_map diffLines (fc_diffHunks fileChange)) in
    PRNode.provideDocumentContent E s uri = Returned (String.concat (String "010"%char EmptyString) (map text lines))
    /\ (forall l, In l lines ->
                  dl_type l <> Control
                  /\ (if pr_isBase params then dl_type l <> Add else dl_type l <> Delete))
    /\ (forall l, In l (flat_map diffLines (fc_diffHunks fileChange)) ->
                  (dl_type l = Context
                   \/ dl_type l = (if pr_isBase params then Delete else Add)) ->
                  In l lines).
Proof.
  intros E s uri params fileChange others Hparams Hfile Hread side lines.
  assert (Hr : PRNode.readContentFromDiffHunk fileChange = true).
  { unfold PRNode.readContentFromDiffHunk.
    destruct Hread as [-> | [-> | ->]]; destruct (isPartial fileChange); reflexivity. }
  split; [|split].
  - unfold PRNode.provideDocumentContent. rewrite Hparams, Hfile, Hr.
    subst lines side. destruct (pr_isBase params).
    + now rewrite leftLines_filter.
    + now rewrite rightLines_filter.
  - intros l Hl. subst lines. apply filter_In in Hl. destruct Hl as [_ Hl].
    subst side. destruct (pr_isBase params); unfold onBaseSide, onHeadSide in Hl;
      destruct (dl_type l); try discriminate; split; discriminate.
  - intros l Hl Ht. subst lines. apply filter_In. split; [assumption|].
    subst side. destruct (pr_isBase params); unfold onBaseSide, onHeadSide;
      destruct Ht as [-> | ->]; reflexivity.
Qed.

(** ** The test for an edited thread *)

Lemma negb_string_eqb_true (a b : string) :
  negb (String.eqb a b) = true <-> a <> b.
Proof.
  rewrite negb_true_iff. apply String.eqb_neq.
Qed.

Lemma negb_bool_eqb_true (a b : bool) :
  negb (Bool.eqb a b) = true <-> a <> b.
Proof.
  destruct a, b; simpl; split; intros H; try discriminate; try reflexivity;
    try (exfalso; apply H; reflexivity).
Qed.

Lemma negb_nat_eqb_true (a b : nat) :
  negb (Nat.eqb a b) = true <-> a <> b.
Proof.
  rewrite negb_true_iff. apply Nat.eqb_neq.
Qed.

(** The loop over the reactions finds an index at which the two lists
    differ in label or in the reacted flag. *)
Lemma reaction_loop_spec (rm ro : list CommentReaction) :
  existsb (reactionDiffersAt rm ro) (seq 0 (List.length rm)) = true <->
  exists i a b, nth_error rm i = Some a /\ nth_error ro i = Some b /\
                (label a <> label b \/ hasReacted a <> hasReacted b).
Proof.
  rewrite existsb_exists. split.
  - intros (i & _ & Hd). unfold reactionDiffersAt in Hd.
    destruct (nth_error rm i) as [a|] eqn:Ha; [|discriminate].
    destruct (nth_error ro i) as [b|] eqn:Hb; [|discriminate].
    exists i, a, b. split; [exact Ha|]. split; [exact Hb|].
    apply orb_true_iff in Hd. destruct Hd as [Hd | Hd].
    + left. now apply negb_string_eqb_true.
    + right. now apply negb_bool_eqb_true.
  - intros (i & a & b & Ha & Hb & Hd). exists i. split.
    + apply in_seq. split; [lia|]. simpl.
      apply nth_error_Some. now rewrite Ha.
    + unfold reactionDiffersAt. rewrite Ha, Hb. apply orb_true_iff.
      destruct Hd as [Hd | Hd].
      * left. now apply negb_string_eqb_true.
      * right. now apply negb_bool_eqb_true.
Qed.

Lemma commentEdited_spec (newComments : list VSComment) (oldComment : VSComment) :
  commentEdited newComments oldComment = true <-> edited_against newComments oldComment.
Proof.
  unfold commentEdited, edited_against.
  destruct (filter (fun newComment => String.eqb (commentId newComment) (commentId oldComment))
                   newComments) as [|m [|m' rest]] eqn:Hm; simpl.
  - split; [intros _; left; discriminate | reflexivity].
  - split.
    + intros H. right. exists m. split; [reflexivity|].
      destruct (negb (String.eqb (body_value m) (body_value oldComment))) eqn:Hb.
      * left. now apply negb_string_eqb_true.
      * right.
        destruct (commentReactions m) as [rm|] eqn:Hrm;
          destruct (commentReactions oldComment) as [ro|] eqn:Hro; try discriminate.
        -- right. right. exists rm, ro. split; [reflexivity|]. split; [reflexivity|].
           destruct (negb (Nat.eqb (List.length rm) (List.length ro))) eqn:Hl.
           ++ left. now apply negb_nat_eqb_true.
           ++ right. now apply reaction_loop_spec.
        -- right. left. split; [discriminate | reflexivity].
        -- left. split; [reflexivity | discriminate].
    + intros [H | (m0 & Heq & H)]; [exfalso; apply H; reflexivity|].
      injection Heq as <-.
      destruct (negb (String.eqb (body_value m) (body_value oldComment))) eqn:Hb;
        [reflexivity|].
      apply negb_false_iff, String.eqb_eq in Hb.
      destruct H as [H | [[H1 H2] | [[H1 H2] | (rm & ro & H1 & H2 & H)]]].
      * contradiction.
      * rewrite H1. destruct (commentReactions oldComment); [reflexivity | contradiction].
      * rewrite H2. destruct (commentReactions m); [reflexivity | contradiction].
      * rewrite H1, H2.
        destruct (negb (Nat.eqb (List.length rm) (List.length ro))) eqn:Hl; [reflexivity|].
        apply negb_false_iff, Nat.eqb_eq in Hl.
        destruct H as [H | H]; [contradiction|]. now apply reaction_loop_spec.
  - split; [intros _; left; discriminate | reflexivity].
Qed.

Lemma threadChanged_spec (oldComments newComments : list VSComment) :
  threadChanged oldComments newComments = true <->
  List.length oldComments <> List.length newComments
  \/ exists oldComment, In oldComment oldComments /\ edited_against newComments oldComment.
Proof.
  unfold threadChanged, commentsEditedInThread.
  rewrite orb_true_iff, negb_nat_eqb_true, existsb_exists.
  split; (intros [H | (o & Hin & H)]; [now left | right; exists o; split; [assumption|]]);
    now apply commentEdited_spec.
Qed.

(** C4.  A thread matched by its id counts as changed exactly when the two
    comment lists differ in length, or some old comment has no unique
    id-match among the new comments, or a matched pair differs in body
    text, or exactly one side has a reaction list, or the reaction lists
    differ in length, or they differ at some index in label or in the
    reacted flag.  Where one live thread matches, [PRNode] assigns the new
    comments to it when it is changed and leaves the store untouched
    otherwise, and [updateComments] reports the thread as changed in the
    first case only. *)
Theorem matched_thread_changed_iff :
  (forall oldComments newComments : list VSComment,
      threadChanged oldComments newComments = true <->
      List.length oldComments <> List.length newComments
      \/ exists oldComment,
           In oldComment oldComments /\ edited_against newComments oldComment)
  /\ (forall (old : list nat) (st : Store.t) (added : list CommentThread)
             (thread : CommentThread) (m : nat),
         filter (fun o => String.eqb (threadId (Store.read st o)) (threadId thread)) old
         = [m] ->
         snd (PRNode.addOrUpdate old (added, st) thread)
         = if threadChanged (comments (Store.read st m)) (comments thread)
           then Store.write m (set_comments (Store.read st m) (comments thread)) st
           else st)
  /\ (forall (olds : list CommentThread) (thread m : CommentThread),
         filter (fun o => String.eqb (threadId o) (threadId thread)) olds = [m] ->
         ReviewEvents.addedAndChanged olds [thread]
         = ([], if threadChanged (comments m) (comments thread) then [thread] else [])).
Proof.
  split; [exact threadChanged_spec | split].
  - intros old st added thread m Hm.
    unfold PRNode.addOrUpdate. simpl snd. rewrite Hm. simpl.
    unfold threadChanged. now destruct (_ || _)%bool.
  - intros olds thread m Hm.
    unfold ReviewEvents.addedAndChanged. simpl. rewrite Hm. simpl.
    unfold threadChanged. now destruct (_ || _)%bool.
Qed.

(** ** Remote failures and the local state *)

Ltac unfold_M :=
  unfold rethrow, bind, get, await, throw, ret, modify, Review.modify_thread in *; simpl in *.

Lemma deleteComment_remote_failure (E : Env) (R : Remote) (s : Review.State)
      (thread : nat) (comment : VSComment) (msg : string) :
  deleteReviewComment R (commentId comment) = Threw msg ->
  exists msg', Review.deleteComment E R thread comment s = (s, Threw msg').
Proof.
  intros Hfail. unfold Review.deleteComment. unfold_M.
  destruct (Review.activePullRequest s); simpl; [|eexists; reflexivity].
  destruct (Review.findMatchedFileByUri E s (resource (Store.read (Review.store s) thread)))
    as [[file|]|m]; simpl; try (eexists; reflexivity).
  rewrite Hfail. eexists; reflexivity.
Qed.

Lemma editReaction_remote_failure (E : Env) (R : Remote) (s : Review.State)
      (documentUri : Uri) (comment : VSComment) (reaction : CommentReaction)
      (addReaction : bool) :
  (forall raw, exists msg,
        (if addReaction then addCommentReaction R raw reaction
         else deleteCommentReaction R raw reaction) = Threw msg) ->
  exists msg', Review.editReaction E R documentUri comment reaction addReaction s
               = (s, Threw msg').
Proof.
  intros Hfail. unfold Review.editReaction. unfold_M.
  destruct (Review.activePullRequest s); simpl; [|eexists; reflexivity].
  destruct (Review.findMatchedFileByUri E s documentUri) as [[file|]|m]; simpl;
    try (eexists; reflexivity).
  destruct (find (Review.number_id comment) (Review.file_comments s file)) as [raw|]; simpl;
    [|eexists; reflexivity].
  destruct (Hfail raw) as [msg Hmsg]. rewrite Hmsg. eexists; reflexivity.
Qed.

Lemma updateCommentThreadRoot_remote_failure (E : Env) (R : Remote) (s : Review.State)
      (thread : nat) (text_ : string) :
  (forall name pos, exists msg, createComment R text_ name pos = Threw msg) ->
  exists msg', Review.updateCommentThreadRoot E R thread text_ s = (s, Threw msg').
Proof.
  intros Hfail. unfold Review.updateCommentThreadRoot. unfold_M.
  destruct (Review.findMatchedFileByUri E s (resource (Store.read (Review.store s) thread)))
    as [[file|]|m]; simpl; try (eexists; reflexivity).
  - destruct (String.eqb (query (resource (Store.read (Review.store s) thread))) "");
      simpl.
    + destruct (Review.activePullRequest s); simpl; [|eexists; reflexivity].
      destruct (Review.file_at s file) as [matched|]; simpl; [|eexists; reflexivity].
      destruct (_ <? 0)%Z; simpl; [eexists; reflexivity|].
      destruct (Hfail (fileName matched)
                      (mapHeadLineToDiffHunkPosition E (fc_diffHunks matched)
                         (diffWith E (headSha E) (fileName matched))
                         (startLine (range (Store.read (Review.store s) thread)) + 1)%Z
                         false)) as [msg Hmsg].
      rewrite Hmsg. eexists; reflexivity.
    + destruct (fromReviewUri E (resource (Store.read (Review.store s) thread))) as [q|];
        simpl; [|eexists; reflexivity].
      destruct (Review.activePullRequest s); simpl; [|eexists; reflexivity].
      destruct (Review.file_at s file) as [matched|]; simpl; [|eexists; reflexivity].
      destruct (_ <? 0)%Z; simpl; [eexists; reflexivity|].
      destruct (Hfail (fileName matched)
                      (mapHeadLineToDiffHunkPosition E (fc_diffHunks matched)
                         (diffWith E (headSha E) (fileName matched))
                         (startLine (range (Store.read (Review.store s) thread)) + 1)%Z
                         (rv_base q))) as [msg Hmsg].
      rewrite Hmsg. eexists; reflexivity.
  - destruct (String.eqb (query (resource (Store.read (Review.store s) thread))) "");
      simpl; [eexists; reflexivity|].
    destruct (fromReviewUri E (resource (Store.read (Review.store s) thread))) as [q|];
      simpl; eexists; reflexivity.
Qed.

(** C8.  When the remote call of [editReaction], [deleteComment] or
    [updateCommentThreadRoot] throws, the method throws and the state it
    leaves is the state it started from: the comment list of the matched
    file, the flat comment list and the comments of the thread are those
    of before the call. *)
Theorem remote_failure_keeps_local_state :
  forall (E : Env) (R : Remote) (s : Review.State),
    (forall (documentUri : Uri) (comment : VSComment) (reaction : CommentReaction)
            (addReaction : bool),
        (forall raw, exists msg,
              (if addReaction then addCommentReaction R raw reaction
               else deleteCommentReaction R raw reaction) = Threw msg) ->
        exists msg', Review.editReaction E R documentUri comment reaction addReaction s
                     = (s, Threw msg'))
    /\ (forall (thread : nat) (comment : VSComment) (msg : string),
           deleteReviewComment R (commentId comment) = Threw msg ->
           exists msg', Review.deleteComment E R thread comment s = (s, Threw msg'))
    /\ (forall (thread : nat) (text_ : string),
           (forall name pos, exists msg, createComment R text_ name pos = Threw msg) ->
           exists msg', Review.updateCommentThreadRoot E R thread text_ s = (s, Threw msg')).
Proof.
  intros E R s. split; [|split].
  - intros. now apply editReaction_remote_failure.
  - intros. eapply deleteComment_remote_failure; eassumption.
  - intros. now apply updateCommentThreadRoot_remote_failure.
Qed.

(** ** Numbers and their decimal strings *)

Lemma to_int_not_nil (z : Z) :
  Z.to_int z <> Decimal.Pos Decimal.Nil /\ Z.to_int z <> Decimal.Neg Decimal.Nil.
Proof.
  destruct z as [|p|p]; simpl; split; try discriminate;
    intros H; injection H as H; now apply (Unsigned.to_uint_nonnil p).
Qed.

Lemma Number_toString (z : Z) : JS.Number (JS.toString z) = Some z.
Proof.
  unfold JS.Number, JS.toString.
  destruct (to_int_not_nil z) as [H1 H2].
  rewrite NilZero.isi by assumption. simpl. now rewrite DecimalZ.of_to.
Qed.

Lemma toString_inj (a b : Z) : JS.toString a = JS.toString b -> a = b.
Proof.
  intros H. apply (f_equal JS.Number) in H. rewrite !Number_toString in H.
  now injection H.
Qed.

(** ** Editing a comment *)

Lemma findIndex_Some {A} (p : A -> bool) (l : list A) (i : nat) :
  JS.findIndex p l = Some i ->
  exists x, nth_error l i = Some x /\ p x = true
            /\ forall j y, (j < i)%nat -> nth_error l j = Some y -> p y = false.
Proof.
  revert i. induction l as [|x l IH]; intros i H; simpl in H; [discriminate|].
  destruct (p x) eqn:Hp.
  - injection H as <-. exists x. repeat split; try assumption. intros j y Hj. lia.
  - destruct (JS.findIndex p l) as [k|] eqn:Hk; [|discriminate].
    injection H as <-. destruct (IH k eq_refl) as (x' & Hx' & Hpx' & Hbefore).
    exists x'. repeat split; try assumption.
    intros [|j] y Hj Hy; simpl in Hy.
    + now injection Hy as <-.
    + apply (Hbefore j); [lia | assumption].
Qed.

Lemma findIndex_None {A} (p : A -> bool) (l : list A) :
  JS.findIndex p l = None -> forall x, In x l -> p x = false.
Proof.
  induction l as [|x l IH]; intros H y Hy; simpl in *; [contradiction|].
  destruct (p x) eqn:Hp; [discriminate|].
  destruct (JS.findIndex p l); [discriminate|].
  destruct Hy as [<- | Hy]; [assumption | now apply IH].
Qed.

Lemma splice_replace_length {A} (i : nat) (item : A) (l : list A) :
  List.length (JS.splice_replace i item l) = List.length l.
Proof.
  revert i. induction l as [|x l IH]; intros [|i]; simpl; try reflexivity.
  now rewrite IH.
Qed.

Lemma splice_replace_nth {A} (i : nat) (item : A) (l : list A) (j : nat) :
  nth_error (JS.splice_replace i item l) j
  = if Nat.eqb j i then option_map (fun _ => item) (nth_error l j) else nth_error l j.
Proof.
  revert i j. induction l as [|x l IH]; intros i j.
  - destruct i, j; simpl; try reflexivity; now destruct (Nat.eqb j i).
  - destruct i, j; simpl; try reflexivity. apply IH.
Qed.


Lemma unique_id_at_most_one (comment : VSComment) (l : list Comment) :
  NoDup (map id l) -> at_most_one (Review.same_id comment) l.
Proof.
  intros Hnd i j x y Hi Hj Hx Hy.
  unfold Review.same_id in *. apply String.eqb_eq in Hx, Hy.
  assert (Hid : id x = id y) by (apply toString_inj; congruence).
  rewrite NoDup_nth_error in Hnd. apply Hnd.
  - rewrite length_map. apply nth_error_Some. now rewrite Hi.
  - rewrite !nth_error_map, Hi, Hj. simpl. now rewrite Hid.
Qed.

Lemma replace_comment_in_place (comment : VSComment) (item : Comment) (l : list Comment) :
  at_most_one (Review.same_id comment) l ->
  replaced_in_place (Review.same_id comment) item l (Review.replace_comment comment item l).
Proof.
  intros Huniq. unfold Review.replace_comment, replaced_in_place.
  destruct (JS.findIndex (Review.same_id comment) l) as [i|] eqn:Hi.
  - split; [apply splice_replace_length|].
    destruct (findIndex_Some _ _ Hi) as (x & Hx & Hpx & _).
    intros j. rewrite splice_replace_nth.
    destruct (Nat.eqb j i) eqn:Hji.
    + apply Nat.eqb_eq in Hji. subst j. rewrite Hx. simpl. now rewrite Hpx.
    + destruct (nth_error l j) as [y|] eqn:Hy; simpl; [|reflexivity].
      destruct (Review.same_id comment y) eqn:Hpy; [|reflexivity].
      apply Nat.eqb_neq in Hji. exfalso. apply Hji.
      now apply (Huniq j i y x).
  - split; [reflexivity|]. intros j.
    destruct (nth_error l j) as [y|] eqn:Hy; simpl; [|reflexivity].
    rewrite (findIndex_None _ _ Hi y); [reflexivity|].
    eapply nth_error_In; eassumption.
Qed.

Lemma replace_in_thread_in_place (v : VSComment) (cs : list VSComment) :
  replaced_in_place (fun c => String.eqb (commentId c) (commentId v)) v cs
                    (Review.replace_in_thread v cs).
Proof.
  unfold replaced_in_place, Review.replace_in_thread. split.
  - apply length_map.
  - intros j. now rewrite nth_error_map.
Qed.

Lemma update_nth_same {A} (i : nat) (f : A -> A) (l : list A) :
  nth_error (Review.update_nth i f l) i = option_map f (nth_error l i).
Proof.
  revert i. induction l as [|x l IH]; intros [|i]; simpl; try reflexivity. apply IH.
Qed.

Lemma file_comments_set (file : Review.FileRef) (cs : list Comment) (s : Review.State) :
  Review.file_at s file <> None ->
  Review.file_comments (Review.set_file_comments file cs s) file = cs.
Proof.
  unfold Review.file_comments, Review.file_at, Review.set_file_comments.
  destruct file as [i|i]; simpl; rewrite update_nth_same.
  - destruct (nth_error (Review._localFileChanges s) i); simpl; [reflexivity|].
    intros H; now contradiction H.
  - destruct (nth_error (Review._obsoleteFileChanges s) i) as [[n|f]|]; simpl;
      try reflexivity; intros H; now contradiction H.
Qed.

Lemma file_comments_set_store (st : Store.t) (s : Review.State) (file : Review.FileRef) :
  Review.file_comments (Review.set_store st s) file = Review.file_comments s file.
Proof. now destruct file. Qed.

Lemma file_comments_set_comments (v : list Comment) (s : Review.State) (file : Review.FileRef) :
  Review.file_comments (Review.set__comments v s) file = Review.file_comments s file.
Proof. now destruct file. Qed.

Lemma comments_set_file_comments (file : Review.FileRef) (cs : list Comment) (s : Review.State) :
  Review._comments (Review.set_file_comments file cs s) = Review._comments s.
Proof. now destruct file. Qed.

Lemma store_set_file_comments (file : Review.FileRef) (cs : list Comment) (s : Review.State) :
  Review.store (Review.set_file_comments file cs s) = Review.store s.
Proof. now destruct file. Qed.

(** C7.  When [editComment] returns after the edit, the comment list of
    the owning file, the flat comment list and the comments of the thread
    all are the lists of before with the edited comment written at the
    index of the comment that carries the id of the edited one; every other
    index, the lengths and the order are the same, and so is the
    [threadId].  Identifiers are unique in a comment list, the server
    answers with the comment of the same id, and the widget comment was
    built from its raw comment. *)
Theorem editComment_replaces_in_place :
  forall (E : Env) (R : Remote) (s s' : Review.State) (thread : nat)
         (comment : VSComment) (value : string),
    authenticate R = true ->
    Review.inputBox s = Some value ->
    (forall raw v e, editReviewComment R raw v = Returned e -> id e = id raw) ->
    commentId comment = JS.toString (id (_rawComment comment)) ->
    NoDup (map id (Review._comments s)) ->
    (forall file, NoDup (map id (Review.file_comments s file))) ->
    Review.editComment E R thread comment s = (s', Returned tt) ->
    exists (file : Review.FileRef) (edited : Comment),
      Review.findMatchedFileByUri E s (resource (Store.read (Review.store s) thread))
      = Returned (Some file)
      /\ (exists raw,
             find (Review.number_id comment) (Review.file_comments s file) = Some raw
             /\ editReviewComment R raw value = Returned edited)
      /\ replaced_in_place (fun c => String.eqb (JS.toString (id c)) (commentId comment)) edited
                           (Review.file_comments s file) (Review.file_comments s' file)
      /\ replaced_in_place (fun c => String.eqb (JS.toString (id c)) (commentId comment)) edited
                           (Review._comments s) (Review._comments s')
      /\ replaced_in_place (fun c => String.eqb (commentId c) (commentId comment))
                           (convertToVSCodeComment edited None)
                           (comments (Store.read (Review.store s) thread))
                           (comments (Store.read (Review.store s') thread))
      /\ threadId (Store.read (Review.store s') thread)
         = threadId (Store.read (Review.store s) thread).
Proof.
  intros E R s s' thread comment value Hauth Hinput Hserver Hcanon Hflat Hfiles Hrun.
  unfold Review.editComment in Hrun. unfold_M.
  rewrite Hauth, Hinput in Hrun.
  destruct (Review.activePullRequest s); simpl in Hrun; [|discriminate].
  destruct (Review.findMatchedFileByUri E s (resource (Store.read (Review.store s) thread)))
    as [[file|]|m] eqn:Hfile; simpl in Hrun; try discriminate.
  destruct (find (Review.number_id comment) (Review.file_comments s file)) as [raw|] eqn:Hraw;
    simpl in Hrun; [|discriminate].
  destruct (editReviewComment R raw value) as [edited|m] eqn:Hedit; simpl in Hrun;
    [|discriminate].
  injection Hrun as <-.
  assert (Hat : Review.file_at s file <> None).
  { intros Hnone. unfold Review.file_comments in Hraw. rewrite Hnone in Hraw. discriminate. }
  assert (Hkey : commentId (convertToVSCodeComment edited None) = commentId comment).
  { simpl. rewrite (Hserver _ _ _ Hedit), Hcanon. f_equal.
    apply find_some in Hraw. destruct Hraw as [_ Hraw]. unfold Review.number_id in Hraw.
    rewrite Hcanon, Number_toString in Hraw. now apply Z.eqb_eq in Hraw. }
  exists file, edited. split; [reflexivity|]. split; [now exists raw|].
  rewrite store_set_file_comments, comments_set_file_comments.
  split; [|split; [|split]].
  - rewrite file_comments_set_store, file_comments_set_comments.
    rewrite file_comments_set by assumption.
    apply replace_comment_in_place, unique_id_at_most_one, Hfiles.
  - simpl. now apply replace_comment_in_place, unique_id_at_most_one.
  - simpl. rewrite Nat.eqb_refl. simpl.
    pose proof (replace_in_thread_in_place (convertToVSCodeComment edited None)
                  (comments (Store.read (Review.store s) thread))) as Hrep.
    rewrite Hkey in Hrep. exact Hrep.
  - simpl. now rewrite Nat.eqb_refl.
Qed.

(** ** Reconciliation in [PRNode] *)

(** The first loop of [PRNode.updateFileChangeCommentThreads] disposes
    every old thread as soon as the list of new threads is defined: the
    test [matchingThreads !== undefined] does not look at the matches. *)
Lemma disposeOld_disposes_all (old : list nat) (news : list CommentThread) (st : Store.t) :
  Store.disposed (PRNode.disposeOld old (Some news) st) = Store.disposed st ++ old
  /\ Store.heap (PRNode.disposeOld old (Some news) st) = Store.heap st.
Proof.
  unfold PRNode.disposeOld. revert st.
  induction old as [|r old IH]; intros st; simpl in *.
  - now rewrite app_nil_r.
  - destruct (IH (Store.dispose r st)) as [IH1 IH2].
    rewrite IH1, IH2. simpl. now rewrite <- app_assoc.
Qed.

(** [PRNode.editComment] takes the same steps on the file change of the
    pull request node, which keeps no flat comment list: the comments of
    the file change and of the thread are those of before with the comment
    that the server returns for the edit written at the index of the
    comment of that id, and the [threadId] is the same. *)
Theorem PRNode_editComment_replaces_in_place :
  forall (E : Env) (R : Remote) (s s' : PRNode.State) (value : string) (thread : nat)
         (comment : VSComment),
    authenticate R = true ->
    (forall raw v e, editReviewComment R raw v = Returned e -> id e = id raw) ->
    (forall i f, nth_error (PRNode._fileChanges s) i = Some (InMemFileChangeNode f) ->
                 NoDup (map id (fc_comments f))) ->
    PRNode.editComment E R (Some value) thread comment s = (s', Returned tt) ->
    exists (i : nat) (fileChange fileChange' : FileChange) (edited : Comment),
      PRNode.findMatchingFileNode E s (resource (Store.read (PRNode.store s) thread))
      = Returned (i, fileChange)
      /\ (exists raw,
             find (fun c => String.eqb (JS.toString (id c)) (commentId comment)) (fc_comments fileChange) = Some raw
             /\ editReviewComment R raw value = Returned edited)
      /\ nth_error (PRNode._fileChanges s') i = Some (InMemFileChangeNode fileChange')
      /\ replaced_in_place (fun c => String.eqb (JS.toString (id c)) (commentId comment)) edited
                           (fc_comments fileChange) (fc_comments fileChange')
      /\ replaced_in_place (fun c => String.eqb (commentId c) (commentId comment))
                           (convertToVSCodeComment edited None)
                           (comments (Store.read (PRNode.store s) thread))
                           (comments (Store.read (PRNode.store s') thread))
      /\ threadId (Store.read (PRNode.store s') thread)
         = threadId (Store.read (PRNode.store s) thread).
Proof.
  intros E R s s' value thread comment Hauth Hserver Hfiles Hrun.
  unfold PRNode.editComment in Hrun. unfold_M. rewrite Hauth in Hrun.
  destruct (PRNode.findMatchingFileNode E s (resource (Store.read (PRNode.store s) thread)))
    as [[i fileChange]|m] eqn:Hfile; simpl in Hrun; [|discriminate].
  destruct (find (Review.same_id comment) (fc_comments fileChange)) as [raw|] eqn:Hraw;
    simpl in Hrun; [|discriminate].
  destruct (editReviewComment R raw value) as [edited|m] eqn:Hedit; simpl in Hrun;
    [|discriminate].
  injection Hrun as <-. simpl.
  assert (Hat : nth_error (PRNode._fileChanges s) i = Some (InMemFileChangeNode fileChange)).
  { unfold PRNode.findMatchingFileNode in Hfile.
    destruct (fromPRUri E (resource (Store.read (PRNode.store s) thread))); [|discriminate].
    destruct (JS.findIndex _ (PRNode._fileChanges s)) as [k|]; [|discriminate].
    destruct (nth_error (PRNode._fileChanges s) k) as [[name|f]|] eqn:Hk; try discriminate.
    injection Hfile as <- <-. exact Hk. }
  assert (Hkey : commentId (convertToVSCodeComment edited None) = commentId comment).
  { simpl. rewrite (Hserver _ _ _ Hedit).
    apply find_some in Hraw. destruct Hraw as [_ Hraw]. unfold Review.same_id in Hraw.
    now apply String.eqb_eq in Hraw. }
  exists i, fileChange,
    (set_fc_comments fileChange
       (Review.replace_comment comment edited (fc_comments fileChange))), edited.
  split; [reflexivity|]. split; [now exists raw|]. split; [|split; [|split]].
  - rewrite update_nth_same, Hat. reflexivity.
  - destruct fileChange; simpl.
    apply replace_comment_in_place, unique_id_at_most_one.
    apply (Hfiles i _ Hat).
  - unfold Store.read, Store.write. simpl. rewrite Nat.eqb_refl. simpl.
    rewrite <- Hkey. apply replace_in_thread_in_place.
  - unfold Store.read, Store.write. simpl. now rewrite Nat.eqb_refl.
Qed.

(** C1.  On the head side of [a.ts] the live thread 1 has the id ["3"],
    and so has the one thread of the new projection; the reconciliation of
    [PRNode] calls [dispose()] on thread 1 all the same, and leaves the
    disposed thread in the map of live threads. *)
Theorem PRNode_disposes_matched_thread :
  let news :=
    match provideDocumentComments Sample.env Sample.prHead false
            (Some (InMemFileChangeNode (Sample.file [Sample.comment3])))
            [Sample.comment3] false with
    | Returned (Some info) => threads info
    | _ => []
    end in
  let s' :=
    PRNode.updateFileChangeCommentThreads [1%nat] (Some news)
      (Sample.file [Sample.comment3]) false Sample.prNodeState in
  threadId (Store.read (PRNode.store Sample.prNodeState) 1) = "3"%string
  /\ map threadId news = ["3"%string]
  /\ Store.disposed (PRNode.store s') = [1%nat]
  /\ PRNode._fileChangeCommentThreads s' = [("a.ts"%string, [0; 1]%nat)].
Proof.
  vm_compute. repeat split; reflexivity.
Qed.

(** C3.  Two passes of [PRNode.updateComments] over the same file changes:
    nothing has changed between the passes, and the second pass calls
    [dispose()] again on both live threads of the file. *)
Theorem PRNode_second_pass_disposes :
  let fileChanges := [InMemFileChangeNode (Sample.file [Sample.comment3])] in
  let first := PRNode.updateComments Sample.env fileChanges false Sample.prNodeState in
  let second := PRNode.updateComments Sample.env fileChanges false (fst first) in
  snd first = Returned tt
  /\ snd second = Returned tt
  /\ Store.disposed (PRNode.store (fst first)) = [0; 1]%nat
  /\ Store.disposed (PRNode.store (fst second)) = [0; 1; 0; 1]%nat
  /\ PRNode._fileChangeCommentThreads (fst second)
     = PRNode._fileChangeCommentThreads (fst first).
Proof.
  vm_compute. repeat split; reflexivity.
Qed.

(** ** Deleting a review *)

(** C2.  The review 7 with the comments 1 and 2 is deleted.
    [Review.deleteReview] empties and disposes thread 0 and keeps thread 1,
    but the flat comment list and the comment list of the file still hold
    the comments 1 and 2. *)
Theorem deleteReview_keeps_deleted_comments_in_lists :
  let result := Review.deleteReview Sample.remote Sample.reviewState in
  remote_deleteReview Sample.remote = Returned (7%Z, [Sample.comment1; Sample.comment2])
  /\ snd result = Returned tt
  /\ Review._comments (fst result) = [Sample.comment1; Sample.comment2; Sample.comment3]
  /\ map fc_comments (Review._localFileChanges (fst result))
     = [[Sample.comment1; Sample.comment2; Sample.comment3]]
  /\ Review._workspaceFileChangeCommentThreads (fst result) = [("a.ts"%string, [1%nat])]
  /\ Store.disposed (Review.store (fst result)) = [0%nat].
Proof.
  vm_compute. repeat split; reflexivity.
Qed.

(** ** Outdated comments *)

(** C5.  Two outdated comments of a file, with the original positions 3
    and 1 and no position.  [outdatedCommentsToCommentThreads] groups by
    [position], so both fall into the one group of the key ["null"] and
    into one thread, anchored at the original position of the first.
    [provideCommentInfoForReviewUri] groups by [originalPosition] but
    returns from inside its loop: it shows the group of the key ["1"] and
    leaves out the comment 4 of the original position 3. *)
Theorem outdated_comments_grouped_by_position :
  match outdatedCommentsToCommentThreads (Sample.obsoleteFile [])
          [Sample.outdated1; Sample.outdated2] Expanded with
  | Returned ts =>
      map (fun t => (threadId t, map commentId (comments t))) ts
      = [("4"%string, ["4"%string; "5"%string])]
  | Threw _ => False
  end
  /\ map fst (groupBy [Sample.outdated1; Sample.outdated2] positionKey) = ["null"%string]
  /\ map fst (groupBy [Sample.outdated1; Sample.outdated2] originalPositionKey)
     = ["3"%string; "1"%string]
  /\ match Review.provideCommentInfoForReviewUri Sample.env Sample.outdatedState
             (mkReviewUriParams "a.ts" "c0" false true) with
     | Returned (Some info) =>
         map (fun t => (threadId t, map commentId (comments t))) (threads info)
         = [("5"%string, ["5"%string])]
     | _ => False
     end.
Proof.
  vm_compute. repeat split; reflexivity.
Qed.

(** ** Runs of [validateState] *)

(** C9.  Three requests: the second arrives while run 0 is in flight and
    is chained behind it as run 1.  Run 0 reaches its end, where it resets
    [_validateStatusInProgress], and run 1 starts.  The third request
    finds the field empty and starts run 2 while run 1 is in flight. *)
Theorem validateState_runs_overlap :
  ReviewManager.run ReviewManager.initial
    [ReviewManager.Request; ReviewManager.Request;
     ReviewManager.Completes 0 ReviewManager.ReachesEnd]
  = Some (ReviewManager.mkState None false [1%nat] [] 2)
  /\ ReviewManager.run ReviewManager.initial
       [ReviewManager.Request; ReviewManager.Request;
        ReviewManager.Completes 0 ReviewManager.ReachesEnd; ReviewManager.Request]
     = Some (ReviewManager.mkState (Some 2%nat) false [1; 2]%nat [] 3).
Proof.
  vm_compute. split; reflexivity.
Qed.

(** ** Dictionary objects and [groupBy] *)

Lemma get_set {V} (o : Obj.t V) (k : string) (v : V) (k' : string) :
  Obj.get (Obj.set o k v) k' = if String.eqb k k' then Some v else Obj.get o k'.
Proof.
  induction o as [|[k0 v0] r IH]; simpl.
  - reflexivity.
  - destruct (String.eqb_spec k0 k) as [-> | Hne]; simpl.
    + now destruct (String.eqb k k').
    + rewrite IH. destruct (String.eqb_spec k0 k') as [-> | Hne'].
      * destruct (String.eqb_spec k k') as [-> | _]; [now contradiction Hne | reflexivity].
      * reflexivity.
Qed.

Lemma keys_set_In {V} (o : Obj.t V) (k : string) (v : V) (k' : string) :
  In k' (Obj.keys (Obj.set o k v)) <-> k' = k \/ In k' (Obj.keys o).
Proof.
  unfold Obj.keys. induction o as [|[k0 v0] r IH]; simpl.
  - intuition.
  - destruct (String.eqb_spec k0 k) as [-> | Hne]; simpl.
    + intuition.
    + rewrite IH. intuition.
Qed.

Lemma keys_set_NoDup {V} (o : Obj.t V) (k : string) (v : V) :
  NoDup (Obj.keys o) -> NoDup (Obj.keys (Obj.set o k v)).
Proof.
  unfold Obj.keys. induction o as [|[k0 v0] r IH]; simpl; intros Hnd.
  - constructor; [intros [] | constructor].
  - inversion Hnd as [|? ? Hnotin Hnd']; subst.
    destruct (String.eqb_spec k0 k) as [-> | Hne]; simpl.
    + now constructor.
    + constructor; [|now apply IH].
      intros Hin. apply (keys_set_In r k v k0) in Hin.
      destruct Hin as [-> | Hin]; [now apply Hne | now apply Hnotin].
Qed.

Lemma get_In {V} (o : Obj.t V) (k : string) (v : V) :
  Obj.get o k = Some v -> In (k, v) o.
Proof.
  induction o as [|[k0 v0] r IH]; simpl; [discriminate|].
  destruct (String.eqb_spec k0 k) as [-> | Hne].
  - intros H. injection H as ->. now left.
  - intros H. right. now apply IH.
Qed.

Lemma In_get {V} (o : Obj.t V) (k : string) (v : V) :
  NoDup (Obj.keys o) -> In (k, v) o -> Obj.get o k = Some v.
Proof.
  unfold Obj.keys. induction o as [|[k0 v0] r IH]; simpl; intros Hnd Hin; [contradiction|].
  inversion Hnd as [|? ? Hnotin Hnd']; subst.
  destruct Hin as [Heq | Hin].
  - injection Heq as -> ->. now rewrite String.eqb_refl.
  - destruct (String.eqb_spec k0 k) as [-> | Hne]; [|now apply IH].
    exfalso. apply Hnotin. apply in_map_iff. now exists (k, v).
Qed.

(** [for ... in] visits every property once: as a set, the enumeration is
    the object. *)
Lemma insert_index_In {V} (z : Z) (e : string * V) (l : list (Z * (string * V)))
      (x : Z * (string * V)) :
  In x (Obj.insert_index z e l) <-> x = (z, e) \/ In x l.
Proof.
  induction l as [|[z' e'] r IH]; simpl.
  - intuition.
  - destruct (z <=? z')%Z; simpl; [intuition|]. rewrite IH. intuition.
Qed.

Lemma index_entries_In {V} (o : Obj.t V) (z : Z) (e : string * V) :
  In (z, e) (Obj.index_entries o) <-> In e o /\ Obj.array_index (fst e) = Some z.
Proof.
  unfold Obj.index_entries. induction o as [|e0 r IH]; simpl.
  - intuition.
  - destruct (Obj.array_index (fst e0)) as [z0|] eqn:Hz0.
    + rewrite insert_index_In, IH. split.
      * intros [Heq | [Hin Hz]]; [injection Heq as -> ->; now split; [left|] | now split; [right|]].
      * intros [[-> | Hin] Hz]; [left; congruence | right; now split].
    + rewrite IH. split.
      * intros [Hin Hz]. now split; [right|].
      * intros [[-> | Hin] Hz]; [congruence | now split].
Qed.

Lemma for_in_In {V} (o : Obj.t V) (e : string * V) :
  In e (Obj.for_in o) <-> In e o.
Proof.
  unfold Obj.for_in. rewrite in_app_iff, in_map_iff, filter_In. split.
  - intros [([z e'] & Heq & Hin) | [Hin _]]; [|assumption].
    simpl in Heq. subst e'. now apply index_entries_In in Hin.
  - intros Hin. unfold Obj.is_plain_key.
    destruct (Obj.array_index (fst e)) as [z|] eqn:Hz.
    + left. exists (z, e). split; [reflexivity|]. now apply index_entries_In.
    + right. now split.
Qed.


Lemma groupBy_snoc {T} (fn : T -> string) (l : list T) (x : T) :
  groupBy (l ++ [x]) fn
  = Obj.set (groupBy l fn) (fn x)
            (match Obj.get (groupBy l fn) (fn x) with
             | Some g => g
             | None => []
             end ++ [x]).
Proof.
  unfold groupBy. now rewrite fold_left_app.
Qed.

Lemma groupBy_NoDup {T} (fn : T -> string) (l : list T) :
  NoDup (Obj.keys (groupBy l fn)).
Proof.
  induction l as [|x l IH] using rev_ind.
  - constructor.
  - rewrite groupBy_snoc. now apply keys_set_NoDup.
Qed.

Lemma group_of_snoc {T} (fn : T -> string) (l : list T) (x : T) (k : string) :
  group_of fn (l ++ [x]) k = group_of fn l k ++ (if String.eqb (fn x) k then [x] else []).
Proof.
  unfold group_of. rewrite filter_app. simpl. now destruct (String.eqb (fn x) k).
Qed.

Lemma groupBy_get {T} (fn : T -> string) (l : list T) (k : string) :
  Obj.get (groupBy l fn) k
  = match group_of fn l k with
    | [] => None
    | _ :: _ => Some (group_of fn l k)
    end.
Proof.
  induction l as [|x l IH] using rev_ind.
  - reflexivity.
  - rewrite groupBy_snoc, get_set, group_of_snoc.
    destruct (String.eqb_spec (fn x) k) as [-> | Hne].
    + rewrite IH. destruct (group_of fn l k); reflexivity.
    + rewrite IH, app_nil_r. reflexivity.
Qed.

Lemma groupBy_In {T} (fn : T -> string) (l : list T) (k : string) (g : list T) :
  In (k, g) (Obj.for_in (groupBy l fn)) <-> g = group_of fn l k /\ g <> [].
Proof.
  rewrite for_in_In. split.
  - intros Hin. apply In_get in Hin; [|apply groupBy_NoDup].
    rewrite groupBy_get in Hin.
    destruct (group_of fn l k) eqn:Hg; [discriminate|].
    injection Hin as <-. split; [reflexivity | discriminate].
  - intros [-> Hne]. apply get_In. rewrite groupBy_get.
    destruct (group_of fn l k); [now contradiction Hne | reflexivity].
Qed.

Lemma group_of_In {T} (fn : T -> string) (l : list T) (k : string) (x : T) :
  In x (group_of fn l k) <-> In x l /\ fn x = k.
Proof.
  unfold group_of. rewrite filter_In. now rewrite String.eqb_eq.
Qed.

(** The loop [for (k in o)] visits every key once. *)

Lemma insert_index_Permutation {V} (z : Z) (e : string * V) (l : list (Z * (string * V))) :
  Permutation (Obj.insert_index z e l) ((z, e) :: l).
Proof.
  induction l as [|[z' e'] r IH]; simpl; [reflexivity|].
  destruct (z <=? z')%Z; [reflexivity|].
  rewrite IH. apply perm_swap.
Qed.

Lemma index_entries_Permutation {V} (o : Obj.t V) :
  Permutation (map snd (Obj.index_entries o))
              (filter (fun e => negb (Obj.is_plain_key e)) o).
Proof.
  induction o as [|e r IH]; simpl; [reflexivity|].
  unfold Obj.is_plain_key at 1.
  destruct (Obj.array_index (fst e)) as [z|]; simpl; [|exact IH].
  rewrite insert_index_Permutation. simpl. now constructor.
Qed.

Lemma filter_split_Permutation {A} (p : A -> bool) (l : list A) :
  Permutation (filter (fun x => negb (p x)) l ++ filter p l) l.
Proof.
  induction l as [|x l IH]; simpl; [reflexivity|].
  destruct (p x); simpl.
  - rewrite <- Permutation_middle. now constructor.
  - now constructor.
Qed.

(** [for (k in o)] visits every property of [o] once. *)
Lemma for_in_Permutation {V} (o : Obj.t V) : Permutation (Obj.for_in o) o.
Proof.
  unfold Obj.for_in. rewrite index_entries_Permutation. apply filter_split_Permutation.
Qed.

Lemma for_in_keys_NoDup {V} (o : Obj.t V) :
  NoDup (Obj.keys o) -> NoDup (map fst (Obj.for_in o)).
Proof.
  intros H. eapply Permutation_NoDup; [|exact H].
  unfold Obj.keys. apply Permutation_map. symmetry. apply for_in_Permutation.
Qed.

(** ** Threads of a live view *)

(** *** Loops that can throw *)

Lemma pushEach_Returned {A B} (body : A -> Outcome (list B)) (l : list A) :
  forall ret out : list B,
    pushEach body l ret = Returned out ->
    out = ret ++ flat_map (fun x => itemsOf (body x)) l
    /\ forall x, In x l -> exists items, body x = Returned items.
Proof.
  induction l as [|x l IH]; intros ret out Hrun; cbn [pushEach] in Hrun.
  - injection Hrun as <-. cbn [flat_map]. rewrite app_nil_r. split; [reflexivity|].
    intros x [].
  - destruct (body x) as [items|msg] eqn:Hx; cbn [andThen] in Hrun; [|discriminate].
    apply IH in Hrun. destruct Hrun as [-> Hall]. split.
    + cbn [flat_map]. rewrite Hx. cbn [itemsOf]. now rewrite app_assoc.
    + intros y [<- | Hy]; [now exists items | now apply Hall].
Qed.

Lemma pushEach_returns {A B} (body : A -> Outcome (list B)) (l : list A) :
  forall ret : list B,
    (forall x, In x l -> exists items, body x = Returned items) ->
    pushEach body l ret = Returned (ret ++ flat_map (fun x => itemsOf (body x)) l).
Proof.
  induction l as [|x l IH]; intros ret Hall; cbn [pushEach flat_map].
  - now rewrite app_nil_r.
  - destruct (Hall x (or_introl eq_refl)) as [items Hx]. rewrite Hx. cbn [andThen itemsOf].
    rewrite IH by (intros y Hy; apply Hall; now right). now rewrite app_assoc.
Qed.

Lemma pushEach_Threw {A B} (body : A -> Outcome (list B)) (l : list A) :
  forall (ret : list B) (msg : string),
    pushEach body l ret = Threw msg -> exists x, In x l /\ body x = Threw msg.
Proof.
  induction l as [|x l IH]; intros ret msg Hrun; cbn [pushEach] in Hrun; [discriminate|].
  destruct (body x) as [items|m] eqn:Hx; cbn [andThen] in Hrun.
  - apply IH in Hrun. destruct Hrun as (y & Hy & Hthrew). exists y. split; [now right|].
    assumption.
  - injection Hrun as ->. exists x. split; [now left | assumption].
Qed.

Lemma pushEach_throws {A B} (body : A -> Outcome (list B)) (l : list A) (x : A)
      (msg : string) :
  In x l -> body x = Threw msg ->
  forall ret : list B, exists msg', pushEach body l ret = Threw msg'.
Proof.
  intros Hin Hx. induction l as [|y l IH]; intros ret; [contradiction|].
  cbn [pushEach]. destruct (body y) as [items|m] eqn:Hy; cbn [andThen].
  - destruct Hin as [-> | Hin]; [congruence|]. now apply IH.
  - now exists m.
Qed.

Lemma lineRange_Returned (line : Z) :
  (0 <= line)%Z -> lineRange line = Returned (mkRange line 0 line 0).
Proof.
  intros H. unfold lineRange. destruct (line <? 0)%Z eqn:Hl; [|reflexivity].
  apply Z.ltb_lt in Hl. lia.
Qed.

Lemma lineRange_Threw (line : Z) : (line < 0)%Z -> lineRange line = Threw illegalLine.
Proof. intros H. unfold lineRange. apply Z.ltb_lt in H. now rewrite H. Qed.

Lemma getZeroBased_sign (n : Z) : (0 <= getZeroBased n <-> 0 <= n)%Z.
Proof. unfold getZeroBased. destruct (0 <? n)%Z eqn:H; [apply Z.ltb_lt in H|]; lia. Qed.

Lemma getCommentingRanges_returns (hunks : list DiffHunk) (isBase : bool) :
  hunksFromDiff hunks -> exists ranges, getCommentingRanges hunks isBase = Returned ranges.
Proof.
  intros Hhunks. unfold getCommentingRanges. eexists. apply pushEach_returns.
  intros h Hh. destruct (Hhunks h Hh) as (Ho & Hol & Hn & Hnl).
  set (startingLine := getZeroBased (if isBase then oldLineNumber h else newLineNumber h)).
  set (len := getZeroBased (if isBase then oldLength h else newLength h)).
  assert (Hs : (0 <= startingLine)%Z)
    by (apply getZeroBased_sign; now destruct isBase).
  assert (Hlen : (0 <= len)%Z) by (apply getZeroBased_sign; now destruct isBase).
  unfold newRange.
  destruct (startingLine <? 0)%Z eqn:H1; [apply Z.ltb_lt in H1; lia|].
  destruct (startingLine + len <? 0)%Z eqn:H2; [apply Z.ltb_lt in H2; lia|].
  cbn [orb]. destruct (startingLine <? startingLine + len)%Z; eexists; reflexivity.
Qed.

(** *** The threads of the groups *)

(** The threads that a loop over the groups builds: thread [t] comes from
    the group of one key. *)
Lemma thread_of_some_group (f : string * list Comment -> list CommentThread)
      (cs : list Comment) (t : CommentThread) :
  In t (flat_map f (Obj.for_in (groupBy cs positionKey)))
  <-> exists k, group_of positionKey cs k <> []
                /\ In t (f (k, group_of positionKey cs k)).
Proof.
  rewrite in_flat_map. split.
  - intros ([k g] & Hin & Ht). apply groupBy_In in Hin. destruct Hin as [-> Hne].
    now exists k.
  - intros (k & Hne & Ht). exists (k, group_of positionKey cs k). split; [|assumption].
    now apply groupBy_In.
Qed.

Lemma shows_converted (cmd : option Command) (g : list Comment) (t : CommentThread)
      (c : Comment) :
  comments t = map (fun comment => convertToVSCodeComment comment cmd) g ->
  (shows t c <-> In c g).
Proof.
  intros Hc. unfold shows. rewrite Hc. split.
  - intros (vc & Hin & Hraw). apply in_map_iff in Hin.
    destruct Hin as (c0 & <- & Hin). simpl in Hraw. now subst c0.
  - intros Hin. exists (convertToVSCodeComment c cmd). split; [|reflexivity].
    apply in_map_iff. now exists c.
Qed.

(** In a list put together from the items of distinct sources, each of
    which gives at most one item, two items that point to the same source
    stand at the same index. *)
Lemma one_item_per_source {A B} (f : A -> list B) (src : B -> A -> Prop) (l : list A) :
  NoDup l ->
  (forall x, In x l -> (List.length (f x) <= 1)%nat) ->
  forall (a : A) (i j : nat) (b b' : B),
    (forall x, In x l -> In b (f x) -> x = a) ->
    (forall x, In x l -> In b' (f x) -> x = a) ->
    nth_error (flat_map f l) i = Some b ->
    nth_error (flat_map f l) j = Some b' ->
    i = j.
Proof.
  induction l as [|x l IH]; intros Hnd Hone a i j b b' Hb Hb' Hi Hj.
  - destruct i; discriminate.
  - inversion Hnd as [|? ? Hx Hnd']; subst. cbn [flat_map] in Hi, Hj.
    assert (Hlen : (List.length (f x) <= 1)%nat) by (apply Hone; now left).
    assert (Htail : forall k y, nth_error (flat_map f l) k = Some y ->
                                exists z, In z l /\ In y (f z)).
    { intros k y Hk. apply nth_error_In in Hk. apply in_flat_map in Hk. exact Hk. }
    assert (IH' : forall i' j', nth_error (flat_map f l) i' = Some b ->
                                nth_error (flat_map f l) j' = Some b' -> i' = j').
    { intros i' j' Hi' Hj'. apply (IH Hnd' (fun z Hz => Hone z (or_intror Hz)) a i' j' b b');
        try assumption.
      - intros z Hz. apply Hb. now right.
      - intros z Hz. apply Hb'. now right. }
    destruct (f x) as [|y [|y' rest]] eqn:Hfx; [| |cbn [List.length] in Hlen; lia].
    + cbn [app] in Hi, Hj. now apply IH'.
    + cbn [app] in Hi, Hj.
      assert (Hhead : forall y0, y0 = y -> (forall z, In z (x :: l) -> In y0 (f z) -> z = a) ->
                                 x = a).
      { intros y0 -> H0. apply H0; [now left|]. rewrite Hfx. now left. }
      assert (Hrest : forall k y0, nth_error (flat_map f l) k = Some y0 ->
                                   (forall z, In z (x :: l) -> In y0 (f z) -> z = a) ->
                                   In a l).
      { intros k y0 Hk H0. destruct (Htail k y0 Hk) as (z & Hz & Hy0).
        rewrite <- (H0 z (or_intror Hz) Hy0). exact Hz. }
      destruct i as [|i], j as [|j]; cbn [nth_error] in Hi, Hj.
      * reflexivity.
      * injection Hi as <-. exfalso. apply Hx.
        rewrite (Hhead y eq_refl Hb). exact (Hrest j b' Hj Hb').
      * injection Hj as <-. exfalso. apply Hx.
        rewrite (Hhead y eq_refl Hb'). exact (Hrest i b Hi Hb).
      * f_equal. now apply IH'.
Qed.

(** The groups of [groupBy], as the loop visits them, are distinct. *)
Lemma groups_distinct {T} (fn : T -> string) (l : list T) :
  NoDup (Obj.for_in (groupBy l fn)).
Proof.
  assert (H : forall (pairs : list (string * list T)), NoDup (map fst pairs) -> NoDup pairs).
  { induction pairs as [|p pairs IH]; intros Hnd; [constructor|].
    inversion Hnd as [|? ? Hp Hnd']; subst. constructor; [|now apply IH].
    intros Hin. apply Hp. now apply in_map. }
  apply H, for_in_keys_NoDup, groupBy_NoDup.
Qed.

(** A loop over the groups of [groupBy(comments, c => String(c.position))]
    in which the group of a comment gives one thread that shows its
    comments, and no group more than one: exactly one thread of the result
    shows the comment. *)
Lemma group_thread_shows_once (f : string * list Comment -> list CommentThread)
      (cmd : option Command) (cs : list Comment) (c : Comment) (t : CommentThread) :
  In c cs ->
  (forall k g t', In (k, g) (Obj.for_in (groupBy cs positionKey)) -> In t' (f (k, g)) ->
                  f (k, g) = [t']
                  /\ comments t' = map (fun comment => convertToVSCodeComment comment cmd) g) ->
  In t (f (positionKey c, group_of positionKey cs (positionKey c))) ->
  exactly_one_shows (flat_map f (Obj.for_in (groupBy cs positionKey))) c.
Proof.
  intros Hin Hf Ht.
  set (own := (positionKey c, group_of positionKey cs (positionKey c))).
  assert (Hown : In own (Obj.for_in (groupBy cs positionKey))).
  { apply groupBy_In. split; [reflexivity|]. intros Hnil.
    assert (Hc : In c (group_of positionKey cs (positionKey c)))
      by (apply group_of_In; now split).
    rewrite Hnil in Hc. contradiction. }
  assert (Hfrom : forall t', shows t' c ->
                             forall x, In x (Obj.for_in (groupBy cs positionKey)) ->
                                       In t' (f x) -> x = own).
  { intros t' Hshows [k g] Hx Ht'. destruct (Hf k g t' Hx Ht') as [_ Hcs].
    apply (shows_converted cmd g) in Hshows; [|assumption].
    apply groupBy_In in Hx. destruct Hx as [-> _].
    apply group_of_In in Hshows. destruct Hshows as [_ <-]. reflexivity. }
  assert (Hshows : shows t c).
  { destruct (Hf _ _ t Hown Ht) as [_ Hcs].
    apply (shows_converted cmd (group_of positionKey cs (positionKey c))); [assumption|].
    apply group_of_In. now split. }
  assert (Hmem : In t (flat_map f (Obj.for_in (groupBy cs positionKey))))
    by (apply in_flat_map; now exists own).
  apply In_nth_error in Hmem. destruct Hmem as [i Hi].
  exists i, t. split; [exact Hi|]. split; [exact Hshows|].
  intros j t' Hj Hshows'.
  apply (@one_item_per_source _ _ f (fun _ _ => True) (Obj.for_in (groupBy cs positionKey))
           (groups_distinct positionKey cs)) with (a := own) (b := t') (b' := t);
    try assumption.
  - intros [k g] Hx. destruct (f (k, g)) as [|t0 rest] eqn:Hfx; [cbn; lia|].
    destruct (Hf k g t0 Hx) as [Heq _]; [rewrite Hfx; now left|].
    rewrite Hfx in Heq. injection Heq as ->. cbn. lia.
  - now apply Hfrom.
  - now apply Hfrom.
Qed.

(** *** The document of a pull request *)

Lemma documentThreadOfGroup_spec (E : Env) (uri : Uri) (isBase : bool) (fc : FileChange)
      (k : string) (first : Comment) (rest : list Comment) :
  documentThreadOfGroup E uri isBase fc (k, first :: rest)
  = Returned
      (if (resolvedPosition E fc isBase first <? 0)%Z then []
       else [mkThread (JS.toString (id first)) uri
                      (let line := getZeroBased (resolvedPosition E fc isBase first) in
                       mkRange line 0 line 0)
                      (map (fun comment => convertToVSCodeComment comment None)
                           (first :: rest))
                      Expanded None]).
Proof.
  unfold documentThreadOfGroup. cbn [snd].
  destruct (resolvedPosition E fc isBase first <? 0)%Z eqn:Hp; [reflexivity|].
  rewrite lineRange_Returned; [reflexivity|].
  apply getZeroBased_sign. now apply Z.ltb_ge.
Qed.

Lemma documentThreadOfGroup_returns (E : Env) (uri : Uri) (isBase : bool) (fc : FileChange)
      (section : string * list Comment) :
  exists ts, documentThreadOfGroup E uri isBase fc section = Returned ts.
Proof.
  destruct section as [k [|first rest]]; [now exists []|].
  rewrite documentThreadOfGroup_spec. now eexists.
Qed.

(** [provideDocumentComments] returns whenever the commenting ranges can
    be built, and its threads are those of the groups. *)
Lemma provideDocumentComments_Returned (E : Env) (uri : Uri) (isBase : bool)
      (fc : FileChange) (cs : list Comment) (inDraft : bool) (ranges : list Range) :
  (if isPartial fc then Returned [mkRange 0 0 0 0]
   else getCommentingRanges (fc_diffHunks fc) isBase) = Returned ranges ->
  provideDocumentComments E uri isBase (Some (InMemFileChangeNode fc)) cs inDraft
  = Returned
      (Some (mkCommentInfo
               (flat_map (fun section => itemsOf (documentThreadOfGroup E uri isBase fc section))
                         (Obj.for_in (groupBy cs positionKey)))
               ranges (Some inDraft))).
Proof.
  intros Hranges. unfold provideDocumentComments. rewrite Hranges. cbn [andThen].
  destruct cs as [|c0 cs0] eqn:Hcs; [reflexivity|]. rewrite <- Hcs.
  rewrite pushEach_returns by (intros x _; apply documentThreadOfGroup_returns).
  reflexivity.
Qed.

(** In the projection of a live document, the comments of a group whose
    first comment resolves to a negative position are in no thread, and a
    comment of a group that resolves to another position is in exactly
    one thread. *)
Lemma provideDocumentComments_threads (E : Env) (uri : Uri) (isBase : bool) (fc : FileChange)
      (cs : list Comment) (inDraft : bool) (ranges : list Range) :
  (if isPartial fc then Returned [mkRange 0 0 0 0]
   else getCommentingRanges (fc_diffHunks fc) isBase) = Returned ranges ->
  exists info,
    provideDocumentComments E uri isBase (Some (InMemFileChangeNode fc)) cs inDraft
    = Returned (Some info)
    /\ commentingRanges info = ranges
    /\ forall c first rest,
         In c cs ->
         group_of positionKey cs (positionKey c) = first :: rest ->
         ((resolvedPosition E fc isBase first < 0)%Z ->
          forall t, In t (threads info) -> ~ shows t c)
         /\ ((0 <= resolvedPosition E fc isBase first)%Z ->
             exactly_one_shows (threads info) c).
Proof.
  intros Hranges. eexists.
  split; [exact (@provideDocumentComments_Returned E uri isBase fc cs inDraft ranges Hranges)|].
  split; [reflexivity|]. cbn [threads].
  set (f := fun section => itemsOf (documentThreadOfGroup E uri isBase fc section)).
  assert (Hf : forall k first rest,
             f (k, first :: rest)
             = if (resolvedPosition E fc isBase first <? 0)%Z then []
               else [mkThread (JS.toString (id first)) uri
                              (let line := getZeroBased (resolvedPosition E fc isBase first) in
                               mkRange line 0 line 0)
                              (map (fun comment => convertToVSCodeComment comment None)
                                   (first :: rest))
                              Expanded None]).
  { intros k first rest. unfold f. now rewrite documentThreadOfGroup_spec. }
  intros c first rest Hin Hgroup. split.
  - intros Hneg t Ht Hshows. apply thread_of_some_group in Ht.
    destruct Ht as (k & Hne & Ht).
    destruct (group_of positionKey cs k) as [|f0 r0] eqn:Hg; [now contradiction Hne|].
    rewrite Hf in Ht.
    destruct (resolvedPosition E fc isBase f0 <? 0)%Z eqn:Hf0; [contradiction|].
    destruct Ht as [<- | []].
    apply (shows_converted None (f0 :: r0)) in Hshows; [|reflexivity].
    rewrite <- Hg in Hshows. apply group_of_In in Hshows. destruct Hshows as [_ Hk].
    subst k. rewrite Hgroup in Hg. injection Hg as <- <-.
    apply Z.ltb_ge in Hf0. lia.
  - intros Hpos.
    assert (Hge : (resolvedPosition E fc isBase first <? 0)%Z = false)
      by (apply Z.ltb_ge; lia).
    eapply (@group_thread_shows_once f None cs c); [assumption| |].
    + intros k g t' Hx Ht'. apply groupBy_In in Hx. destruct Hx as [-> Hne].
      destruct (group_of positionKey cs k) as [|f0 r0]; [now contradiction Hne|].
      rewrite Hf in Ht' |- *.
      destruct (resolvedPosition E fc isBase f0 <? 0)%Z; [contradiction|].
      destruct Ht' as [<- | []]. split; reflexivity.
    + rewrite Hgroup, Hf, Hge. now left.
Qed.

(** *** The workspace projection *)

Lemma workspaceThreadOfGroup_spec (E : Env) (cmd : option Command)
      (state : CommentThreadCollapsibleState) (k : string) (first : Comment)
      (rest : list Comment) :
  workspaceThreadOfGroup E cmd state (k, first :: rest)
  = if (absolutePosition_or_0 first <? 0)%Z then Threw illegalLine
    else Returned
           [mkThread (JS.toString (id first)) (workspaceUri E first)
                     (let line := getZeroBased (absolutePosition_or_0 first) in
                      mkRange line 0 line 0)
                     (map (fun comment => convertToVSCodeComment comment cmd) (first :: rest))
                     state None].
Proof.
  unfold workspaceThreadOfGroup. cbn [snd].
  destruct (absolutePosition_or_0 first <? 0)%Z eqn:Hp.
  - rewrite lineRange_Threw; [reflexivity|].
    apply Z.ltb_lt in Hp. pose proof (getZeroBased_sign (absolutePosition_or_0 first)). lia.
  - rewrite lineRange_Returned; [reflexivity|].
    apply getZeroBased_sign. now apply Z.ltb_ge.
Qed.

(** The threads that [workspaceLocalCommentsToCommentThreads] returns. *)
Lemma workspaceLocal_Returned (E : Env) (fc : FileChange) (fl : list Comment)
      (state : CommentThreadCollapsibleState) (ts : list CommentThread) :
  workspaceLocalCommentsToCommentThreads E (Some fc) fl state = Returned ts ->
  ts = flat_map (fun section =>
                   itemsOf (workspaceThreadOfGroup
                              E (if GitChangeType_eqb (status fc) DELETE
                                 then Some "pr.viewChanges"%string else None)
                              state section))
                (Obj.for_in (groupBy fl positionKey))
  /\ forall k first rest,
       group_of positionKey fl k = first :: rest -> (0 <= absolutePosition_or_0 first)%Z.
Proof.
  unfold workspaceLocalCommentsToCommentThreads.
  destruct fl as [|x fl0] eqn:Hfl.
  - intros Hrun. injection Hrun as <-. split; [reflexivity|]. intros k first rest H.
    discriminate.
  - rewrite <- Hfl. intros Hrun. apply pushEach_Returned in Hrun.
    destruct Hrun as [-> Hall]. split; [reflexivity|].
    intros k first rest Hg.
    destruct (Hall (k, first :: rest)) as [items Hitems].
    { apply groupBy_In. rewrite Hg. split; [reflexivity | discriminate]. }
    rewrite workspaceThreadOfGroup_spec in Hitems.
    destruct (absolutePosition_or_0 first <? 0)%Z eqn:Hp; [discriminate|].
    now apply Z.ltb_ge.
Qed.

(** [workspaceLocalCommentsToCommentThreads] returns when no group starts
    with a comment of a negative absolute position. *)
Lemma workspaceLocal_returns (E : Env) (fc : FileChange) (fl : list Comment)
      (state : CommentThreadCollapsibleState) :
  (forall k first rest,
      group_of positionKey fl k = first :: rest -> (0 <= absolutePosition_or_0 first)%Z) ->
  exists ts, workspaceLocalCommentsToCommentThreads E (Some fc) fl state = Returned ts.
Proof.
  intros Hpos. unfold workspaceLocalCommentsToCommentThreads.
  destruct fl as [|x fl0] eqn:Hfl; [now eexists|]. rewrite <- Hfl in *.
  eexists. apply pushEach_returns. intros [k g] Hx.
  apply groupBy_In in Hx. destruct Hx as [-> Hne].
  destruct (group_of positionKey fl k) as [|first rest] eqn:Hg; [now contradiction Hne|].
  rewrite workspaceThreadOfGroup_spec.
  destruct (absolutePosition_or_0 first <? 0)%Z eqn:Hp; [|now eexists].
  apply Z.ltb_lt in Hp. specialize (Hpos k first rest Hg). lia.
Qed.

(** Every comment that [workspaceLocalCommentsToCommentThreads] is given
    is shown by exactly one of the threads it returns, and these threads
    show no other comment. *)
Lemma workspace_threads_show (E : Env) (fc : FileChange) (fl : list Comment)
      (state : CommentThreadCollapsibleState) (ts : list CommentThread) (c : Comment) :
  workspaceLocalCommentsToCommentThreads E (Some fc) fl state = Returned ts ->
  (forall t, In t ts -> shows t c -> In c fl)
  /\ (In c fl -> exactly_one_shows ts c).
Proof.
  intros Hrun. apply workspaceLocal_Returned in Hrun. destruct Hrun as [-> Hpos].
  set (cmd := if GitChangeType_eqb (status fc) DELETE then Some "pr.viewChanges"%string
              else None).
  set (f := fun section => itemsOf (workspaceThreadOfGroup E cmd state section)).
  assert (Hf : forall k first rest,
             group_of positionKey fl k = first :: rest ->
             f (k, first :: rest)
             = [mkThread (JS.toString (id first)) (workspaceUri E first)
                         (let line := getZeroBased (absolutePosition_or_0 first) in
                          mkRange line 0 line 0)
                         (map (fun comment => convertToVSCodeComment comment cmd)
                              (first :: rest))
                         state None]).
  { intros k first rest Hg. unfold f. rewrite workspaceThreadOfGroup_spec.
    destruct (absolutePosition_or_0 first <? 0)%Z eqn:Hp; [|reflexivity].
    apply Z.ltb_lt in Hp. specialize (Hpos k first rest Hg). lia. }
  split.
  - intros t Ht Hshows. apply thread_of_some_group in Ht.
    destruct Ht as (k & Hne & Ht).
    destruct (group_of positionKey fl k) as [|f0 r0] eqn:Hg; [now contradiction Hne|].
    change (In t (f (k, f0 :: r0))) in Ht.
    rewrite (Hf k f0 r0 Hg) in Ht. destruct Ht as [<- | []].
    apply (shows_converted cmd (f0 :: r0)) in Hshows; [|reflexivity].
    rewrite <- Hg in Hshows. now apply group_of_In in Hshows.
  - intros Hin.
    assert (Hg : In c (group_of positionKey fl (positionKey c)))
      by (apply group_of_In; now split).
    destruct (group_of positionKey fl (positionKey c)) as [|f0 r0] eqn:Hgroup;
      [contradiction|].
    eapply (@group_thread_shows_once f cmd fl c); [assumption| |].
    + intros k g t' Hx Ht'. apply groupBy_In in Hx. destruct Hx as [-> Hne].
      destruct (group_of positionKey fl k) as [|f1 r1] eqn:Hg1; [now contradiction Hne|].
      rewrite (Hf k f1 r1 Hg1) in Ht' |- *.
      destruct Ht' as [<- | []]. split; reflexivity.
    + rewrite Hgroup, (Hf _ f0 r0 Hgroup). now left.
Qed.

(** *** The projections of the views *)

(** C6.  The projections of the document views leave out what does not
    resolve and raise nothing.  For a document of a pull request
    ([provideDocumentComments], where the position of a group is that of
    its first comment, resolved to a number) the call returns, the
    comments of a group that resolves to a negative position are in no
    thread, and a comment of any other group is shown by exactly one
    thread.  For a review document of a file of the pull request (the
    first branch of [provideCommentInfoForReviewUri], where each comment
    is resolved and filtered by [absolutePosition > 0]) the call returns,
    a comment that does not resolve to a positive position is in no
    thread, and one that does is shown by exactly one thread.  The
    projection of the workspace view ([workspaceLocalCommentsToCommentThreads]
    without that filter) leaves nothing out: where no group starts with a
    negative absolute position it returns, every comment it is given is
    shown by exactly one thread, and a group whose first comment carries
    no absolute position is anchored on line 0.  The hunks are those of a
    parsed diff (no negative numbers), so that the commenting ranges can
    be built. *)
Theorem live_view_threads_resolved_positions :
  forall E : Env,
    (forall (uri : Uri) (isBase : bool) (fc : FileChange) (cs : list Comment)
            (inDraft : bool),
        isPartial fc = true \/ hunksFromDiff (fc_diffHunks fc) ->
        exists info,
          provideDocumentComments E uri isBase (Some (InMemFileChangeNode fc)) cs inDraft
          = Returned (Some info)
          /\ forall c first rest,
               In c cs ->
               group_of positionKey cs (positionKey c) = first :: rest ->
               let resolved :=
                 if isPartial fc
                 then getPositionInDiff E first (fc_diffHunks fc) isBase
                 else getAbsolutePosition E first (fc_diffHunks fc) isBase in
               ((resolved < 0)%Z -> forall t, In t (threads info) -> ~ shows t c)
               /\ ((0 <= resolved)%Z -> exactly_one_shows (threads info) c))
    /\ (forall (s : Review.State) (q : ReviewUriParams) (matchedFile : FileChange),
           Review.findMatchedFileChangeForReviewDiffView E
             (map InMemFileChangeNode (Review._localFileChanges s)) q = Some matchedFile ->
           hunksFromDiff (fc_diffHunks matchedFile) ->
           exists info,
             Review.provideCommentInfoForReviewUri E s q = Returned (Some info)
             /\ forall c,
                  In c (fc_comments matchedFile) ->
                  let p := getAbsolutePosition E c (fc_diffHunks matchedFile) (rv_base q) in
                  ((p <= 0)%Z ->
                   forall t, In t (threads info) ->
                             ~ shows t (set_absolutePosition c (Some p)))
                  /\ ((0 < p)%Z ->
                      exactly_one_shows (threads info) (set_absolutePosition c (Some p))))
    /\ (forall (fc : FileChange) (cs : list Comment)
               (state : CommentThreadCollapsibleState),
           (forall k first rest,
               group_of positionKey cs k = first :: rest ->
               (0 <= absolutePosition_or_0 first)%Z) ->
           exists ts,
             workspaceLocalCommentsToCommentThreads E (Some fc) cs state = Returned ts
             /\ (forall c, In c cs -> exactly_one_shows ts c)
             /\ (forall c first rest,
                    In c cs ->
                    group_of positionKey cs (positionKey c) = first :: rest ->
                    absolutePosition first = None ->
                    exists t, In t ts /\ shows t c /\ range t = mkRange 0 0 0 0)).
Proof.
  intros E. split; [|split].
  - intros uri isBase fc cs inDraft Hhunks.
    assert (Hranges : exists ranges,
               (if isPartial fc then Returned [mkRange 0 0 0 0]
                else getCommentingRanges (fc_diffHunks fc) isBase) = Returned ranges).
    { destruct (isPartial fc); [now eexists|].
      destruct Hhunks as [Hp | Hh]; [discriminate | now apply getCommentingRanges_returns]. }
    destruct Hranges as [ranges Hranges].
    destruct (@provideDocumentComments_threads E uri isBase fc cs inDraft ranges Hranges)
      as (info & Hinfo & _ & Hthreads).
    exists info. split; [exact Hinfo|].
    intros c first rest Hin Hgroup. exact (Hthreads c first rest Hin Hgroup).
  - intros s q matchedFile Hmatch Hhunks.
    unfold Review.provideCommentInfoForReviewUri. rewrite Hmatch. cbv zeta.
    set (annotate := fun comment =>
                       set_absolutePosition comment
                         (Some (getAbsolutePosition E comment (fc_diffHunks matchedFile)
                                                    (rv_base q)))).
    set (positive := fun comment => match absolutePosition comment with
                                    | Some p => (0 <? p)%Z
                                    | None => false
                                    end).
    destruct (@workspaceLocal_returns E matchedFile
                (filter positive (map annotate (fc_comments matchedFile))) Expanded)
      as [ts Hts].
    { intros k first rest Hg.
      assert (Hin : In first (group_of positionKey
                                (filter positive (map annotate (fc_comments matchedFile))) k))
        by (rewrite Hg; now left).
      apply group_of_In in Hin. destruct Hin as [Hin _]. apply filter_In in Hin.
      destruct Hin as [_ Hp]. unfold positive in Hp. unfold absolutePosition_or_0.
      destruct (absolutePosition first); [apply Z.ltb_lt in Hp; lia | discriminate]. }
    rewrite Hts. cbn [andThen].
    destruct (getCommentingRanges_returns (rv_base q) Hhunks) as [ranges Hranges].
    rewrite Hranges. cbn [andThen].
    eexists. split; [reflexivity|]. cbn [threads].
    intros c Hin.
    set (p := getAbsolutePosition E c (fc_diffHunks matchedFile) (rv_base q)).
    destruct (@workspace_threads_show E matchedFile
                (filter positive (map annotate (fc_comments matchedFile)))
                Expanded ts (set_absolutePosition c (Some p)) Hts) as [Honly Hone].
    split.
    + intros Hneg t Ht Hshows. specialize (Honly t Ht Hshows).
      apply filter_In in Honly. destruct Honly as [_ Hp].
      unfold positive in Hp. simpl in Hp. apply Z.ltb_lt in Hp. lia.
    + intros Hpos. apply Hone. apply filter_In. split.
      * apply in_map_iff. exists c. now split.
      * unfold positive. simpl. now apply Z.ltb_lt.
  - intros fc cs state Hpos.
    destruct (@workspaceLocal_returns E fc cs state Hpos) as [ts Hts].
    exists ts. split; [exact Hts|]. split.
    + intros c Hin. now apply (@workspace_threads_show E fc cs state ts c Hts).
    + intros c first rest Hin Hgroup Hnone.
      apply workspaceLocal_Returned in Hts. destruct Hts as [-> _].
      set (cmd := if GitChangeType_eqb (status fc) DELETE then Some "pr.viewChanges"%string
                  else None).
      exists (mkThread (JS.toString (id first)) (workspaceUri E first) (mkRange 0 0 0 0)
                       (map (fun comment => convertToVSCodeComment comment cmd)
                            (first :: rest))
                       state None).
      split; [|split; [|reflexivity]].
      * apply (@thread_of_some_group
                 (fun section => itemsOf (workspaceThreadOfGroup E cmd state section))).
        exists (positionKey c). rewrite Hgroup. split; [discriminate|].
        rewrite workspaceThreadOfGroup_spec. unfold absolutePosition_or_0.
        rewrite Hnone. cbn. now left.
      * apply (shows_converted cmd (first :: rest)); [reflexivity|].
        rewrite <- Hgroup. apply group_of_In. now split.
Qed.

(** The workspace projection of a comment that carries no absolute
    position returns a thread on line 0 that shows it, and the projection
    of a comment with the absolute position -1 throws. *)
Lemma workspace_view_keeps_unresolved_comments :
  absolutePosition Sample.comment1 = None
  /\ (exists t,
         workspaceLocalCommentsToCommentThreads
           Sample.env (Some (Sample.file [Sample.comment1])) [Sample.comment1] Collapsed
         = Returned [t]
         /\ shows t Sample.comment1
         /\ range t = mkRange 0 0 0 0)
  /\ workspaceLocalCommentsToCommentThreads
       Sample.env (Some (Sample.file [Sample.comment1]))
       [set_absolutePosition Sample.comment1 (Some (-1)%Z)] Collapsed
     = Threw illegalLine.
Proof.
  split; [reflexivity|]. split; [|reflexivity].
  eexists. split; [reflexivity|]. split; [|reflexivity].
  eexists. split; [now left | reflexivity].
Qed.

(** ** Reconciliation in the review provider *)


Lemma matchedIn_ext (st st' : Store.t) (existing : list nat) (thread : CommentThread) :
  (forall r, In r existing -> threadId (Store.read st' r) = threadId (Store.read st r)) ->
  matchedIn st' existing thread = matchedIn st existing thread.
Proof.
  intros Hsame. unfold matchedIn. apply filter_ext_in.
  intros r Hr. now rewrite Hsame.
Qed.

(** One round of the first loop keeps the ids of the allocated threads,
    disposes nothing and allocates at most one thread. *)
Lemma updateOrCreate_step (existing : list nat) (d : bool) (acc : list nat) (st : Store.t)
      (thread : CommentThread) :
  (forall r, In r existing -> (r < Store.next st)%nat) ->
  let acc' := fst (Review.updateOrCreate existing d (acc, st) thread) in
  let st' := snd (Review.updateOrCreate existing d (acc, st) thread) in
  (Store.next st <= Store.next st')%nat
  /\ (forall r, (r < Store.next st)%nat ->
                threadId (Store.read st' r) = threadId (Store.read st r))
  /\ Store.disposed st' = Store.disposed st
  /\ exists r, acc' = acc ++ [r]
               /\ match matchedIn st existing thread with
                  | m :: _ => r = m
                  | [] => r = Store.next st
                  end.
Proof.
  intros Halloc. unfold Review.updateOrCreate. simpl snd. simpl fst.
  fold (matchedIn st existing thread).
  destruct (matchedIn st existing thread) as [|m tl] eqn:Hm; simpl.
  - repeat split; try lia.
    + intros r Hr. unfold Store.read. simpl.
      destruct (Nat.eqb_spec r (Store.next st)); [lia | reflexivity].
    + now exists (Store.next st).
  - repeat split; try lia.
    + intros r Hr. unfold Store.read. simpl.
      destruct (Nat.eqb_spec r m) as [-> | _]; reflexivity.
    + now exists m.
Qed.

Lemma updateOrCreate_fold (existing : list nat) (d : bool) (news : list CommentThread) :
  forall (acc : list nat) (st : Store.t),
    (forall r, In r existing -> (r < Store.next st)%nat) ->
    let res := fst (fold_left (Review.updateOrCreate existing d) news (acc, st)) in
    let st' := snd (fold_left (Review.updateOrCreate existing d) news (acc, st)) in
    (Store.next st <= Store.next st')%nat
    /\ (forall r, (r < Store.next st)%nat ->
                  threadId (Store.read st' r) = threadId (Store.read st r))
    /\ Store.disposed st' = Store.disposed st
    /\ (forall r, In r res ->
                  In r acc
                  \/ (exists n tl, In n news /\ matchedIn st existing n = r :: tl)
                  \/ (Store.next st <= r)%nat)
    /\ (forall n m tl, In n news -> matchedIn st existing n = m :: tl -> In m res)
    /\ (forall r, In r acc -> In r res).
Proof.
  induction news as [|n news IH]; intros acc st Halloc; simpl.
  - repeat split; auto; try lia; try (intros; contradiction).
  - pose proof (updateOrCreate_step existing d acc st n Halloc) as Hstep.
    destruct (Review.updateOrCreate existing d (acc, st) n) as [acc1 st1] eqn:Hone.
    simpl in Hstep. destruct Hstep as (Hnext & Hids & Hdisp & r1 & Hacc1 & Hr1).
    assert (Halloc1 : forall r, In r existing -> (r < Store.next st1)%nat).
    { intros r Hr. specialize (Halloc r Hr). lia. }
    specialize (IH acc1 st1 Halloc1). simpl in IH.
    destruct IH as (IHnext & IHids & IHdisp & IHres & IHmatch & IHacc).
    assert (Hext : forall x, matchedIn st1 existing x = matchedIn st existing x).
    { intros x. apply matchedIn_ext. intros r Hr. apply Hids. now apply Halloc. }
    repeat split.
    + lia.
    + intros r Hr. rewrite IHids by lia. now apply Hids.
    + congruence.
    + intros r Hr. destruct (IHres r Hr) as [Hin | [(x & tl & Hx & Hmx) | Hfresh]].
      * subst acc1. apply in_app_iff in Hin. destruct Hin as [Hin | [<- | []]];
          [now left|].
        destruct (matchedIn st existing n) as [|m tl] eqn:Hm.
        -- subst r1. right. right. lia.
        -- subst r1. right. left. exists n, tl. split; [now left | assumption].
      * right. left. exists x, tl. rewrite Hext in Hmx. split; [now right | assumption].
      * right. right. lia.
    + intros x m tl [<- | Hx] Hmx.
      * apply IHacc. subst acc1. apply in_app_iff. right. left.
        rewrite Hmx in Hr1. now subst r1.
      * apply (IHmatch x m tl Hx). now rewrite Hext.
    + intros r Hr. apply IHacc. subst acc1. apply in_app_iff. now left.
Qed.

Lemma disposeUnmatched_fold (news : list CommentThread) (existing : list nat) :
  forall st : Store.t,
    Store.heap (fold_left (Review.disposeUnmatched news) existing st) = Store.heap st
    /\ Store.next (fold_left (Review.disposeUnmatched news) existing st) = Store.next st
    /\ Store.disposed (fold_left (Review.disposeUnmatched news) existing st)
       = Store.disposed st ++ filter (unmatched st news) existing.
Proof.
  induction existing as [|r existing IH]; intros st; simpl.
  - now rewrite app_nil_r.
  - destruct (IH (Review.disposeUnmatched news st r)) as (IHheap & IHnext & IHdisp).
    rewrite IHheap, IHnext, IHdisp.
    unfold Review.disposeUnmatched, unmatched, Store.read.
    destruct (filter (fun thread => String.eqb (threadId thread)
                                               (threadId (Store.heap st r))) news);
      simpl; repeat split; try reflexivity.
    now rewrite <- app_assoc.
Qed.

Lemma NoDup_map_eq {A B} (f : A -> B) (l : list A) (x y : A) :
  NoDup (map f l) -> In x l -> In y l -> f x = f y -> x = y.
Proof.
  induction l as [|a l IH]; simpl; intros Hnd Hx Hy Hf; [contradiction|].
  inversion Hnd as [|? ? Hnotin Hnd']; subst.
  destruct Hx as [-> | Hx], Hy as [-> | Hy]; try reflexivity.
  - exfalso. apply Hnotin. rewrite Hf. now apply in_map.
  - exfalso. apply Hnotin. rewrite <- Hf. now apply in_map.
  - now apply IH.
Qed.

Lemma unmatched_false (st : Store.t) (news : list CommentThread) (r : nat) :
  unmatched st news r = false <->
  exists n, In n news /\ threadId n = threadId (Store.read st r).
Proof.
  unfold unmatched.
  destruct (filter (fun thread => String.eqb (threadId thread) (threadId (Store.read st r)))
                   news) as [|n tl] eqn:Hf.
  - split; [discriminate|]. intros (n & Hn & Hid).
    assert (Hin : In n []) by (rewrite <- Hf; apply filter_In; split;
                               [assumption | now apply String.eqb_eq]).
    contradiction.
  - split; [|reflexivity]. intros _. exists n.
    assert (Hin : In n (n :: tl)) by now left.
    rewrite <- Hf in Hin. apply filter_In in Hin. destruct Hin as [Hin Hid].
    split; [assumption | now apply String.eqb_eq].
Qed.

(** The sibling reconciliation of the review provider does what C1 says:
    the pass disposes exactly the existing threads whose id no projected
    thread carries, none of them stays in the result, and an existing
    thread whose id is projected stays in the result as the same object. *)
Theorem reconcileThreads_disposes_exactly_unmatched :
  forall (existing : list nat) (news : list CommentThread) (d : bool) (st : Store.t),
    (forall r, In r existing -> (r < Store.next st)%nat) ->
    let res := fst (Review.reconcileThreads existing news d st) in
    let st' := snd (Review.reconcileThreads existing news d st) in
    Store.disposed st' = Store.disposed st ++ filter (unmatched st news) existing
    /\ (forall r, In r existing -> unmatched st news r = true -> ~ In r res)
    /\ (NoDup (map (fun r => threadId (Store.read st r)) existing) ->
        forall r, In r existing -> unmatched st news r = false -> In r res).
Proof.
  intros existing news d st Halloc. unfold Review.reconcileThreads.
  pose proof (updateOrCreate_fold existing d news [] st Halloc) as Hfold.
  destruct (fold_left (Review.updateOrCreate existing d) news ([], st)) as [res st1].
  simpl in Hfold. destruct Hfold as (Hnext & Hids & Hdisp & Hres & Hmatch & _).
  simpl. split; [|split].
  - destruct (disposeUnmatched_fold news existing st1) as (_ & _ & Hd).
    rewrite Hd, Hdisp. f_equal. apply filter_ext_in. intros r Hr.
    unfold unmatched. now rewrite Hids by now apply Halloc.
  - intros r Hr Hun Hin.
    destruct (Hres r Hin) as [[] | [(n & tl & Hn & Hm) | Hfresh]].
    + assert (Hrin : In r (matchedIn st existing n)) by (rewrite Hm; now left).
      apply filter_In in Hrin. destruct Hrin as [_ Hid]. apply String.eqb_eq in Hid.
      assert (Hfalse : unmatched st news r = false)
        by (apply unmatched_false; exists n; split; [assumption | now symmetry]).
      congruence.
    + specialize (Halloc r Hr). lia.
  - intros Hnd r Hr Hun. apply unmatched_false in Hun. destruct Hun as (n & Hn & Hid).
    assert (Hrin : In r (matchedIn st existing n))
      by (apply filter_In; split; [assumption | apply String.eqb_eq; now symmetry]).
    destruct (matchedIn st existing n) as [|m tl] eqn:Hm; [contradiction|].
    assert (Hmin : In m (matchedIn st existing n)) by (rewrite Hm; now left).
    apply filter_In in Hmin. destruct Hmin as [Hmex Hmid]. apply String.eqb_eq in Hmid.
    assert (Heq : m = r).
    { apply (NoDup_map_eq (fun r => threadId (Store.read st r)) existing); try assumption.
      congruence. }
    subst m. now apply (Hmatch n r tl).
Qed.

(** ** Deleting a review: the live threads *)

Lemma survivors_idem (deleted : list Comment) (cs : list VSComment) :
  Review.survivors deleted (Review.survivors deleted cs) = Review.survivors deleted cs.
Proof.
  unfold Review.survivors. induction cs as [|c cs IH]; simpl; [reflexivity|].
  destruct (negb (Review.is_deleted deleted c)) eqn:Hc; simpl; [|assumption].
  now rewrite Hc, IH.
Qed.

Lemma survivors_clean (deleted : list Comment) (cs : list VSComment) (c : VSComment)
      (d : Comment) :
  In c (Review.survivors deleted cs) -> In d deleted -> commentId c <> JS.toString (id d).
Proof.
  unfold Review.survivors. intros Hc Hd Heq. apply filter_In in Hc.
  destruct Hc as [_ Hc]. apply negb_true_iff in Hc.
  assert (Htrue : Review.is_deleted deleted c = true).
  { unfold Review.is_deleted. apply existsb_exists. exists d. split; [assumption|].
    apply String.eqb_eq. now symmetry. }
  congruence.
Qed.

Lemma pruned_idem (deleted : list Comment) (t : CommentThread) :
  pruned deleted (pruned deleted t) = pruned deleted t.
Proof.
  unfold pruned. simpl. now rewrite survivors_idem.
Qed.

Lemma prunes_refl (deleted : list Comment) (st : Store.t) : prunes deleted st st.
Proof. intros r. now left. Qed.

Lemma prunes_trans (deleted : list Comment) (st1 st2 st3 : Store.t) :
  prunes deleted st1 st2 -> prunes deleted st2 st3 -> prunes deleted st1 st3.
Proof.
  intros H12 H23 r. destruct (H23 r) as [-> | ->], (H12 r) as [-> | ->]; auto.
  right. apply pruned_idem.
Qed.

Lemma prunes_pruned (deleted : list Comment) (st st' : Store.t) (r : nat) :
  prunes deleted st st' ->
  pruned deleted (Store.read st' r) = pruned deleted (Store.read st r).
Proof.
  intros H. destruct (H r) as [-> | ->]; [reflexivity | apply pruned_idem].
Qed.

Lemma prunes_keeps (deleted : list Comment) (st st' : Store.t) (r : nat) :
  prunes deleted st st' -> keeps deleted st' r = keeps deleted st r.
Proof.
  intros H. unfold keeps.
  change (Review.survivors deleted (comments (Store.read st' r)))
    with (comments (pruned deleted (Store.read st' r))).
  now rewrite (prunes_pruned r H).
Qed.

(** One thread of an entry: it is pruned; it is kept when a comment
    survives and disposed otherwise. *)
Lemma deleteReview_thread_step (deleted : list Comment) (acc : list nat) (st : Store.t)
      (r : nat) :
  let acc' := fst (Review.deleteReview_thread deleted (acc, st) r) in
  let st' := snd (Review.deleteReview_thread deleted (acc, st) r) in
  prunes deleted st st'
  /\ Store.read st' r = pruned deleted (Store.read st r)
  /\ acc' = acc ++ (if keeps deleted st r then [r] else [])
  /\ Store.disposed st' = Store.disposed st ++ (if keeps deleted st r then [] else [r]).
Proof.
  unfold Review.deleteReview_thread, keeps, prunes, pruned. simpl fst. simpl snd.
  unfold Store.read at 1. simpl Store.heap. rewrite Nat.eqb_refl. simpl comments.
  destruct (Review.survivors deleted (comments (Store.read st r))) as [|c cs] eqn:Hs;
    simpl; unfold Store.read; simpl; rewrite Nat.eqb_refl;
    (split; [|split; [|split]]);
    try reflexivity; try (now rewrite app_nil_r);
    try (intros r'; destruct (Nat.eqb_spec r' r) as [-> | _]; [right | left]);
    try reflexivity; unfold Store.read in Hs; now rewrite Hs.
Qed.

Lemma deleteReview_threads_fold (deleted : list Comment) (base : Store.t) (ths : list nat) :
  forall (acc : list nat) (st : Store.t),
    prunes deleted base st ->
    let acc' := fst (fold_left (Review.deleteReview_thread deleted) ths (acc, st)) in
    let st' := snd (fold_left (Review.deleteReview_thread deleted) ths (acc, st)) in
    prunes deleted base st'
    /\ prunes deleted st st'
    /\ (forall r, In r ths -> Store.read st' r = pruned deleted (Store.read base r))
    /\ acc' = acc ++ filter (keeps deleted base) ths
    /\ Store.disposed st'
       = Store.disposed st ++ filter (fun r => negb (keeps deleted base r)) ths.
Proof.
  induction ths as [|r ths IH]; intros acc st Hbase; simpl.
  - repeat split; try (now rewrite app_nil_r); try assumption.
    + apply prunes_refl.
    + intros r [].
  - pose proof (deleteReview_thread_step deleted acc st r) as Hstep.
    destruct (Review.deleteReview_thread deleted (acc, st) r) as [acc1 st1].
    simpl in Hstep. destruct Hstep as (Hp & Hr & Hacc & Hdisp).
    assert (Hbase1 : prunes deleted base st1) by (eapply prunes_trans; eassumption).
    specialize (IH acc1 st1 Hbase1). simpl in IH.
    destruct IH as (IHbase & IHp & IHr & IHacc & IHdisp).
    rewrite (prunes_keeps r Hbase) in Hacc, Hdisp.
    split; [assumption|]. split; [eapply prunes_trans; eassumption|].
    split; [|split].
    + intros r' [<- | Hr']; [|now apply IHr].
      destruct (IHp r) as [-> | ->]; rewrite Hr.
      * apply (prunes_pruned r Hbase).
      * rewrite pruned_idem. apply (prunes_pruned r Hbase).
    + rewrite IHacc, Hacc, <- app_assoc. f_equal.
      now destruct (keeps deleted base r).
    + rewrite IHdisp, Hdisp, <- app_assoc. f_equal.
      now destruct (keeps deleted base r).
Qed.

(** [delete o[k]] and lookups, for an object whose keys are distinct. *)
Lemma get_delete {V} (o : Obj.t V) (k k' : string) :
  NoDup (Obj.keys o) ->
  Obj.get (Obj.delete o k) k' = if String.eqb k k' then None else Obj.get o k'.
Proof.
  unfold Obj.keys. induction o as [|[k0 v0] r IH]; simpl; intros Hnd.
  - now destruct (String.eqb k k').
  - inversion Hnd as [|? ? Hnotin Hnd']; subst.
    destruct (String.eqb_spec k0 k) as [-> | Hne]; simpl.
    + destruct (String.eqb_spec k k') as [Heq | Hne']; [|reflexivity].
      rewrite <- Heq.
      destruct (Obj.get r k) as [v|] eqn:Hg; [|reflexivity].
      exfalso. apply Hnotin. apply get_In in Hg. apply in_map_iff. now exists (k, v).
    + rewrite IH by assumption.
      destruct (String.eqb_spec k0 k') as [-> | Hne'].
      * destruct (String.eqb_spec k k') as [-> | _]; [now contradiction Hne | reflexivity].
      * reflexivity.
Qed.

Lemma keys_delete_In {V} (o : Obj.t V) (k k' : string) :
  In k' (Obj.keys (Obj.delete o k)) -> In k' (Obj.keys o).
Proof.
  unfold Obj.keys. induction o as [|[k0 v0] r IH]; simpl; [auto|].
  destruct (String.eqb k0 k); simpl; intuition.
Qed.

Lemma keys_delete_NoDup {V} (o : Obj.t V) (k : string) :
  NoDup (Obj.keys o) -> NoDup (Obj.keys (Obj.delete o k)).
Proof.
  unfold Obj.keys. induction o as [|[k0 v0] r IH]; simpl; intros Hnd; [constructor|].
  inversion Hnd as [|? ? Hnotin Hnd']; subst.
  destruct (String.eqb k0 k); simpl; [assumption|].
  constructor; [|now apply IH].
  intros Hin. apply Hnotin. now apply (keys_delete_In r k).
Qed.

Lemma filter_idem {A} (p : A -> bool) (l : list A) : filter p (filter p l) = filter p l.
Proof.
  induction l as [|x l IH]; simpl; [reflexivity|].
  destruct (p x) eqn:Hp; simpl; [now rewrite Hp, IH | assumption].
Qed.

Lemma prunedEntry_idem (deleted : list Comment) (st : Store.t) (entry : option (list nat)) :
  prunedEntry deleted st (prunedEntry deleted st entry) = prunedEntry deleted st entry.
Proof.
  destruct entry as [ths|]; simpl; [|reflexivity].
  destruct (filter (keeps deleted st) ths) as [|r rest] eqn:Hf; [reflexivity|].
  assert (Hid : filter (keeps deleted st) (r :: rest) = r :: rest)
    by (rewrite <- Hf; apply filter_idem).
  unfold prunedEntry. now rewrite Hid.
Qed.

(** One entry of a map: the threads of the entry are pruned in the store,
    the entry keeps the threads with a surviving comment, in their order,
    and is deleted when none is left. *)
Lemma deleteReview_entry_step (deleted : list Comment) (base : Store.t)
      (m : Obj.t (list nat)) (st : Store.t) (k : string) :
  NoDup (Obj.keys m) ->
  prunes deleted base st ->
  let m' := fst (Review.deleteReview_entry deleted (m, st) k) in
  let st' := snd (Review.deleteReview_entry deleted (m, st) k) in
  NoDup (Obj.keys m')
  /\ prunes deleted base st'
  /\ prunes deleted st st'
  /\ (forall k', Obj.get m' k'
                 = if String.eqb k k' then prunedEntry deleted base (Obj.get m k)
                   else Obj.get m k')
  /\ (forall ths r, Obj.get m k = Some ths -> In r ths ->
                    Store.read st' r = pruned deleted (Store.read base r))
  /\ (forall r, In r (Store.disposed st') <->
                In r (Store.disposed st)
                \/ exists ths, Obj.get m k = Some ths /\ In r ths
                               /\ keeps deleted base r = false).
Proof.
  intros Hnd Hbase. unfold Review.deleteReview_entry. simpl fst. simpl snd.
  destruct (Obj.get m k) as [entry|] eqn:Hget.
  - pose proof (@deleteReview_threads_fold deleted base entry [] st Hbase) as Hfold.
    destruct (fold_left (Review.deleteReview_thread deleted) entry ([], st)) as [ths st1].
    simpl in Hfold. destruct Hfold as (Hb1 & Hp1 & Hdone & Hths & Hdisp).
    assert (Hdisposed : forall r, In r (Store.disposed st1) <->
                                  In r (Store.disposed st)
                                  \/ exists ths0, Some entry = Some ths0 /\ In r ths0
                                                  /\ keeps deleted base r = false).
    { intros r. rewrite Hdisp, in_app_iff, filter_In, negb_true_iff. split.
      - intros [H | [H1 H2]]; [now left | right; now exists entry].
      - intros [H | (ths0 & Heq & H1 & H2)]; [now left | right].
        injection Heq as <-. now split. }
    assert (Hentry : forall ths0 r, Some entry = Some ths0 -> In r ths0 ->
                                    Store.read st1 r = pruned deleted (Store.read base r)).
    { intros ths0 r Heq Hr. injection Heq as <-. now apply Hdone. }
    destruct ths as [|t ths]; simpl.
    + repeat split; try assumption.
      * now apply keys_delete_NoDup.
      * intros k'. rewrite get_delete by assumption. simpl. now rewrite <- Hths.
      * apply Hdisposed.
      * apply Hdisposed.
    + repeat split; try assumption.
      * now apply keys_set_NoDup.
      * intros k'. rewrite get_set. simpl. now rewrite <- Hths.
      * apply Hdisposed.
      * apply Hdisposed.
  - simpl. repeat split; try assumption.
    + apply prunes_refl.
    + intros k'. destruct (String.eqb_spec k k') as [<- | _]; [assumption | reflexivity].
    + intros ths r Hfalse. discriminate.
    + intros H. now left.
    + intros [H | (ths & Hfalse & _)]; [assumption | discriminate].
Qed.

Lemma prunedEntry_keeps (deleted : list Comment) (st : Store.t) (entry : option (list nat))
      (ths : list nat) (r : nat) :
  prunedEntry deleted st entry = Some ths -> In r ths -> keeps deleted st r = true.
Proof.
  destruct entry as [ths0|]; simpl; [|discriminate].
  destruct (filter (keeps deleted st) ths0) as [|x rest] eqn:Hf; [discriminate|].
  intros H Hr. injection H as <-. rewrite <- Hf in Hr. now apply filter_In in Hr.
Qed.

Lemma pruned_stable (deleted : list Comment) (base st st' : Store.t) (r : nat) :
  Store.read st r = pruned deleted (Store.read base r) ->
  prunes deleted st st' ->
  Store.read st' r = pruned deleted (Store.read base r).
Proof.
  intros Hdone Hp. destruct (Hp r) as [-> | ->]; rewrite Hdone; [reflexivity|].
  apply pruned_idem.
Qed.

Lemma visitedPruned_step (deleted : list Comment) (base : Store.t) (m0 : Obj.t (list nat))
      (disposed0 : list nat) (visited : list string) (m : Obj.t (list nat)) (st : Store.t)
      (k : string) :
  visitedPruned deleted base m0 disposed0 visited m st ->
  visitedPruned deleted base m0 disposed0 (k :: visited)
                (fst (Review.deleteReview_entry deleted (m, st) k))
                (snd (Review.deleteReview_entry deleted (m, st) k)).
Proof.
  intros (Hnd & Hbase & Hvis & Hnot & Hdisp).
  destruct (@deleteReview_entry_step deleted base m st k Hnd Hbase)
    as (Hnd' & Hbase' & Hp & Hget & Hdone & Hdisp').
  set (m' := fst (Review.deleteReview_entry deleted (m, st) k)) in *.
  set (st' := snd (Review.deleteReview_entry deleted (m, st) k)) in *.
  assert (Hk : Obj.get m' k = prunedEntry deleted base (Obj.get m0 k)).
  { rewrite Hget, String.eqb_refl.
    destruct (in_dec string_dec k visited) as [Hin | Hout].
    - destruct (Hvis k Hin) as [-> _]. apply prunedEntry_idem.
    - now rewrite (Hnot k Hout). }
  split; [assumption|]. split; [assumption|]. split; [|split].
  - intros k' [<- | Hin].
    + split; [assumption|]. intros ths r Hths Hr.
      destruct (in_dec string_dec k visited) as [Hin | Hout].
      * destruct (Hvis k Hin) as [_ Hd]. eapply pruned_stable; [|eassumption].
        now apply (Hd ths).
      * apply (Hdone ths); [|assumption]. now rewrite (Hnot k Hout).
    + destruct (Hvis k' Hin) as [Hg Hd]. split.
      * rewrite Hget. destruct (String.eqb_spec k k') as [<- | _]; [|assumption].
        rewrite Hg. apply prunedEntry_idem.
      * intros ths r Hths Hr. eapply pruned_stable; [|eassumption]. now apply (Hd ths).
  - intros k' Hout. rewrite Hget.
    destruct (String.eqb_spec k k') as [<- | _].
    + exfalso. apply Hout. now left.
    + apply Hnot. intros Hin. apply Hout. now right.
  - intros r. rewrite Hdisp'. split.
    + intros [Hold | (ths & Hths & Hr & Hkeep)].
      * apply Hdisp in Hold. destruct Hold as [Hold | (k' & ths & Hin & H)]; [now left|].
        right. exists k', ths. split; [now right | assumption].
      * destruct (in_dec string_dec k visited) as [Hin | Hout].
        -- destruct (Hvis k Hin) as [Hg _]. rewrite Hg in Hths.
           rewrite (@prunedEntry_keeps _ _ _ _ _ Hths Hr) in Hkeep. discriminate.
        -- right. exists k, ths. rewrite (Hnot k Hout) in Hths.
           repeat split; try assumption. now left.
    + intros [Hold | (k' & ths & [<- | Hin] & Hths & Hr & Hkeep)].
      * left. apply Hdisp. now left.
      * destruct (in_dec string_dec k visited) as [Hin | Hout].
        -- left. apply Hdisp. right. now exists k, ths.
        -- right. exists ths. rewrite (Hnot k Hout). now repeat split.
      * left. apply Hdisp. right. now exists k', ths.
Qed.

Lemma visitedPruned_fold (deleted : list Comment) (base : Store.t) (m0 : Obj.t (list nat))
      (disposed0 : list nat) (ks : list string) :
  forall (visited : list string) (m : Obj.t (list nat)) (st : Store.t),
    visitedPruned deleted base m0 disposed0 visited m st ->
    visitedPruned deleted base m0 disposed0 (List.rev ks ++ visited)
                  (fst (fold_left (Review.deleteReview_entry deleted) ks (m, st)))
                  (snd (fold_left (Review.deleteReview_entry deleted) ks (m, st))).
Proof.
  induction ks as [|k ks IH]; intros visited m st Hinv; simpl; [assumption|].
  rewrite <- app_assoc. simpl.
  rewrite (surjective_pairing (Review.deleteReview_entry deleted (m, st) k)).
  apply IH. now apply visitedPruned_step.
Qed.

Lemma get_None {V} (o : Obj.t V) (k : string) :
  ~ In k (Obj.keys o) -> Obj.get o k = None.
Proof.
  unfold Obj.keys. induction o as [|[k0 v0] r IH]; simpl; intros Hout; [reflexivity|].
  destruct (String.eqb_spec k0 k) as [-> | _]; [exfalso; apply Hout; now left|].
  apply IH. intros Hin. apply Hout. now right.
Qed.

Lemma for_in_keys {V} (o : Obj.t V) (k : string) :
  In k (map fst (Obj.for_in o)) <-> In k (Obj.keys o).
Proof.
  unfold Obj.keys. rewrite !in_map_iff.
  split; intros (e & He & Hin); exists e; (split; [assumption|]); now apply for_in_In.
Qed.

(** One map of live threads: every referenced thread is pruned, every
    entry keeps the threads with a surviving comment, and exactly the
    emptied threads are disposed. *)
Lemma deleteReview_map_spec (deleted : list Comment) (base : Store.t)
      (m : Obj.t (list nat)) (st : Store.t) :
  NoDup (Obj.keys m) ->
  prunes deleted base st ->
  let m' := fst (Review.deleteReview_map deleted m st) in
  let st' := snd (Review.deleteReview_map deleted m st) in
  NoDup (Obj.keys m')
  /\ prunes deleted base st'
  /\ prunes deleted st st'
  /\ (forall k, Obj.get m' k = prunedEntry deleted base (Obj.get m k))
  /\ (forall r, tracked m r -> Store.read st' r = pruned deleted (Store.read base r))
  /\ (forall r, In r (Store.disposed st') <->
                In r (Store.disposed st) \/ (tracked m r /\ keeps deleted base r = false)).
Proof.
  intros Hnd Hbase. unfold Review.deleteReview_map.
  assert (Hinit : forall b, prunes deleted b st ->
                            visitedPruned deleted b m (Store.disposed st) [] m st).
  { intros b Hb. repeat split; try assumption; try contradiction.
    - intros H. now left.
    - intros [H | (k & ths & [] & _)]. assumption. }
  pose proof (@visitedPruned_fold deleted base m (Store.disposed st)
                (map fst (Obj.for_in m)) [] m st (Hinit base Hbase))
    as (Hnd' & Hbase' & Hvis & Hnot & Hdisp).
  pose proof (@visitedPruned_fold deleted st m (Store.disposed st)
                (map fst (Obj.for_in m)) [] m st (Hinit st (prunes_refl deleted st)))
    as (_ & Hp & _).
  rewrite app_nil_r in *.
  assert (Hall : forall k ths, In (k, ths) m -> In k (List.rev (map fst (Obj.for_in m)))).
  { intros k ths Hin. apply in_rev. rewrite List.rev_involutive. apply for_in_keys.
    apply in_map_iff. now exists (k, ths). }
  split; [assumption|]. split; [assumption|]. split; [assumption|]. split; [|split].
  - intros k. destruct (in_dec string_dec k (List.rev (map fst (Obj.for_in m))))
      as [Hin | Hout].
    + now destruct (Hvis k Hin).
    + rewrite (Hnot k Hout). rewrite get_None; [reflexivity|].
      intros Hk. apply Hout. rewrite <- in_rev. now apply for_in_keys.
  - intros r (k & ths & Hin & Hr).
    destruct (Hvis k (Hall k ths Hin)) as [_ Hd]. apply (Hd ths); [|assumption].
    now apply In_get.
  - intros r. rewrite Hdisp. split.
    + intros [H | (k & ths & Hk & Hget & Hr & Hkeep)]; [now left | right].
      split; [|assumption]. exists k, ths. split; [now apply get_In | assumption].
    + intros [H | [(k & ths & Hin & Hr) Hkeep]]; [now left | right].
      exists k, ths. repeat split; try assumption.
      * now apply (Hall k ths).
      * now apply In_get.
Qed.

(** The part of C2 on the live threads holds for [Review.deleteReview]:
    when the remote call returns, every live thread referenced from one of
    the four maps has lost exactly the deleted comments, no comment of a
    deleted id is left in it, the threads that were emptied are the ones
    disposed, and each map entry keeps the threads with a surviving
    comment (an entry left without threads is removed). *)
Theorem deleteReview_prunes_live_threads :
  forall (R : Remote) (s : Review.State) (reviewId : Z) (deleted : list Comment),
    remote_deleteReview R = Returned (reviewId, deleted) ->
    (forall m, In m (trackedMaps s) -> NoDup (Obj.keys m)) ->
    let s' := fst (Review.deleteReview R s) in
    snd (Review.deleteReview R s) = Returned tt
    /\ (forall m r, In m (trackedMaps s) -> tracked m r ->
                    Store.read (Review.store s') r
                    = pruned deleted (Store.read (Review.store s) r)
                    /\ forall c d, In c (comments (Store.read (Review.store s') r)) ->
                                   In d deleted -> commentId c <> JS.toString (id d))
    /\ (forall r, In r (Store.disposed (Review.store s')) <->
                  In r (Store.disposed (Review.store s))
                  \/ ((exists m, In m (trackedMaps s) /\ tracked m r)
                      /\ keeps deleted (Review.store s) r = false))
    /\ Forall2 (fun m m' => forall k, Obj.get m' k
                                      = prunedEntry deleted (Review.store s) (Obj.get m k))
               (trackedMaps s) (trackedMaps s').
Proof.
  intros R s reviewId deleted Hremote Hnd.
  unfold Review.deleteReview. unfold_M. rewrite Hremote. simpl.
  set (s1 := match Review.inputBox s with
             | Some (String _ _) => Review.set_inputBox (Some EmptyString) s
             | _ => s
             end).
  assert (Hmaps : trackedMaps s1 = trackedMaps s /\ Review.store s1 = Review.store s).
  { subst s1. destruct (Review.inputBox s) as [[|a v]|]; split; reflexivity. }
  destruct Hmaps as [Hmaps Hstore].
  unfold trackedMaps in Hmaps. injection Hmaps as Hw Ho Hp Hr.
  rewrite Hw, Ho, Hp, Hr, Hstore.
  set (base := Review.store s).
  assert (Hndw : NoDup (Obj.keys (Review._workspaceFileChangeCommentThreads s)))
    by (apply Hnd; simpl; auto).
  assert (Hndo : NoDup (Obj.keys (Review._obsoleteFileChangeCommentThreads s)))
    by (apply Hnd; simpl; auto).
  assert (Hndp : NoDup (Obj.keys (Review._prDocumentCommentThreads s)))
    by (apply Hnd; simpl; auto).
  assert (Hndr : NoDup (Obj.keys (Review._reviewDocumentCommentThreads s)))
    by (apply Hnd; simpl; auto 6).
  pose proof (@deleteReview_map_spec deleted base _ base Hndw (prunes_refl deleted base))
    as (_ & Hb1 & _ & Hg1 & Hd1 & Hx1).
  destruct (Review.deleteReview_map deleted (Review._workspaceFileChangeCommentThreads s) base)
    as [w st1].
  simpl in Hb1, Hg1, Hd1, Hx1.
  pose proof (@deleteReview_map_spec deleted base _ st1 Hndo Hb1)
    as (_ & Hb2 & Hp2 & Hg2 & Hd2 & Hx2).
  destruct (Review.deleteReview_map deleted (Review._obsoleteFileChangeCommentThreads s) st1)
    as [o st2].
  simpl in Hb2, Hp2, Hg2, Hd2, Hx2.
  pose proof (@deleteReview_map_spec deleted base _ st2 Hndp Hb2)
    as (_ & Hb3 & Hp3 & Hg3 & Hd3 & Hx3).
  destruct (Review.deleteReview_map deleted (Review._prDocumentCommentThreads s) st2)
    as [p st3].
  simpl in Hb3, Hp3, Hg3, Hd3, Hx3.
  pose proof (@deleteReview_map_spec deleted base _ st3 Hndr Hb3)
    as (_ & Hb4 & Hp4 & Hg4 & Hd4 & Hx4).
  destruct (Review.deleteReview_map deleted (Review._reviewDocumentCommentThreads s) st3)
    as [r st4].
  simpl in Hb4, Hp4, Hg4, Hd4, Hx4. simpl.
  assert (Hdone : forall m x, In m (trackedMaps s) -> tracked m x ->
                              Store.read st4 x = pruned deleted (Store.read base x)).
  { intros m x Hm Hx. unfold trackedMaps in Hm. simpl in Hm.
    destruct Hm as [<- | [<- | [<- | [<- | []]]]].
    - eapply pruned_stable; [|exact Hp4]. eapply pruned_stable; [|exact Hp3].
      eapply pruned_stable; [|exact Hp2]. now apply Hd1.
    - eapply pruned_stable; [|exact Hp4]. eapply pruned_stable; [|exact Hp3].
      now apply Hd2.
    - eapply pruned_stable; [|exact Hp4]. now apply Hd3.
    - now apply Hd4. }
  split; [reflexivity|]. split; [|split].
  - intros m x Hm Hx. split; [now apply (Hdone m)|].
    intros c d Hc Hd. rewrite (Hdone m x Hm Hx) in Hc. unfold pruned in Hc. simpl in Hc.
    eapply survivors_clean; eassumption.
  - intros x. rewrite Hx4, Hx3, Hx2, Hx1. unfold trackedMaps. simpl. split.
    + intros [[[[H | [H1 H2]] | [H1 H2]] | [H1 H2]] | [H1 H2]]; [now left | | | |];
        right; (split; [|assumption]); eexists; (split; [|eassumption]); auto 6.
    + intros [H | [(m & Hm & Hx) Hkeep]]; [now do 4 left|].
      destruct Hm as [<- | [<- | [<- | [<- | []]]]].
      * do 3 left. right. now split.
      * do 2 left. right. now split.
      * left. right. now split.
      * right. now split.
  - unfold trackedMaps. simpl. repeat constructor; assumption.
Qed.

(** ** Idempotence of [updateComments] *)

Lemma filter_distinct_images {T K} (key : T -> K) (keep : T -> bool) (items : list T)
      (Hdistinct : NoDup (map key items)) :
  NoDup (map key (filter keep items)).
Proof.
  induction items as [|x items IH]; simpl in *; [constructor|].
  inversion Hdistinct as [|? ? Hnotin Hrest]; subst.
  destruct (keep x); simpl; [|now apply IH].
  constructor; [|now apply IH].
  intros Hin. apply Hnotin. apply in_map_iff in Hin. destruct Hin as (y & Hy & Hin).
  apply filter_In in Hin. apply in_map_iff. exists y. now split.
Qed.

Lemma NoDup_map_inj {A B} (f : A -> B) (l : list A) :
  (forall x y, f x = f y -> x = y) -> NoDup l -> NoDup (map f l).
Proof.
  intros Hinj. induction l as [|x l IH]; simpl; intros Hnd; [constructor|].
  inversion Hnd as [|? ? Hnotin Hnd']; subst. constructor; [|now apply IH].
  intros Hin. apply in_map_iff in Hin. destruct Hin as (y & Hy & Hin).
  apply Hinj in Hy. now subst y.
Qed.

Lemma filter_unique {A} (f : A -> string) (l : list A) (x : A) :
  NoDup (map f l) -> In x l ->
  filter (fun y => String.eqb (f y) (f x)) l = [x].
Proof.
  induction l as [|a l IH]; simpl; intros Hnd Hin; [contradiction|].
  inversion Hnd as [|? ? Hnotin Hnd']; subst.
  destruct Hin as [-> | Hin].
  - rewrite String.eqb_refl. f_equal.
    assert (Hnone : forall y, In y l -> String.eqb (f y) (f x) = false).
    { intros y Hy. apply String.eqb_neq. intros Heq. apply Hnotin. rewrite <- Heq.
      now apply in_map. }
    clear -Hnone. induction l as [|b l IHl]; simpl; [reflexivity|].
    rewrite (Hnone b) by now left. apply IHl. intros y Hy. apply Hnone. now right.
  - destruct (String.eqb_spec (f a) (f x)) as [Heq | _]; [|now apply IH].
    exfalso. apply Hnotin. rewrite Heq. now apply in_map.
Qed.

Lemma reactions_same (rm : list CommentReaction) :
  existsb (reactionDiffersAt rm rm) (seq 0 (List.length rm)) = false.
Proof.
  apply not_true_is_false. intros H. apply reaction_loop_spec in H.
  destruct H as (i & a & b & Ha & Hb & Hd). rewrite Ha in Hb. injection Hb as <-.
  destruct Hd as [Hd | Hd]; now apply Hd.
Qed.

Lemma commentsEditedInThread_same (cs : list VSComment) :
  NoDup (map commentId cs) -> commentsEditedInThread cs cs = false.
Proof.
  intros Hnd. unfold commentsEditedInThread. apply not_true_is_false. intros H.
  apply existsb_exists in H. destruct H as (c & Hin & Hc).
  unfold commentEdited in Hc. rewrite (filter_unique commentId cs c Hnd Hin) in Hc.
  rewrite String.eqb_refl in Hc. simpl in Hc.
  destruct (commentReactions c) as [rm|]; [|discriminate].
  rewrite Nat.eqb_refl in Hc. simpl in Hc. now rewrite reactions_same in Hc.
Qed.

Lemma fold_left_push_gen {A B} (g : list B -> A -> list B) (f : A -> list B)
      (l : list A) (init : list B) :
  (forall acc x, g acc x = acc ++ f x) ->
  fold_left g l init = init ++ flat_map f l.
Proof.
  intros Hg. revert init. induction l as [|x l IH]; intros init; simpl.
  - now rewrite app_nil_r.
  - rewrite IH, Hg. now rewrite app_assoc.
Qed.

Lemma pushEach_ext {A B} (body body' : A -> Outcome (list B)) (l : list A) :
  (forall x, In x l -> body x = body' x) ->
  forall ret, pushEach body l ret = pushEach body' l ret.
Proof.
  induction l as [|x l IH]; intros Hext ret; [reflexivity|].
  cbn [pushEach]. rewrite (Hext x) by now left.
  destruct (body' x); [|reflexivity]. cbn [andThen]. apply IH.
  intros y Hy. apply Hext. now right.
Qed.

(** Where a thread of [allCommentsToCommentThreads] comes from: a file
    change of the name of a path group, and a position group inside that
    path group. *)
Lemma allThreads_inv (E : Env) (s : ReviewEvents.State) (cs : list Comment)
      (state : CommentThreadCollapsibleState) (ts : list CommentThread) (t : CommentThread) :
  ReviewEvents.allCommentsToCommentThreads E s cs state = Returned ts ->
  In t ts ->
  exists file m0 others k first rest,
    filter (fun fileChange => String.eqb (fileName fileChange) file)
           (ReviewEvents._localFileChanges s) = m0 :: others
    /\ group_of positionKey (group_of path cs file) k = first :: rest
    /\ t = mkThread (JS.toString (id first)) (workspaceUri E first)
                    (let line := getZeroBased (absolutePosition_or_0 first) in
                     mkRange line 0 line 0)
                    (map (fun comment =>
                            convertToVSCodeComment comment
                              (if GitChangeType_eqb (status m0) DELETE
                               then Some "pr.viewChanges"%string else None))
                         (first :: rest))
                    state None.
Proof.
  unfold ReviewEvents.allCommentsToCommentThreads.
  destruct cs as [|c0 cs0] eqn:Hcs; [intros [= <-] []|]. rewrite <- Hcs. clear Hcs c0 cs0.
  intros Hrun Hin. apply pushEach_Returned in Hrun. destruct Hrun as [-> Hall].
  cbn [app] in Hin. apply in_flat_map in Hin.
  destruct Hin as ([file fg] & Hentry & Ht).
  destruct (Hall _ Hentry) as [items Hitems]. rewrite Hitems in Ht. cbn [itemsOf] in Ht.
  apply groupBy_In in Hentry. destruct Hentry as [-> Hne]. cbn [fst snd] in Hitems.
  destruct (filter (fun fileChange => String.eqb (fileName fileChange) file)
                   (ReviewEvents._localFileChanges s)) as [|m0 others] eqn:Hm.
  { injection Hitems as <-. contradiction. }
  apply workspaceLocal_Returned in Hitems. destruct Hitems as [-> Hpos].
  apply thread_of_some_group in Ht. destruct Ht as (k & Hk & Ht).
  destruct (group_of positionKey (group_of path cs file) k) as [|first rest] eqn:Hg;
    [now contradiction Hk|].
  rewrite workspaceThreadOfGroup_spec in Ht.
  destruct (absolutePosition_or_0 first <? 0)%Z eqn:Hp.
  { apply Z.ltb_lt in Hp. specialize (Hpos k first rest Hg). lia. }
  destruct Ht as [<- | []].
  exists file, m0, others, k, first, rest. now repeat split.
Qed.

(** The threads of [allCommentsToCommentThreads] depend on the file
    changes through their names and their status alone. *)
Lemma allThreads_files (E : Env) (g : FileChange -> FileChange)
      (files : list FileChange) (c1 c2 cs : list Comment)
      (state : CommentThreadCollapsibleState) :
  (forall f, fileName (g f) = fileName f /\ status (g f) = status f) ->
  ReviewEvents.allCommentsToCommentThreads E (ReviewEvents.mkState (map g files) c1) cs state
  = ReviewEvents.allCommentsToCommentThreads E (ReviewEvents.mkState files c2) cs state.
Proof.
  intros Hg. unfold ReviewEvents.allCommentsToCommentThreads.
  destruct cs as [|c0 cs0]; [reflexivity|]. cbn [ReviewEvents._localFileChanges].
  apply pushEach_ext. intros [file fg] _. cbn [fst snd].
  assert (Hfilter : filter (fun fileChange => String.eqb (fileName fileChange) file)
                           (map g files)
                    = map g (filter (fun fileChange =>
                                       String.eqb (fileName fileChange) file) files)).
  { induction files as [|f files IH]; [reflexivity|]. cbn [map filter].
    rewrite (proj1 (Hg f)). destruct (String.eqb (fileName f) file); cbn [map]; now rewrite IH. }
  rewrite Hfilter.
  destruct (filter (fun fileChange => String.eqb (fileName fileChange) file) files)
    as [|m0 others]; [reflexivity|].
  cbn [map]. unfold workspaceLocalCommentsToCommentThreads.
  now rewrite (proj2 (Hg m0)).
Qed.

Lemma group_NoDup (cs : list Comment) (file k : string) :
  NoDup (map id cs) ->
  NoDup (map id (group_of positionKey (group_of path cs file) k)).
Proof.
  intros Hnd. unfold group_of. now do 2 apply filter_distinct_images.
Qed.

Lemma allThreads_comment_ids (E : Env) (s : ReviewEvents.State) (cs : list Comment)
      (state : CommentThreadCollapsibleState) (ts : list CommentThread) (t : CommentThread) :
  NoDup (map id cs) ->
  ReviewEvents.allCommentsToCommentThreads E s cs state = Returned ts ->
  In t ts ->
  NoDup (map commentId (comments t)).
Proof.
  intros Hnd Hrun Hin. apply (@allThreads_inv _ _ _ _ _ _ Hrun) in Hin.
  destruct Hin as (file & m0 & others & k & first & rest & _ & Hg & ->).
  cbn [comments]. rewrite <- Hg, map_map. cbn [commentId convertToVSCodeComment].
  rewrite <- (map_map id JS.toString).
  apply NoDup_map_inj; [exact toString_inj | now apply group_NoDup].
Qed.

Lemma allThreads_unique (E : Env) (s : ReviewEvents.State) (cs : list Comment)
      (state : CommentThreadCollapsibleState) (ts : list CommentThread)
      (t1 t2 : CommentThread) :
  NoDup (map id cs) ->
  ReviewEvents.allCommentsToCommentThreads E s cs state = Returned ts ->
  In t1 ts -> In t2 ts ->
  threadId t1 = threadId t2 -> t1 = t2.
Proof.
  intros Hnd Hrun H1 H2 Hid.
  apply (@allThreads_inv _ _ _ _ _ _ Hrun) in H1. apply (@allThreads_inv _ _ _ _ _ _ Hrun) in H2.
  destruct H1 as (file1 & m1 & o1 & k1 & f1 & r1 & Hm1 & Hg1 & ->).
  destruct H2 as (file2 & m2 & o2 & k2 & f2 & r2 & Hm2 & Hg2 & ->).
  simpl in Hid. apply toString_inj in Hid.
  assert (Hf1 : In f1 (group_of positionKey (group_of path cs file1) k1))
    by (rewrite Hg1; now left).
  assert (Hf2 : In f2 (group_of positionKey (group_of path cs file2) k2))
    by (rewrite Hg2; now left).
  apply group_of_In in Hf1, Hf2. destruct Hf1 as [Hf1 Hk1], Hf2 as [Hf2 Hk2].
  apply group_of_In in Hf1, Hf2. destruct Hf1 as [Hin1 Hp1], Hf2 as [Hin2 Hp2].
  assert (Heq : f1 = f2) by (apply (NoDup_map_eq id cs); assumption).
  subst f2. subst file1 file2 k1 k2.
  rewrite Hg1 in Hg2. injection Hg2 as <-.
  rewrite Hm1 in Hm2. injection Hm2 as <- _. reflexivity.
Qed.

(** Reconciling a projection against itself reports nothing. *)
Lemma removedThreads_same (T : list CommentThread) :
  ReviewEvents.removedThreads T T = [].
Proof.
  unfold ReviewEvents.removedThreads.
  assert (Hgen : forall l acc,
             (forall t, In t l -> In t T) ->
             fold_left
               (fun removed thread =>
                  match filter (fun newThread =>
                                  String.eqb (threadId newThread) (threadId thread)) T with
                  | [] => removed ++ [thread]
                  | _ :: _ => removed
                  end) l acc = acc).
  { induction l as [|t l IH]; intros acc Hsub; simpl; [reflexivity|].
    destruct (filter (fun newThread => String.eqb (threadId newThread) (threadId t)) T)
      as [|x xs] eqn:Hf.
    - exfalso. assert (Hin : In t []); [|contradiction].
      rewrite <- Hf. apply filter_In. split; [apply Hsub; now left | apply String.eqb_refl].
    - apply IH. intros t' Ht'. apply Hsub. now right. }
  apply Hgen. auto.
Qed.

Lemma addedAndChanged_same (T : list CommentThread) :
  (forall t1 t2, In t1 T -> In t2 T -> threadId t1 = threadId t2 -> t1 = t2) ->
  (forall t, In t T -> NoDup (map commentId (comments t))) ->
  ReviewEvents.addedAndChanged T T = ([], []).
Proof.
  intros Huniq Hids. unfold ReviewEvents.addedAndChanged.
  assert (Hgen : forall l acc,
             (forall t, In t l -> In t T) ->
             fold_left
               (fun (acc : list CommentThread * list CommentThread) thread =>
                  let matchingCommentThread :=
                    filter (fun oldComment =>
                              String.eqb (threadId oldComment) (threadId thread)) T in
                  let thread' :=
                    match matchingCommentThread with
                    | [] => if String.eqb (scheme (resource thread)) "file"
                            then set_collapsibleState thread Collapsed else thread
                    | _ :: _ => thread
                    end in
                  let added :=
                    match matchingCommentThread with
                    | [] => fst acc ++ [thread']
                    | _ :: _ => fst acc
                    end in
                  let changed :=
                    fold_left
                      (fun changed match_ =>
                         if (negb (Nat.eqb (List.length (comments match_))
                                           (List.length (comments thread')))
                             || commentsEditedInThread
                                  (comments (hd match_ matchingCommentThread))
                                  (comments thread'))%bool
                         then changed ++ [thread'] else changed)
                      matchingCommentThread (snd acc) in
                  (added, changed)) l acc = acc).
  { induction l as [|t l IH]; intros acc Hsub; simpl; [reflexivity|].
    assert (Ht : In t T) by (apply Hsub; now left).
    assert (Hall : forall m, In m (filter (fun oldComment =>
                                             String.eqb (threadId oldComment) (threadId t)) T)
                             -> m = t).
    { intros m Hm. apply filter_In in Hm. destruct Hm as [Hm Hid].
      apply String.eqb_eq in Hid. now apply Huniq. }
    destruct (filter (fun oldComment => String.eqb (threadId oldComment) (threadId t)) T)
      as [|x xs] eqn:Hf.
    - exfalso. assert (Hin : In t []); [|contradiction].
      rewrite <- Hf. apply filter_In. split; [assumption | apply String.eqb_refl].
    - assert (Hx : x = t) by (apply Hall; now left). subst x.
      cbn [hd]. rewrite (commentsEditedInThread_same (comments t)) by now apply Hids.
      assert (Hchanged : forall ms changed,
                 (forall m, In m ms -> m = t) ->
                 fold_left
                   (fun changed match_ =>
                      if (negb (Nat.eqb (List.length (comments match_))
                                        (List.length (comments t)))
                          || false)%bool
                      then changed ++ [t] else changed) ms changed = changed).
      { induction ms as [|m ms IHms]; intros changed Hms; simpl; [reflexivity|].
        rewrite (Hms m) by now left.
        rewrite Nat.eqb_refl. simpl. apply IHms. intros m' Hm'. apply Hms. now right. }
      rewrite Hchanged by assumption.
      rewrite <- surjective_pairing. apply IH. intros t' Ht'. apply Hsub. now right. }
  apply Hgen. auto.
Qed.

(** [updateComments] stores the comments it is given when it fires an
    event, and nothing when it fires none or throws. *)
Lemma updateComments_state (E : Env) (R : Remote) (cs : list Comment)
      (s s' : ReviewEvents.State) (o : Outcome (option ReviewEvents.CommentThreadChangedEvent)) :
  ReviewEvents.updateComments E R cs s = (s', o) ->
  match o with
  | Returned (Some _) =>
      exists g, (forall f, fileName (g f) = fileName f /\ status (g f) = status f)
                /\ s' = ReviewEvents.mkState (map g (ReviewEvents._localFileChanges s)) cs
  | _ => s' = s
  end.
Proof.
  unfold ReviewEvents.updateComments, bind, get, call, await, modify, ret. cbv beta iota.
  destruct (ReviewEvents.allCommentsToCommentThreads E s (ReviewEvents._comments s) Expanded)
    as [olds|m]; [|intros [= <- <-]; reflexivity].
  destruct (ReviewEvents.allCommentsToCommentThreads E s cs Expanded)
    as [news|m]; [|intros [= <- <-]; reflexivity].
  cbv zeta.
  assert (Hfire : forall s0 o0,
             match remote_inDraftMode R with
             | Returned a =>
                 (ReviewEvents.mkState
                    (map (fun change =>
                            set_fc_comments change
                              (filter (fun comment =>
                                         (String.eqb (fileName change) (path comment)
                                          && match position comment with
                                             | Some _ => true
                                             | None => false
                                             end)%bool) cs))
                         (ReviewEvents._localFileChanges s)) cs,
                  Returned
                    (Some (ReviewEvents.mkEvent
                             (fst (ReviewEvents.addedAndChanged olds news))
                             (ReviewEvents.removedThreads olds news)
                             (snd (ReviewEvents.addedAndChanged olds news)) a)))
             | Threw msg => (s, Threw msg)
             end = (s0, o0) ->
             match o0 with
             | Returned (Some _) =>
                 exists g, (forall f, fileName (g f) = fileName f /\ status (g f) = status f)
                           /\ s0 = ReviewEvents.mkState
                                     (map g (ReviewEvents._localFileChanges s)) cs
             | _ => s0 = s
             end).
  { intros s0 o0. destruct (remote_inDraftMode R); intros [= <- <-]; [|reflexivity].
    eexists. split; [|reflexivity]. intros f. split; reflexivity. }
  destruct (fst (ReviewEvents.addedAndChanged olds news)),
           (ReviewEvents.removedThreads olds news),
           (snd (ReviewEvents.addedAndChanged olds news));
    try (apply Hfire); intros [= <- <-]; reflexivity.
Qed.

(** With the comments that the provider holds (their ids distinct),
    [updateComments] fires no event, whenever their threads can be
    built. *)
Lemma updateComments_same (E : Env) (R : Remote) (s : ReviewEvents.State)
      (ts : list CommentThread) :
  NoDup (map id (ReviewEvents._comments s)) ->
  ReviewEvents.allCommentsToCommentThreads E s (ReviewEvents._comments s) Expanded
  = Returned ts ->
  ReviewEvents.updateComments E R (ReviewEvents._comments s) s = (s, Returned None).
Proof.
  intros Hnd Hts. unfold ReviewEvents.updateComments, bind, get, call, ret. cbv beta iota.
  rewrite Hts. cbv beta iota zeta.
  rewrite removedThreads_same, addedAndChanged_same; [reflexivity | |].
  - intros t1 t2. now apply (@allThreads_unique _ _ _ _ _ _ _ Hnd Hts).
  - intros t. now apply (@allThreads_comment_ids _ _ _ _ _ _ Hnd Hts).
Qed.

(** The reconciliation of the event-emitter revision is idempotent: when
    a call of [updateComments] has returned, a second call with the same
    comments returns, fires no event (its added, changed and removed sets
    are empty) and leaves the state as it is.  Comment ids are unique in
    the list. *)
Theorem updateComments_idempotent :
  forall (E : Env) (R : Remote) (cs : list Comment) (s s' : ReviewEvents.State)
         (fired : option ReviewEvents.CommentThreadChangedEvent),
    NoDup (map id cs) ->
    ReviewEvents.updateComments E R cs s = (s', Returned fired) ->
    ReviewEvents.updateComments E R cs s' = (s', Returned None).
Proof.
  intros E R cs s s' fired Hnd Hrun.
  pose proof (@updateComments_state _ _ _ _ _ _ Hrun) as Hstate.
  destruct fired as [ev|]; cbn beta iota in Hstate.
  - destruct Hstate as (g & Hg & ->).
    assert (Hnews : exists news,
               ReviewEvents.allCommentsToCommentThreads E s cs Expanded = Returned news).
    { revert Hrun.
      unfold ReviewEvents.updateComments, bind, get, call, await, modify, ret.
      cbv beta iota.
      destruct (ReviewEvents.allCommentsToCommentThreads
                  E s (ReviewEvents._comments s) Expanded); [|discriminate].
      destruct (ReviewEvents.allCommentsToCommentThreads E s cs Expanded) as [news|];
        [now exists news | discriminate]. }
    destruct Hnews as [news Hnews].
    apply (@updateComments_same E R (ReviewEvents.mkState
                                       (map g (ReviewEvents._localFileChanges s)) cs) news).
    + exact Hnd.
    + cbn [ReviewEvents._comments].
      rewrite (@allThreads_files E g (ReviewEvents._localFileChanges s) cs
                                 (ReviewEvents._comments s) cs Expanded Hg).
      destruct s as [files held]. exact Hnews.
  - subst s'. exact Hrun.
Qed.

(** The pass over the threads of an open document,
    [updatePRorReviewCommentThreads], disposes the unmatched thread 3; for
    the matched thread 2 it puts the workspace thread 0 of the same id
    into the map of the document, so that thread 2 is neither disposed nor
    kept, and it creates thread 4 for the workspace thread 1. *)
Example updatePRorReviewCommentThreads_replaces_matched :
  let result :=
    Review.updatePRorReviewCommentThreads [("a.ts"%string, [2; 3]%nat)] "a.ts"
      [2; 3]%nat [0; 1]%nat false Sample.documentStore in
  map (fun r => threadId (Store.read Sample.documentStore r)) [0; 1; 2; 3]%nat
  = ["1"; "3"; "1"; "4"]%string
  /\ fst result = [("a.ts"%string, [0; 4]%nat)]
  /\ Store.disposed (snd result) = [3%nat]
  /\ threadId (Store.read (snd result) 4) = "3"%string.
Proof.
  vm_compute. repeat split; reflexivity.
Qed.

(** ** Serialisation of [validateState] without the reset *)

Lemma chainFrom_bound (p n : nat) (l : list (nat * nat)) :
  chainFrom p n l -> chainFrom p (S n) l.
Proof.
  revert p. induction l as [|[a b] r IH]; intros p; simpl; [trivial|].
  intros (Ha & Hlt & Hb & Hr). repeat split; try assumption; try lia. now apply IH.
Qed.

Lemma chainEnd_bound (p n : nat) (l : list (nat * nat)) :
  (p < n)%nat -> chainFrom p n l -> (chainEnd p l < n)%nat.
Proof.
  revert p. induction l as [|[a b] r IH]; intros p Hp; simpl; [trivial|].
  intros (_ & _ & Hb & Hr). now apply IH.
Qed.

Lemma chainFrom_snoc (p n : nat) (l : list (nat * nat)) :
  (p < n)%nat -> chainFrom p n l ->
  chainFrom p (S n) (l ++ [(chainEnd p l, n)])
  /\ chainEnd p (l ++ [(chainEnd p l, n)]) = n.
Proof.
  revert p. induction l as [|[a b] r IH]; intros p Hp; simpl.
  - intros _. repeat split; lia.
  - intros (Ha & Hlt & Hb & Hr). destruct (IH b Hb Hr) as [IH1 IH2].
    repeat split; try assumption; lia.
Qed.

Lemma chainEnd_pending (p n : nat) (l : list (nat * nat)) :
  chainFrom p n l ->
  (Nat.eqb (chainEnd p l) p || existsb (fun c => Nat.eqb (chainEnd p l) (snd c)) l)%bool = true.
Proof.
  revert p. induction l as [|[a b] r IH]; intros p; simpl.
  - intros _. now rewrite Nat.eqb_refl.
  - intros (_ & _ & _ & Hr). specialize (IH b Hr).
    apply orb_true_iff. right. apply orb_true_iff.
    apply orb_true_iff in IH. destruct IH as [IH | IH]; [now left | now right].
Qed.

Lemma chain_after (p b n : nat) (l : list (nat * nat)) :
  (p < b)%nat -> chainFrom b n l ->
  filter (fun c => Nat.eqb (fst c) p) l = []
  /\ filter (fun c => negb (Nat.eqb (fst c) p)) l = l.
Proof.
  revert b. induction l as [|[a c] r IH]; intros b Hlt; simpl; [auto|].
  intros (-> & Hbc & _ & Hr).
  destruct (Nat.eqb_spec b p) as [-> | _]; [lia|]. simpl.
  destruct (IH c (Nat.lt_trans _ _ _ Hlt Hbc) Hr) as [IH1 IH2]. now rewrite IH1, IH2.
Qed.

Lemma updateState_serialised (s : ReviewManager.State) :
  serialised s -> serialised (ReviewManager.updateState s).
Proof.
  destruct s as [f sw r c n].
  unfold serialised, ReviewManager.updateState, ReviewManager.is_pending. simpl.
  intros H. destruct sw; [exact H|].
  destruct r as [|p0 [|p1 rest]]; [| |contradiction].
  - destruct H as [-> Hf]. destruct f as [p|]; simpl; repeat split; lia.
  - destruct H as (Hp0 & Hchain & ->). cbn [existsb].
    rewrite orb_false_r, (@chainEnd_pending _ _ _ Hchain). simpl.
    destruct (@chainFrom_snoc _ _ _ Hp0 Hchain) as [H1 H2].
    repeat split; try assumption; try lia. now rewrite H2.
Qed.

Lemma complete_serialised (s s' : ReviewManager.State) (p : nat) :
  serialised s ->
  ReviewManager.complete p ReviewManager.EarlyReturn s = Some s' ->
  serialised s'.
Proof.
  destruct s as [f sw r c n].
  unfold serialised, ReviewManager.complete. simpl. intros H Hc.
  destruct r as [|p0 [|p1 rest]]; [| |contradiction].
  - simpl in Hc. discriminate.
  - simpl in Hc. rewrite orb_false_r in Hc.
    destruct (Nat.eqb_spec p p0) as [-> | _]; [|discriminate].
    injection Hc as <-. simpl. rewrite Nat.eqb_refl. simpl.
    destruct H as (Hp0 & Hchain & ->).
    destruct c as [|[a b] l]; simpl in *.
    + split; [reflexivity|]. intros q Hq. injection Hq as <-. assumption.
    + destruct Hchain as (-> & Hlt & Hb & Hr). rewrite Nat.eqb_refl. simpl.
      destruct (@chain_after p0 b n l Hlt Hr) as [H1 H2]. rewrite H1, H2. simpl.
      repeat split; assumption.
Qed.

(** As long as no run reaches the statement that resets
    [_validateStatusInProgress], the requests are serialised: whatever the
    sequence of requests, of early returns and of writes to
    [switchingToReviewMode], at most one run of [validateState] is in
    flight. *)
Theorem updateState_serialises_without_reset :
  forall (trace : list ReviewManager.Event) (s : ReviewManager.State),
    Forall keepsField trace ->
    ReviewManager.run ReviewManager.initial trace = Some s ->
    (List.length (ReviewManager.running s) <= 1)%nat.
Proof.
  assert (Hgen : forall trace s0 s,
             serialised s0 -> Forall keepsField trace ->
             ReviewManager.run s0 trace = Some s -> serialised s).
  { induction trace as [|e trace IH]; intros s0 s Hs0 Hall Hrun; simpl in Hrun.
    - now injection Hrun as <-.
    - inversion Hall as [|? ? He Hall']; subst.
      destruct (ReviewManager.step s0 e) as [s1|] eqn:Hstep; [|discriminate].
      apply (IH s1 s); try assumption.
      destruct e as [|p c|b]; simpl in Hstep.
      + injection Hstep as <-. now apply updateState_serialised.
      + destruct c; [|contradiction]. eapply complete_serialised; eassumption.
      + injection Hstep as <-. destruct b.
        * exact Hs0.
        * apply updateState_serialised. exact Hs0. }
  intros trace s Hall Hrun.
  assert (Hs : serialised s).
  { apply (Hgen trace ReviewManager.initial s); try assumption.
    unfold serialised. simpl. split; [reflexivity | discriminate]. }
  unfold serialised in Hs.
  destruct (ReviewManager.running s) as [|p0 [|p1 rest]]; simpl; [lia | lia | contradiction].
Qed.

(** * Further properties of the code *)

(** ** [groupBy] *)

(** [groupBy] cuts the array into its groups: the keys of the result are
    distinct, the property of a key holds, in the order of the array, the
    elements with that key, and there is no property for a key that no
    element has (no group is empty); the loop [for (k in sections)] visits
    each group once. *)
Theorem groupBy_partitions :
  forall (T : Type) (arr : list T) (fn : T -> string),
    NoDup (Obj.keys (groupBy arr fn))
    /\ (forall k, Obj.get (groupBy arr fn) k
                  = match group_of fn arr k with
                    | [] => None
                    | _ :: _ => Some (group_of fn arr k)
                    end)
    /\ (forall x, In x arr ->
                  exists g, Obj.get (groupBy arr fn) (fn x) = Some g /\ In x g)
    /\ (forall k g, In (k, g) (Obj.for_in (groupBy arr fn))
                    <-> g = group_of fn arr k /\ g <> [])
    /\ NoDup (map fst (Obj.for_in (groupBy arr fn))).
Proof.
  intros T arr fn. split; [apply groupBy_NoDup|]. split; [apply groupBy_get|].
  split; [|split; [apply groupBy_In|]].
  - intros x Hx. rewrite groupBy_get.
    assert (Hin : In x (group_of fn arr (fn x))) by (apply group_of_In; now split).
    destruct (group_of fn arr (fn x)) as [|y g] eqn:Hg; [contradiction|].
    exists (y :: g). now split.
  - apply for_in_keys_NoDup, groupBy_NoDup.
Qed.

(** ** Deleting a comment *)

Lemma filter_all {A} (f : A -> bool) (l : list A) :
  (forall y, In y l -> f y = true) -> filter f l = l.
Proof.
  induction l as [|x l IH]; simpl; intros H; [reflexivity|].
  rewrite (H x (or_introl eq_refl)). f_equal. apply IH. intros y Hy. apply H. now right.
Qed.

Lemma at_most_one_tail {A} (p : A -> bool) (x : A) (l : list A) :
  at_most_one p (x :: l) -> at_most_one p l.
Proof.
  intros H i j a b Hi Hj Ha Hb.
  assert (Heq : S i = S j) by (apply (H (S i) (S j) a b); assumption).
  now injection Heq.
Qed.

(** [i = l.findIndex(p); if (i > -1) l.splice(i, 1)] takes out the one
    element that satisfies [p]. *)
Lemma remove_first_filter {A} (p : A -> bool) (l : list A) :
  at_most_one p l ->
  match JS.findIndex p l with
  | Some i => JS.splice_remove i l
  | None => l
  end = filter (fun x => negb (p x)) l.
Proof.
  induction l as [|x l IH]; intros Huniq; simpl; [reflexivity|].
  destruct (p x) eqn:Hp; simpl.
  - symmetry. apply filter_all. intros y Hy.
    destruct (p y) eqn:Hpy; [|reflexivity].
    apply In_nth_error in Hy. destruct Hy as [j Hj].
    assert (Heq : O = S j) by (apply (Huniq O (S j) x y); auto).
    discriminate.
  - specialize (IH (at_most_one_tail Huniq)).
    destruct (JS.findIndex p l) as [i|]; simpl; f_equal; exact IH.
Qed.

Lemma unique_commentId_at_most_one (k : string) (l : list VSComment) :
  NoDup (map commentId l) -> at_most_one (fun c => String.eqb (commentId c) k) l.
Proof.
  intros Hnd i j x y Hi Hj Hx Hy.
  apply String.eqb_eq in Hx, Hy.
  rewrite NoDup_nth_error in Hnd. apply Hnd.
  - rewrite length_map. apply nth_error_Some. now rewrite Hi.
  - rewrite !nth_error_map, Hi, Hj. simpl. congruence.
Qed.

Lemma remove_comment_filter (comment : VSComment) (l : list Comment) :
  NoDup (map id l) ->
  Review.remove_comment comment l = filter (fun c => negb (Review.same_id comment c)) l.
Proof.
  intros H. unfold Review.remove_comment. apply remove_first_filter.
  now apply unique_id_at_most_one.
Qed.


Lemma file_comments_set_pr_inDraftMode (d : bool) (s : Review.State) (file : Review.FileRef) :
  Review.file_comments (Review.set_pr_inDraftMode d s) file = Review.file_comments s file.
Proof. now destruct file. Qed.

Lemma file_comments_set_any (file : Review.FileRef) (cs : list Comment) (s : Review.State) :
  Review.file_comments (Review.set_file_comments file cs s) file
  = match Review.file_at s file with
    | Some _ => cs
    | None => []
    end.
Proof.
  unfold Review.file_comments, Review.file_at, Review.set_file_comments.
  destruct file as [i|i]; simpl; rewrite update_nth_same.
  - now destruct (nth_error (Review._localFileChanges s) i).
  - now destruct (nth_error (Review._obsoleteFileChanges s) i) as [[n|f]|].
Qed.

(** When [deleteComment] of the review provider returns, the comment list
    of the matched file, the flat comment list and the comments of the
    thread are the lists of before without the comment of that id, the
    other comments in their order.  The thread keeps its id and is not
    disposed, also when it has lost its last comment, and the maps of live
    threads are as before. *)
Theorem deleteComment_removes_exactly :
  forall (E : Env) (R : Remote) (s s' : Review.State) (thread : nat) (comment : VSComment),
    NoDup (map id (Review._comments s)) ->
    (forall file, NoDup (map id (Review.file_comments s file))) ->
    NoDup (map commentId (comments (Store.read (Review.store s) thread))) ->
    Review.deleteComment E R thread comment s = (s', Returned tt) ->
    exists file : Review.FileRef,
      Review.findMatchedFileByUri E s (resource (Store.read (Review.store s) thread))
      = Returned (Some file)
      /\ deleteReviewComment R (commentId comment) = Returned tt
      /\ Review.file_comments s' file
         = filter (fun c => negb (String.eqb (JS.toString (id c)) (commentId comment))) (Review.file_comments s file)
      /\ Review._comments s'
         = filter (fun c => negb (String.eqb (JS.toString (id c)) (commentId comment))) (Review._comments s)
      /\ comments (Store.read (Review.store s') thread)
         = filter (fun c => negb (String.eqb (commentId c) (commentId comment)))
                  (comments (Store.read (Review.store s) thread))
      /\ threadId (Store.read (Review.store s') thread)
         = threadId (Store.read (Review.store s) thread)
      /\ Store.disposed (Review.store s') = Store.disposed (Review.store s)
      /\ trackedMaps s' = trackedMaps s.
Proof.
  intros E R s s' thread comment Hflat Hfiles Hthread Hrun.
  assert (Hthread' :
            comments
              match JS.findIndex (fun c => String.eqb (commentId c) (commentId comment))
                                 (comments (Store.read (Review.store s) thread)) with
              | Some index =>
                  set_comments (Store.read (Review.store s) thread)
                    (JS.splice_remove index (comments (Store.read (Review.store s) thread)))
              | None => Store.read (Review.store s) thread
              end
            = filter (fun c => negb (String.eqb (commentId c) (commentId comment)))
                     (comments (Store.read (Review.store s) thread))).
  { transitivity
      (match JS.findIndex (fun c => String.eqb (commentId c) (commentId comment))
                          (comments (Store.read (Review.store s) thread)) with
       | Some index => JS.splice_remove index (comments (Store.read (Review.store s) thread))
       | None => comments (Store.read (Review.store s) thread)
       end).
    - now destruct (JS.findIndex _ _).
    - apply (@remove_first_filter _
               (fun c => String.eqb (commentId c) (commentId comment))).
      now apply unique_commentId_at_most_one. }
  assert (Hfile' : forall file,
            Review.file_comments
              (Review.set_file_comments file
                 (Review.remove_comment comment (Review.file_comments s file)) s) file
            = filter (fun c => negb (Review.same_id comment c)) (Review.file_comments s file)).
  { intros file. rewrite file_comments_set_any. unfold Review.file_comments.
    destruct (Review.file_at s file) as [f|] eqn:Hat; [|reflexivity].
    apply remove_comment_filter. specialize (Hfiles file).
    unfold Review.file_comments in Hfiles. now rewrite Hat in Hfiles. }
  unfold Review.deleteComment in Hrun. unfold_M.
  destruct (Review.activePullRequest s); simpl in Hrun; [|discriminate].
  destruct (Review.findMatchedFileByUri E s (resource (Store.read (Review.store s) thread)))
    as [[file|]|m] eqn:Hfile; simpl in Hrun; try discriminate.
  destruct (deleteReviewComment R (commentId comment)) as [[]|m] eqn:Hdel; simpl in Hrun;
    [|discriminate].
  destruct (remote_inDraftMode R) as [d|m]; simpl in Hrun; [|discriminate].
  exists file. split; [reflexivity|]. split; [reflexivity|].
  assert (Hgoal :
            forall x : Review.State,
              x = Review.set_store
                    (Store.write thread
                       match JS.findIndex
                               (fun c => String.eqb (commentId c) (commentId comment))
                               (comments (Store.read (Review.store s) thread)) with
                       | Some index =>
                           set_comments (Store.read (Review.store s) thread)
                             (JS.splice_remove index
                                (comments (Store.read (Review.store s) thread)))
                       | None => Store.read (Review.store s) thread
                       end (Review.store s))
                    (Review.set__comments
                       (Review.remove_comment comment (Review._comments s))
                       (Review.set_file_comments file
                          (Review.remove_comment comment (Review.file_comments s file)) s)) ->
              Review.file_comments x file
              = filter (fun c => negb (Review.same_id comment c)) (Review.file_comments s file)
              /\ Review._comments x
                 = filter (fun c => negb (Review.same_id comment c)) (Review._comments s)
              /\ comments (Store.read (Review.store x) thread)
                 = filter (fun c => negb (String.eqb (commentId c) (commentId comment)))
                          (comments (Store.read (Review.store s) thread))
              /\ threadId (Store.read (Review.store x) thread)
                 = threadId (Store.read (Review.store s) thread)
              /\ Store.disposed (Review.store x) = Store.disposed (Review.store s)
              /\ trackedMaps x = trackedMaps s).
  { clear Hrun. intros x ->.
    rewrite file_comments_set_store, file_comments_set_comments, Hfile'.
    split; [reflexivity|]. split; [apply remove_comment_filter, Hflat|].
    cbn [Review.store Review.set_store].
    assert (Hread : forall th st, Store.read (Store.write thread th st) thread = th).
    { intros th st. unfold Store.read, Store.write. cbn [Store.heap].
      now rewrite Nat.eqb_refl. }
    rewrite !Hread. split; [exact Hthread'|].
    split; [now destruct (JS.findIndex _ _)|].
    split; [now destruct file | now destruct file]. }
  rewrite store_set_file_comments, comments_set_file_comments in Hrun.
  destruct (Hgoal _ eq_refl) as (H1 & H2 & H3 & H4 & H5 & H6).
  destruct (Bool.eqb d _) in Hrun; injection Hrun as <-.
  - repeat split; assumption.
  - rewrite file_comments_set_pr_inDraftMode. repeat split; assumption.
Qed.

Lemma update_nth_other {A} (i j : nat) (f : A -> A) (l : list A) :
  j <> i -> nth_error (Review.update_nth i f l) j = nth_error l j.
Proof.
  revert i j. induction l as [|x l IH]; intros [|i] [|j] H; simpl; try reflexivity.
  - now contradiction H.
  - apply IH. intros ->. now apply H.
Qed.

Lemma findMatchingFileNode_at (E : Env) (s : PRNode.State) (uri : Uri) (i : nat)
      (fileChange : FileChange) :
  PRNode.findMatchingFileNode E s uri = Returned (i, fileChange) ->
  nth_error (PRNode._fileChanges s) i = Some (InMemFileChangeNode fileChange).
Proof.
  unfold PRNode.findMatchingFileNode. intros H.
  destruct (fromPRUri E uri); [|discriminate].
  destruct (JS.findIndex _ (PRNode._fileChanges s)) as [k|]; [|discriminate].
  destruct (nth_error (PRNode._fileChanges s) k) as [[name|f]|] eqn:Hk; try discriminate.
  now injection H as <- <-.
Qed.

(** When [deleteComment] of the pull request node returns, the comments of
    the matching file change and of the thread are the lists of before
    without the comment of that id; the other file changes, the map of
    live threads and the id of the thread are as before, and the thread
    is not disposed, also when it has lost its last comment.  When the
    remote deletion throws, so does [deleteComment], and the node is left
    as it was. *)
Theorem PRNode_deleteComment_removes_exactly :
  forall (E : Env) (R : Remote) (s : PRNode.NodeState) (thread : nat) (comment : VSComment),
    (forall i f, nth_error (PRNode._fileChanges (PRNode.node s)) i
                 = Some (InMemFileChangeNode f) ->
                 NoDup (map id (fc_comments f))) ->
    NoDup (map commentId
               (comments (Store.read (PRNode.store (PRNode.node s)) thread))) ->
    (forall s', PRNode.deleteComment E R thread comment s = (s', Returned tt) ->
       exists (i : nat) (fileChange : FileChange),
         PRNode.findMatchingFileNode E (PRNode.node s)
           (resource (Store.read (PRNode.store (PRNode.node s)) thread))
         = Returned (i, fileChange)
         /\ deleteReviewComment R (commentId comment) = Returned tt
         /\ nth_error (PRNode._fileChanges (PRNode.node s')) i
            = Some (InMemFileChangeNode
                      (set_fc_comments fileChange
                         (filter (fun c => negb (String.eqb (JS.toString (id c)) (commentId comment)))
                                 (fc_comments fileChange))))
         /\ (forall j, j <> i ->
                       nth_error (PRNode._fileChanges (PRNode.node s')) j
                       = nth_error (PRNode._fileChanges (PRNode.node s)) j)
         /\ comments (Store.read (PRNode.store (PRNode.node s')) thread)
            = filter (fun c => negb (String.eqb (commentId c) (commentId comment)))
                     (comments (Store.read (PRNode.store (PRNode.node s)) thread))
         /\ threadId (Store.read (PRNode.store (PRNode.node s')) thread)
            = threadId (Store.read (PRNode.store (PRNode.node s)) thread)
         /\ Store.disposed (PRNode.store (PRNode.node s'))
            = Store.disposed (PRNode.store (PRNode.node s))
         /\ PRNode._fileChangeCommentThreads (PRNode.node s')
            = PRNode._fileChangeCommentThreads (PRNode.node s))
    /\ (forall msg, deleteReviewComment R (commentId comment) = Threw msg ->
          exists msg', PRNode.deleteComment E R thread comment s = (s, Threw msg')).
Proof.
  intros E R s thread comment Hfiles Hthread.
  assert (Hthread' :
            comments
              match JS.findIndex (fun c => String.eqb (commentId c) (commentId comment))
                      (comments (Store.read (PRNode.store (PRNode.node s)) thread)) with
              | Some index =>
                  set_comments (Store.read (PRNode.store (PRNode.node s)) thread)
                    (JS.splice_remove index
                       (comments (Store.read (PRNode.store (PRNode.node s)) thread)))
              | None => Store.read (PRNode.store (PRNode.node s)) thread
              end
            = filter (fun c => negb (String.eqb (commentId c) (commentId comment)))
                     (comments (Store.read (PRNode.store (PRNode.node s)) thread))).
  { transitivity
      (match JS.findIndex (fun c => String.eqb (commentId c) (commentId comment))
               (comments (Store.read (PRNode.store (PRNode.node s)) thread)) with
       | Some index =>
           JS.splice_remove index
             (comments (Store.read (PRNode.store (PRNode.node s)) thread))
       | None => comments (Store.read (PRNode.store (PRNode.node s)) thread)
       end).
    - now destruct (JS.findIndex _ _).
    - apply (@remove_first_filter _
               (fun c => String.eqb (commentId c) (commentId comment))).
      now apply unique_commentId_at_most_one. }
  split.
  - intros s' Hrun. unfold PRNode.deleteComment in Hrun. unfold_M.
    destruct (PRNode.findMatchingFileNode E (PRNode.node s)
                (resource (Store.read (PRNode.store (PRNode.node s)) thread)))
      as [[i fileChange]|m] eqn:Hfile; simpl in Hrun; [|discriminate].
    destruct (deleteReviewComment R (commentId comment)) as [[]|m] eqn:Hdel; simpl in Hrun;
      [|discriminate].
    destruct (remote_inDraftMode R) as [d|m]; simpl in Hrun; [|discriminate].
    pose proof (findMatchingFileNode_at _ _ _ Hfile) as Hat.
    exists i, fileChange. split; [reflexivity|]. split; [reflexivity|].
    assert (Hfc : nth_error
                    (PRNode._fileChanges
                       (PRNode.map_file_comments i (Review.remove_comment comment)
                                                 (PRNode.node s))) i
                  = Some (InMemFileChangeNode
                            (set_fc_comments fileChange
                               (filter (fun c => negb (Review.same_id comment c))
                                       (fc_comments fileChange))))).
    { cbn [PRNode._fileChanges PRNode.map_file_comments].
      rewrite update_nth_same, Hat. cbn [option_map]. do 3 f_equal.
      apply remove_comment_filter. now apply (Hfiles i). }
    assert (Hother : forall j, j <> i ->
                       nth_error
                         (PRNode._fileChanges
                            (PRNode.map_file_comments i (Review.remove_comment comment)
                                                      (PRNode.node s))) j
                       = nth_error (PRNode._fileChanges (PRNode.node s)) j).
    { intros j Hj. cbn [PRNode._fileChanges PRNode.map_file_comments].
      now apply update_nth_other. }
    cbn [PRNode.node PRNode.store PRNode.map_file_comments] in Hrun.
    destruct (JS.findIndex (fun c => String.eqb (commentId c) (commentId comment))
                (comments (Store.read (PRNode.store (PRNode.node s)) thread))) as [index|];
      destruct (Bool.eqb d _) in Hrun; injection Hrun as <-;
      cbn [PRNode.node PRNode.set_store PRNode.store PRNode._fileChangeCommentThreads];
      (split; [exact Hfc|]); (split; [exact Hother|]);
      unfold Store.read, Store.write in *; cbn [Store.heap Store.disposed] in *;
      rewrite ?Nat.eqb_refl; (split; [exact Hthread'|]);
      repeat split; reflexivity.
  - intros msg Hdel. unfold PRNode.deleteComment. unfold_M.
    destruct (PRNode.findMatchingFileNode E (PRNode.node s) _) as [[i fileChange]|m]; simpl.
    + rewrite Hdel. simpl. now exists msg.
    + now exists m.
Qed.

(** ** Creating the first comment of a thread *)

Lemma file_at_set_store (st : Store.t) (s : Review.State) (file : Review.FileRef) :
  Review.file_at (Review.set_store st s) file = Review.file_at s file.
Proof. now destruct file. Qed.

Ltac thrown_as_it_was :=
  intros ? ? H; injection H as <- <-; repeat split; reflexivity.

Lemma updateCommentThreadRoot_threw_frame (E : Env) (R : Remote) (s s' : Review.State)
      (thread : nat) (text_ msg : string) :
  Review.updateCommentThreadRoot E R thread text_ s = (s', Threw msg) ->
  Review.inputBox s' = Review.inputBox s
  /\ Review._comments s' = Review._comments s
  /\ Review._localFileChanges s' = Review._localFileChanges s
  /\ Review._obsoleteFileChanges s' = Review._obsoleteFileChanges s.
Proof.
  revert s' msg.
  unfold Review.updateCommentThreadRoot, bind, get, await, throw, ret, modify,
    Review.modify_thread.
  cbv beta iota.
  destruct (Review.findMatchedFileByUri E s (resource (Store.read (Review.store s) thread)))
    as [matchedFile|m0]; cbv beta iota; [|thrown_as_it_was].
  destruct (String.eqb (query (resource (Store.read (Review.store s) thread))) "");
    cbv beta iota;
    [generalize false
    |destruct (fromReviewUri E (resource (Store.read (Review.store s) thread))) as [q0|];
     cbv beta iota; [generalize (rv_base q0)|thrown_as_it_was]].
  all: intros isBase.
  all: destruct matchedFile as [file|]; [|thrown_as_it_was].
  all: destruct (negb (Review.activePullRequest s)); [thrown_as_it_was|].
  all: destruct (Review.file_at s file) as [matched|]; [|thrown_as_it_was].
  all: destruct (Z.ltb _ 0); [thrown_as_it_was|].
  all: destruct (createComment R text_ (fileName matched) _) as [raw|m];
    [|thrown_as_it_was].
  all: unfold modify; cbv beta iota.
  all: destruct (remote_inDraftMode R) as [d|m]; intros s' msg H; [discriminate|].
  all: injection H as <- <-; repeat split; reflexivity.
Qed.

(** [updateCommentThreadRoot] of the review provider either returns, and
    then the comment that the server created stands at the end of the
    comment list of the matched file and of the flat comment list and is
    the one comment of the thread, created at a position that is not
    negative; or it throws, and then the comment lists and the input box
    are those of before, and the threads are those of before unless the
    comment had been created and the query of the draft mode failed after
    it (the thread then shows the created comment, the lists do not hold
    it). *)
Theorem updateCommentThreadRoot_outcomes :
  forall (E : Env) (R : Remote) (s : Review.State) (thread : nat) (text_ : string),
    (forall s', Review.updateCommentThreadRoot E R thread text_ s = (s', Returned tt) ->
       exists (file : Review.FileRef) (matched : FileChange) (rawComment : Comment)
              (position_ : Z),
         Review.findMatchedFileByUri E s (resource (Store.read (Review.store s) thread))
         = Returned (Some file)
         /\ Review.file_at s file = Some matched
         /\ (0 <= position_)%Z
         /\ createComment R text_ (fileName matched) position_ = Returned rawComment
         /\ Review.file_comments s' file = Review.file_comments s file ++ [rawComment]
         /\ Review._comments s' = Review._comments s ++ [rawComment]
         /\ comments (Store.read (Review.store s') thread)
            = [convertToVSCodeComment rawComment None]
         /\ threadId (Store.read (Review.store s') thread)
            = threadId (Store.read (Review.store s) thread)
         /\ Store.disposed (Review.store s') = Store.disposed (Review.store s))
    /\ (forall s' msg,
          Review.updateCommentThreadRoot E R thread text_ s = (s', Threw msg) ->
          Review._comments s' = Review._comments s
          /\ Review._localFileChanges s' = Review._localFileChanges s
          /\ Review._obsoleteFileChanges s' = Review._obsoleteFileChanges s
          /\ Review.inputBox s' = Review.inputBox s
          /\ (s' = s
              \/ exists (rawComment : Comment) (name : string) (position_ : Z),
                   createComment R text_ name position_ = Returned rawComment
                   /\ remote_inDraftMode R = Threw msg
                   /\ comments (Store.read (Review.store s') thread)
                      = [convertToVSCodeComment rawComment None])).
Proof.
  intros E R s thread text_.
  unfold Review.updateCommentThreadRoot, bind, get, await, throw, ret, modify,
    Review.modify_thread.
  cbv beta iota.
  destruct (Review.findMatchedFileByUri E s (resource (Store.read (Review.store s) thread)))
    as [matchedFile|m0] eqn:Hfile; cbv beta iota.
  2: { split; [intros s' H; discriminate|].
       intros s' msg H. injection H as <- <-. repeat split; try reflexivity. now left. }
  assert (Hread : forall th st, Store.read (Store.write thread th st) thread = th).
  { intros th st. unfold Store.read, Store.write. cbn [Store.heap].
    now rewrite Nat.eqb_refl. }
  destruct (String.eqb (query (resource (Store.read (Review.store s) thread))) "");
    cbv beta iota;
    [generalize false
    |destruct (fromReviewUri E (resource (Store.read (Review.store s) thread))) as [q0|];
     cbv beta iota; [generalize (rv_base q0)|]].
  3: { split; [intros s' H; discriminate|].
       intros s' msg H. injection H as <- <-. repeat split; try reflexivity. now left. }
  all: intros isBase.
  all: destruct matchedFile as [file|];
    [|split; [intros s' H; discriminate|];
      intros s' msg H; injection H as <- <-; repeat split; try reflexivity; now left].
  all: destruct (negb (Review.activePullRequest s));
    [split; [intros s' H; discriminate|];
     intros s' msg H; injection H as <- <-; repeat split; try reflexivity; now left|].
  all: destruct (Review.file_at s file) as [matched|] eqn:Hat;
    [|split; [intros s' H; discriminate|];
      intros s' msg H; injection H as <- <-; repeat split; try reflexivity; now left].
  all: destruct (Z.ltb_spec
                   (mapHeadLineToDiffHunkPosition E (fc_diffHunks matched)
                      (diffWith E (headSha E) (fileName matched))
                      (startLine (range (Store.read (Review.store s) thread)) + 1) isBase)
                   0) as [Hneg|Hpos];
    [split; [intros s' H; discriminate|];
     intros s' msg H; injection H as <- <-; repeat split; try reflexivity; now left|].
  all: destruct (createComment R text_ (fileName matched) _) as [raw|m] eqn:Hcreate;
    [|split; [intros s' H; discriminate|];
      intros s' msg H; injection H as <- <-; repeat split; try reflexivity; now left].
  all: unfold modify; cbv beta iota.
  all: destruct (remote_inDraftMode R) as [d|m] eqn:Hdraft.
  all: split; [intros s' H | intros s' msg H]; try discriminate.
  all: try (apply (f_equal fst) in H; cbn [fst] in H; subst s';
            exists file, matched, raw,
              (mapHeadLineToDiffHunkPosition E (fc_diffHunks matched)
                 (diffWith E (headSha E) (fileName matched))
                 (startLine (range (Store.read (Review.store s) thread)) + 1) isBase);
            split; [reflexivity|]; split; [exact Hat|]; split; [exact Hpos|];
            split; [exact Hcreate|];
            rewrite file_comments_set_comments, comments_set_file_comments,
              !file_comments_set_store;
            split; [apply file_comments_set; rewrite !file_at_set_store; congruence|];
            split; [reflexivity|];
            cbn [Review.store Review.set_store Review.set__comments];
            rewrite store_set_file_comments;
            cbn [Review.store Review.set_store Review.set__comments];
            rewrite !Hread; repeat split; reflexivity).
  all: injection H as <- <-; repeat split; try (destruct file; reflexivity).
  all: right; exists raw, (fileName matched),
         (mapHeadLineToDiffHunkPosition E (fc_diffHunks matched)
            (diffWith E (headSha E) (fileName matched))
            (startLine (range (Store.read (Review.store s) thread)) + 1) isBase).
  all: split; [exact Hcreate|]; split; [reflexivity|].
  all: unfold Store.read, Store.write; cbn [Review.store Review.set_store Store.heap];
    now rewrite Nat.eqb_refl.
Qed.

(** ** Replying in a thread *)

(** [createOrReplyComment] of the review provider on a thread that has a
    comment: when the server creates the reply, the thread shows its old
    comments followed by the reply, the input box is emptied, the thread
    keeps its id, and the comment lists are not touched.  When the method
    throws, on a thread with or without comments, the input box still
    holds the text and the comment lists are as before.  Without
    authentication or input box the method returns at once. *)
Theorem createOrReplyComment_appends_reply :
  forall (E : Env) (R : Remote) (A : Review.ReviewApi) (s : Review.State) (thread : nat),
    (forall (value : string) (c0 : VSComment) (rest : list VSComment) (raw : Comment),
        authenticate R = true ->
        Review.inputBox s = Some value ->
        comments (Store.read (Review.store s) thread) = c0 :: rest ->
        Review.createCommentReply A value (_rawComment c0) = Returned raw ->
        exists s',
          Review.createOrReplyComment E R A thread s = (s', Returned tt)
          /\ comments (Store.read (Review.store s') thread)
             = (c0 :: rest) ++ [convertToVSCodeComment raw None]
          /\ threadId (Store.read (Review.store s') thread)
             = threadId (Store.read (Review.store s) thread)
          /\ Review.inputBox s' = Some EmptyString
          /\ Review._comments s' = Review._comments s
          /\ Review._localFileChanges s' = Review._localFileChanges s
          /\ Review._obsoleteFileChanges s' = Review._obsoleteFileChanges s
          /\ Store.disposed (Review.store s') = Store.disposed (Review.store s))
    /\ (forall (s' : Review.State) (msg : string),
          Review.createOrReplyComment E R A thread s = (s', Threw msg) ->
          Review.inputBox s' = Review.inputBox s
          /\ Review._comments s' = Review._comments s
          /\ Review._localFileChanges s' = Review._localFileChanges s
          /\ Review._obsoleteFileChanges s' = Review._obsoleteFileChanges s)
    /\ (authenticate R = false \/ Review.inputBox s = None ->
        Review.createOrReplyComment E R A thread s = (s, Returned tt)).
Proof.
  intros E R A s thread. split; [|split].
  - intros value c0 rest raw Hauth Hinput Hcs Hreply.
    unfold Review.createOrReplyComment, bind, get, await, modify, Review.modify_thread.
    cbv beta iota. rewrite Hauth, Hinput, Hcs, Hreply. cbv beta iota.
    eexists. split; [reflexivity|].
    cbn [Review.store Review.set_store Review.set_inputBox Review.inputBox
         Review._comments Review._localFileChanges Review._obsoleteFileChanges].
    unfold Store.read, Store.write. cbn [Store.heap Store.disposed].
    rewrite Nat.eqb_refl. fold (Store.read (Review.store s) thread). rewrite Hcs.
    repeat split; reflexivity.
  - intros s' msg.
    unfold Review.createOrReplyComment, bind, get, await, modify, Review.modify_thread, ret.
    cbv beta iota.
    destruct (authenticate R); [|discriminate].
    destruct (Review.inputBox s) as [value|] eqn:Hinput; [|discriminate].
    destruct (comments (Store.read (Review.store s) thread)) as [|c0 rest].
    + destruct (Review.updateCommentThreadRoot E R thread value s) as [s1 [[]|m]] eqn:Hroot;
        intros H; [discriminate|].
      injection H as <- <-. rewrite <- Hinput.
      now apply (updateCommentThreadRoot_threw_frame _ _ _ _ _ Hroot).
    + destruct (Review.createCommentReply A value (_rawComment c0)) as [raw|m];
        intros H; [discriminate|].
      injection H as <- <-. now rewrite Hinput.
  - intros [Hauth | Hinput]; unfold Review.createOrReplyComment, bind, get, ret.
    + now rewrite Hauth.
    + rewrite Hinput. now destruct (authenticate R).
Qed.

(** ** The listener of the repository state *)

Lemma option_eqb_refl {A} (eqb : A -> A -> bool) (a : option A) :
  (forall x, eqb x x = true) -> option_eqb eqb a a = true.
Proof. intros H. destruct a; simpl; auto. Qed.

Lemma equals_refl (r : RepositoryState.Remote) : RepositoryState.equals r r = true.
Proof. unfold RepositoryState.equals. now rewrite !String.eqb_refl. Qed.

Lemma sameHead_refl (b : RepositoryState.Branch) : RepositoryState.sameHead b b = true.
Proof.
  unfold RepositoryState.sameHead, RepositoryState.sameUpstream.
  rewrite !option_eqb_refl by (apply Z.eqb_refl || apply String.eqb_refl).
  rewrite Z.eqb_refl. destruct (RepositoryState.br_upstream b); simpl;
    now rewrite ?String.eqb_refl.
Qed.

Lemma sameRemotes_refl (l : list RepositoryState.Remote) :
  RepositoryState.sameRemotes l l = true.
Proof.
  unfold RepositoryState.sameRemotes. rewrite Nat.eqb_refl. simpl.
  apply forallb_forall. intros r Hr. apply existsb_exists. exists r.
  split; [assumption | apply equals_refl].
Qed.

Lemma onDidChange_same (head : option RepositoryState.Branch)
      (l : list RepositoryState.Remote) :
  RepositoryState.onDidChange (RepositoryState.mk head l) head l
  = (RepositoryState.mk head l, false).
Proof.
  unfold RepositoryState.onDidChange. simpl. destruct head as [b|]; [|reflexivity].
  now rewrite sameHead_refl, sameRemotes_refl.
Qed.

(** A notification of the repository state that is handled a second time
    changes nothing: [updateState] is called at most once for it, by the
    first handling, which records the state.  A notification calls
    [updateState] and records the state whenever the head has appeared or
    gone, the commit, the name or the upstream of the head differ from the
    recorded ones, or the number of remotes differs. *)
Theorem repository_notification_once :
  forall (w : RepositoryState.t * ReviewManager.State)
         (newHead : option RepositoryState.Branch) (remotes_ : list RepositoryState.Remote),
    RepositoryState.notify (RepositoryState.notify w newHead remotes_) newHead remotes_
    = RepositoryState.notify w newHead remotes_
    /\ (forall o n,
           RepositoryState.HEAD (fst w) = Some o -> newHead = Some n ->
           RepositoryState.br_commit o <> RepositoryState.br_commit n
           \/ RepositoryState.br_name o <> RepositoryState.br_name n
           \/ RepositoryState.br_upstream o <> RepositoryState.br_upstream n ->
           RepositoryState.notify w newHead remotes_
           = (RepositoryState.mk newHead remotes_, ReviewManager.updateState (snd w)))
    /\ ((RepositoryState.HEAD (fst w) = None <-> newHead <> None) ->
        RepositoryState.notify w newHead remotes_
        = (RepositoryState.mk newHead remotes_, ReviewManager.updateState (snd w)))
    /\ (List.length (RepositoryState.remotes (fst w)) <> List.length remotes_ ->
        (RepositoryState.HEAD (fst w) <> None \/ newHead <> None) ->
        RepositoryState.notify w newHead remotes_
        = (RepositoryState.mk newHead remotes_, ReviewManager.updateState (snd w))).
Proof.
  intros [previous m] newHead remotes_. cbn [fst snd].
  split; [|split; [|split]].
  - unfold RepositoryState.notify. cbn [fst snd].
    destruct (RepositoryState.onDidChange previous newHead remotes_) as [p called] eqn:H1.
    cbn [fst snd].
    assert (H2 : RepositoryState.onDidChange p newHead remotes_ = (p, false)).
    { unfold RepositoryState.onDidChange in H1.
      destruct (RepositoryState.HEAD previous) as [o|] eqn:Ho; destruct newHead as [n|].
      4: { injection H1 as <- <-. unfold RepositoryState.onDidChange. now rewrite Ho. }
      all: destruct (negb _ || negb _)%bool eqn:Hc in H1; injection H1 as <- <-.
      all: try apply onDidChange_same.
      all: unfold RepositoryState.onDidChange; rewrite Ho; now rewrite Hc. }
    now rewrite H2.
  - intros o n Ho -> Hdiff. unfold RepositoryState.notify, RepositoryState.onDidChange.
    cbn [fst snd]. rewrite Ho.
    assert (Hs : RepositoryState.sameHead o n = false).
    { unfold RepositoryState.sameHead, RepositoryState.sameUpstream.
      destruct Hdiff as [Hd | [Hd | Hd]].
      - destruct (RepositoryState.br_commit o) as [a|], (RepositoryState.br_commit n) as [b|];
          simpl; rewrite ?andb_false_r; try reflexivity; try (now contradiction Hd).
        destruct (String.eqb_spec a b) as [-> | _]; [now contradiction Hd|].
        now rewrite ?andb_false_r.
      - destruct (RepositoryState.br_name o) as [a|], (RepositoryState.br_name n) as [b|];
          simpl; rewrite ?andb_false_r; try reflexivity; try (now contradiction Hd).
        destruct (String.eqb_spec a b) as [-> | _]; [now contradiction Hd|].
        now rewrite ?andb_false_r.
      - destruct (RepositoryState.br_upstream o) as [[ar an]|],
                 (RepositoryState.br_upstream n) as [[br_ bn]|];
          simpl; try reflexivity; try (now contradiction Hd).
        destruct (String.eqb_spec an bn) as [-> | _]; [|reflexivity].
        destruct (String.eqb_spec ar br_) as [-> | _]; [now contradiction Hd | reflexivity]. }
    now rewrite Hs.
  - intros Hiff. unfold RepositoryState.notify, RepositoryState.onDidChange. cbn [fst snd].
    destruct (RepositoryState.HEAD previous) as [o|], newHead as [n|]; try reflexivity.
    + exfalso. destruct Hiff as [_ H].
      assert (Hn : Some o = None) by (apply H; discriminate). discriminate.
    + exfalso. destruct Hiff as [H _]. now apply (H eq_refl).
  - intros Hlen Hhead. unfold RepositoryState.notify, RepositoryState.onDidChange.
    cbn [fst snd].
    assert (Hr : RepositoryState.sameRemotes (RepositoryState.remotes previous) remotes_
                 = false).
    { unfold RepositoryState.sameRemotes.
      destruct (Nat.eqb_spec (List.length (RepositoryState.remotes previous))
                             (List.length remotes_)); [contradiction | reflexivity]. }
    rewrite Hr. cbn [negb]. 
    destruct (RepositoryState.HEAD previous), newHead; rewrite ?orb_true_r; try reflexivity.
    destruct Hhead as [H | H]; exfalso; now apply H.
Qed.

(** ** The content of a review document *)

Lemma linesExcept_filter (excluded : DiffChangeType) (hunks : list DiffHunk) :
  ReviewData.linesExcept excluded hunks
  = map text (filter (fun l => negb (DiffChangeType_eqb (dl_type l) excluded))
                     (flat_map diffLines hunks)).
Proof.
  unfold ReviewData.linesExcept.
  rewrite (@fold_left_push_gen _ _ (fun prev curr => prev ++ curr) (fun curr => curr))
    by reflexivity.
  cbn [app]. induction hunks as [|h hunks IH]; [reflexivity|].
  cbn [map flat_map]. rewrite IH, filter_app, map_app. reflexivity.
Qed.

Lemma DiffChangeType_eqb_eq (a b : DiffChangeType) :
  DiffChangeType_eqb a b = true <-> a = b.
Proof. destruct a, b; simpl; split; intros H; congruence. Qed.

(** [provideTextDocumentContent] of the review manager, for a document
    whose URI parses.  For a file change of the pull request at the
    commit of the URI the content is made of the texts, joined with a
    newline, of all diff lines of its hunks in hunk and line order except
    the lines of one type: the deleted lines when the commit is that of
    the file change, the added lines when it is its parent; every other
    line, the hunk headers included, is part of it.  Without such a file
    change the content is put together, group after group of the comments
    of the first obsolete file change at that commit, from the hunks of
    the first comment of the group; without that one either there is no
    content. *)
Theorem review_document_content :
  forall (E : Env) (parentSha : FileChange -> option string) (s : ReviewData.State)
         (uri : Uri) (q : ReviewUriParams),
    fromReviewUri E uri = Some q ->
    (forall changedItem others,
        ReviewData.changedItems parentSha q (ReviewData._localFileChanges s)
        = changedItem :: others ->
        let excluded :=
          if Review.option_string_eqb (sha changedItem) (rv_commit q) then Delete else Add in
        let lines :=
          filter (fun l => negb (DiffChangeType_eqb (dl_type l) excluded))
                 (flat_map diffLines (fc_diffHunks changedItem)) in
        ReviewData.provideTextDocumentContent E parentSha s uri
        = Returned (Some (String.concat (String "010"%char EmptyString) (map text lines)))
        /\ (forall l, In l lines <->
                      In l (flat_map diffLines (fc_diffHunks changedItem))
                      /\ dl_type l <> excluded))
    /\ (forall changedItem others,
           ReviewData.changedItems parentSha q (ReviewData._localFileChanges s) = [] ->
           ReviewData.changedItems parentSha q
             (gitFileChangeNodeFilter (ReviewData._obsoleteFileChanges s))
           = changedItem :: others ->
           let excluded :=
             if Review.option_string_eqb (sha changedItem) (rv_commit q)
             then Delete else Add in
           ReviewData.provideTextDocumentContent E parentSha s uri
           = Returned
               (Some (String.concat (String "010"%char EmptyString)
                        (flat_map
                           (fun group : string * list Comment =>
                              match snd group with
                              | first :: _ =>
                                  match diffHunks first with
                                  | Some hunks =>
                                      map text
                                          (filter (fun l =>
                                                     negb (DiffChangeType_eqb (dl_type l)
                                                                              excluded))
                                                  (flat_map diffLines hunks))
                                  | None => []
                                  end
                              | [] => []
                              end)
                           (Obj.for_in (groupBy (fc_comments changedItem)
                                                originalPositionKey))))))
    /\ (ReviewData.changedItems parentSha q (ReviewData._localFileChanges s) = [] ->
        ReviewData.changedItems parentSha q
          (gitFileChangeNodeFilter (ReviewData._obsoleteFileChanges s)) = [] ->
        ReviewData.provideTextDocumentContent E parentSha s uri = Returned None).
Proof.
  intros E parentSha s uri q Hq.
  split; [|split].
  - intros changedItem others Hlocal excluded lines.
    unfold ReviewData.provideTextDocumentContent. rewrite Hq, Hlocal. split.
    + unfold ReviewData.diffChangeTypeFilter. now rewrite linesExcept_filter.
    + intros l. unfold lines. rewrite filter_In. rewrite negb_true_iff.
      split; intros [Hin Ht]; (split; [assumption|]).
      * intros Heq. apply DiffChangeType_eqb_eq in Heq. congruence.
      * destruct (DiffChangeType_eqb (dl_type l) excluded) eqn:Hb; [|reflexivity].
        apply DiffChangeType_eqb_eq in Hb. contradiction.
  - intros changedItem others Hlocal Hobsolete excluded.
    unfold ReviewData.provideTextDocumentContent. rewrite Hq, Hlocal, Hobsolete.
    unfold JS.join, JS.newline. do 3 f_equal.
    unfold ReviewData.diffChangeTypeFilter. fold excluded.
    match goal with
    | |- fold_left ?g ?l [] = flat_map ?f ?l =>
        change (fold_left g l [] = [] ++ flat_map f l);
        apply (@fold_left_push_gen _ _ g f)
    end.
    intros acc [k [|first rest]]; cbn [snd]; [now rewrite app_nil_r|].
    destruct (diffHunks first); [now rewrite linesExcept_filter | now rewrite app_nil_r].
  - intros Hlocal Hobsolete.
    unfold ReviewData.provideTextDocumentContent. now rewrite Hq, Hlocal, Hobsolete.
Qed.

(** ** The pull request data of the review manager *)

Lemma getLocalChangeNodes_map (P : ReviewData.Source) (changes : list ReviewData.ContentChange)
      (active : list Comment) :
  ReviewData.getLocalChangeNodes P changes active
  = map (ReviewData.localChangeNode P active) changes.
Proof.
  unfold ReviewData.getLocalChangeNodes.
  rewrite (fold_left_push (fun change => [ReviewData.localChangeNode P active change])).
  cbn [app]. induction changes as [|c changes IH]; [reflexivity|].
  cbn [flat_map map app]. now rewrite IH.
Qed.

Lemma obsoleteFileChanges_In (P : ReviewData.Source) (outdated : list Comment)
      (n : FileChangeNode) :
  In n (ReviewData.obsoleteFileChanges P outdated)
  <-> exists commit name,
        group_of path (group_of ReviewData.commitKey outdated commit) name <> []
        /\ n = InMemFileChangeNode
                 (ReviewData.obsoleteFileChange P commit name
                    (group_of path (group_of ReviewData.commitKey outdated commit) name)).
Proof.
  unfold ReviewData.obsoleteFileChanges.
  rewrite (@fold_left_push_gen _ _ _
             (fun commitGroup : string * list Comment =>
                flat_map (fun fileGroup : string * list Comment =>
                            [InMemFileChangeNode
                               (ReviewData.obsoleteFileChange P (fst commitGroup)
                                  (fst fileGroup) (snd fileGroup))])
                         (Obj.for_in (groupBy (snd commitGroup) path))))
    by (intros acc x; apply fold_left_push).
  cbn [app]. rewrite in_flat_map. split.
  - intros ([commit g] & Hcg & Hn). apply groupBy_In in Hcg. destruct Hcg as [-> Hne].
    cbn [fst snd] in Hn. apply in_flat_map in Hn.
    destruct Hn as ([name fg] & Hfg & Hn). apply groupBy_In in Hfg.
    destruct Hfg as [-> Hfne]. cbn [fst snd] in Hn. destruct Hn as [<- | []].
    exists commit, name. now split.
  - intros (commit & name & Hne & ->).
    exists (commit, group_of ReviewData.commitKey outdated commit). split.
    + apply groupBy_In. split; [reflexivity|].
      intros Hnil. rewrite Hnil in Hne. now apply Hne.
    + cbn [fst snd]. apply in_flat_map.
      exists (name, group_of path (group_of ReviewData.commitKey outdated commit) name).
      split; [apply groupBy_In; now split | now left].
Qed.

(** [getPullRequestData] of the review manager, when the comments and the
    diff of the pull request arrive: it returns, [_comments] holds the
    comments, there is one local file change for each file of the diff,
    in the order of the diff, and it holds the comments of its path that
    have a position (not [null], not 0), in their order.  Each of the
    other comments is held by exactly one obsolete file change, the one
    of its original commit and its path, which holds nothing but the
    comments without position of that commit and path; no obsolete file
    change is without comments. *)
Theorem getPullRequestData_sorts_comments :
  forall (P : ReviewData.Source) (s : ReviewData.State) (cs : list Comment) (data : string)
         (changes : list ReviewData.ContentChange),
    ReviewData.getPullRequestComments P = Returned cs ->
    ReviewData.getPullRequestFileChangesInfo P = Returned data ->
    ReviewData.parseDiff P data (ReviewData.mergeBaseOf P) = Returned changes ->
    let s' := fst (ReviewData.getPullRequestData P s) in
    snd (ReviewData.getPullRequestData P s) = Returned tt
    /\ ReviewData._comments s' = cs
    /\ map fileName (ReviewData._localFileChanges s') = map ReviewData.change_fileName changes
    /\ (forall f, In f (ReviewData._localFileChanges s') ->
                  fc_comments f
                  = filter (fun c => String.eqb (path c) (fileName f))
                           (filter ReviewData.hasPosition cs))
    /\ (forall n, In n (ReviewData._obsoleteFileChanges s') ->
                  exists f commit,
                    n = InMemFileChangeNode f
                    /\ sha f = Some commit
                    /\ fc_comments f <> []
                    /\ forall c, In c (fc_comments f)
                                 <-> In c cs /\ ReviewData.hasPosition c = false
                                     /\ ReviewData.commitKey c = commit
                                     /\ path c = fileName f)
    /\ (forall c, In c cs -> ReviewData.hasPosition c = false ->
                  exists f,
                    In (InMemFileChangeNode f) (ReviewData._obsoleteFileChanges s')
                    /\ In c (fc_comments f)
                    /\ sha f = Some (ReviewData.commitKey c)
                    /\ fileName f = path c
                    /\ forall f', In (InMemFileChangeNode f')
                                     (ReviewData._obsoleteFileChanges s') ->
                                  In c (fc_comments f') -> f' = f).
Proof.
  intros P s cs data changes Hcs Hdata Hdiff s'.
  assert (Hrun : ReviewData.getPullRequestData P s
                 = (ReviewData.mkState cs
                      (ReviewData.getLocalChangeNodes P changes
                         (filter ReviewData.hasPosition cs))
                      (ReviewData.obsoleteFileChanges P
                         (filter (fun c => negb (ReviewData.hasPosition c)) cs)),
                    Returned tt)).
  { unfold ReviewData.getPullRequestData, catch_log, bind, await, modify.
    now rewrite Hcs, Hdata, Hdiff. }
  unfold s'. rewrite Hrun. cbn [fst snd ReviewData._comments ReviewData._localFileChanges
                                ReviewData._obsoleteFileChanges].
  set (outdated := filter (fun c => negb (ReviewData.hasPosition c)) cs).
  assert (Hgroup : forall commit name c,
             In c (group_of path (group_of ReviewData.commitKey outdated commit) name)
             <-> In c cs /\ ReviewData.hasPosition c = false
                 /\ ReviewData.commitKey c = commit /\ path c = name).
  { intros commit name c. rewrite !group_of_In. unfold outdated. rewrite filter_In.
    rewrite negb_true_iff. tauto. }
  split; [reflexivity|]. split; [reflexivity|].
  rewrite getLocalChangeNodes_map. split; [|split; [|split]].
  - rewrite map_map. apply map_ext. now intros [st name p h|st name].
  - intros f Hf. apply in_map_iff in Hf. destruct Hf as (change & <- & _).
    now destruct change.
  - intros n Hn. apply obsoleteFileChanges_In in Hn.
    destruct Hn as (commit & name & Hne & ->).
    eexists. exists commit. split; [reflexivity|]. split; [reflexivity|].
    split; [exact Hne|]. intros c. cbn [fc_comments fileName ReviewData.obsoleteFileChange].
    apply Hgroup.
  - intros c Hin Hpos.
    assert (Hc : In c (group_of path
                          (group_of ReviewData.commitKey outdated (ReviewData.commitKey c))
                          (path c))).
    { apply Hgroup. tauto. }
    exists (ReviewData.obsoleteFileChange P (ReviewData.commitKey c) (path c)
              (group_of path
                 (group_of ReviewData.commitKey outdated (ReviewData.commitKey c))
                 (path c))).
    split; [|split; [exact Hc|split; [reflexivity|split; [reflexivity|]]]].
    + apply obsoleteFileChanges_In. exists (ReviewData.commitKey c), (path c).
      split; [|reflexivity]. intros Hnil. rewrite Hnil in Hc. contradiction.
    + intros f' Hf' Hc'. apply obsoleteFileChanges_In in Hf'.
      destruct Hf' as (commit & name & _ & Heq). injection Heq as ->.
      cbn [fc_comments ReviewData.obsoleteFileChange] in Hc'.
      apply Hgroup in Hc'. destruct Hc' as (_ & _ & <- & <-). reflexivity.
Qed.

(** ** The identifiers of the projected threads *)

Lemma distinct_app {A} (l1 l2 : list A) :
  NoDup l1 -> NoDup l2 -> (forall x, In x l1 -> In x l2 -> False) -> NoDup (l1 ++ l2).
Proof.
  induction l1 as [|a l1 IH]; intros H1 H2 Hsep; [exact H2|].
  inversion H1 as [|? ? Ha H1']; subst. simpl. constructor.
  - rewrite in_app_iff. intros [Hin | Hin]; [contradiction|].
    apply (Hsep a); [now left | assumption].
  - apply IH; try assumption. intros x Hx. apply Hsep. now right.
Qed.

Lemma distinct_flat_map {A B C} (g : B -> C) (f : A -> list B) (l : list A) :
  NoDup l ->
  (forall x, In x l -> NoDup (map g (f x))) ->
  (forall x y b c, In x l -> In y l -> In b (f x) -> In c (f y) -> g b = g c -> x = y) ->
  NoDup (map g (flat_map f l)).
Proof.
  induction l as [|a l IH]; intros Hl Hin Hsep; simpl; [constructor|].
  inversion Hl as [|? ? Ha Hl']; subst.
  rewrite map_app. apply distinct_app.
  - apply Hin. now left.
  - apply IH; try assumption.
    + intros x Hx. apply Hin. now right.
    + intros x y b c Hx Hy. apply Hsep; now right.
  - intros z Hz1 Hz2. apply in_map_iff in Hz1, Hz2.
    destruct Hz1 as (b & Hb & Hb'). destruct Hz2 as (c & Hc & Hc').
    apply in_flat_map in Hc'. destruct Hc' as (y & Hy & Hc').
    apply Ha. rewrite (Hsep a y b c); try assumption; try (now left); try (now right).
    congruence.
Qed.

Lemma distinct_pairs {A B} (l : list (A * B)) : NoDup (map fst l) -> NoDup l.
Proof.
  induction l as [|x l IH]; intros H; [constructor|].
  inversion H as [|? ? Ha H']; subst. constructor; [|now apply IH].
  intros Hin. apply Ha. now apply in_map.
Qed.

(** A loop over the groups of [groupBy(comments, c => String(c.position))]
    that pushes for a group no thread or one thread whose id is the id of
    the first comment of the group builds threads of distinct ids, when
    the comments have distinct ids. *)
Lemma group_threads_distinct (f : string * list Comment -> list CommentThread)
      (cs : list Comment) :
  NoDup (map id cs) ->
  (forall k first rest,
      f (k, first :: rest) = []
      \/ exists t, f (k, first :: rest) = [t] /\ threadId t = JS.toString (id first)) ->
  NoDup (map threadId (flat_map f (Obj.for_in (groupBy cs positionKey)))).
Proof.
  intros Hids Hf.
  apply distinct_flat_map.
  - apply distinct_pairs, for_in_keys_NoDup, groupBy_NoDup.
  - intros [k g] Hin. apply groupBy_In in Hin. destruct Hin as [-> Hne].
    destruct (group_of positionKey cs k) as [|first rest]; [now contradiction Hne|].
    destruct (Hf k first rest) as [-> | (t & -> & _)]; simpl; repeat constructor; tauto.
  - intros [k1 g1] [k2 g2] b c H1 H2 Hb Hc Hbc.
    apply groupBy_In in H1, H2. destruct H1 as [-> Hne1]. destruct H2 as [-> Hne2].
    destruct (group_of positionKey cs k1) as [|first1 rest1] eqn:Hg1;
      [now contradiction Hne1|].
    destruct (group_of positionKey cs k2) as [|first2 rest2] eqn:Hg2;
      [now contradiction Hne2|].
    destruct (Hf k1 first1 rest1) as [H | (t1 & H & Hid1)]; rewrite H in Hb;
      [contradiction|].
    destruct (Hf k2 first2 rest2) as [H' | (t2 & H' & Hid2)]; rewrite H' in Hc;
      [contradiction|].
    destruct Hb as [<- | []]. destruct Hc as [<- | []].
    assert (Hin1 : In first1 (group_of positionKey cs k1)) by (rewrite Hg1; now left).
    assert (Hin2 : In first2 (group_of positionKey cs k2)) by (rewrite Hg2; now left).
    apply group_of_In in Hin1, Hin2. destruct Hin1 as [Hcs1 Hk1]. destruct Hin2 as [Hcs2 Hk2].
    assert (Heq : first1 = first2).
    { apply (NoDup_map_eq id cs); try assumption.
      apply toString_inj. congruence. }
    assert (Hk : k1 = k2) by congruence. congruence.
Qed.

(** What one group gives in [outdatedCommentsToCommentThreads]. *)
Lemma outdatedThreadOfGroup_items (fc : FileChange) (state : CommentThreadCollapsibleState)
      (k : string) (first : Comment) (rest : list Comment) :
  itemsOf (outdatedThreadOfGroup fc state (k, first :: rest)) = []
  \/ exists t,
       itemsOf (outdatedThreadOfGroup fc state (k, first :: rest)) = [t]
       /\ threadId t = JS.toString (id first)
       /\ resource t = filePath fc
       /\ exists c more, comments t = c :: more /\ threadId t = commentId c.
Proof.
  unfold outdatedThreadOfGroup. cbn [snd]. cbv zeta.
  match goal with |- context [andThen ?o _] => destruct o as [range_|msg] end;
    cbn [andThen itemsOf]; [right | now left].
  eexists. split; [reflexivity|]. cbn [threadId resource comments map].
  split; [|split; [reflexivity|]].
  - destruct (originalPosition first); [destruct (getDiffLineByPosition _ _)|]; reflexivity.
  - eexists. eexists. split; reflexivity.
Qed.

(** The three projections of comments into threads
    ([provideDocumentComments], [workspaceLocalCommentsToCommentThreads]
    and [outdatedCommentsToCommentThreads]) give, whenever they return,
    threads of distinct [threadId]s when the comments have distinct ids,
    so that the reconciliation finds at most one projected thread for an
    id; every thread has a comment, and its [threadId] is the id of its
    first comment. *)
Theorem projected_threads_distinct_ids :
  forall (E : Env) (cs : list Comment),
    NoDup (map id cs) ->
    (forall uri isBase fileChange inDraft info,
        provideDocumentComments E uri isBase fileChange cs inDraft = Returned (Some info) ->
        NoDup (map threadId (threads info))
        /\ forall t, In t (threads info) ->
                     resource t = uri
                     /\ exists c rest, comments t = c :: rest /\ threadId t = commentId c)
    /\ (forall fc state ts,
           workspaceLocalCommentsToCommentThreads E (Some fc) cs state = Returned ts ->
           NoDup (map threadId ts)
           /\ forall t, In t ts ->
                        collapsibleState t = state
                        /\ exists c rest, comments t = c :: rest /\ threadId t = commentId c)
    /\ (forall fc state ts,
           outdatedCommentsToCommentThreads fc cs state = Returned ts ->
           NoDup (map threadId ts)
           /\ forall t, In t ts ->
                        resource t = filePath fc
                        /\ exists c rest, comments t = c :: rest /\ threadId t = commentId c).
Proof.
  intros E cs Hids. split; [|split].
  - intros uri isBase fileChange inDraft info Hinfo.
    unfold provideDocumentComments in Hinfo.
    destruct fileChange as [[name|fc]|]; try discriminate.
    destruct (if isPartial fc then Returned [mkRange 0 0 0 0]
              else getCommentingRanges (fc_diffHunks fc) isBase) as [ranges|msg];
      cbn [andThen] in Hinfo; [|discriminate].
    destruct cs as [|c0 cs']; [injection Hinfo as <-; split; [constructor | intros t []]|].
    destruct (pushEach (documentThreadOfGroup E uri isBase fc)
                       (Obj.for_in (groupBy (c0 :: cs') positionKey)) []) as [ts|msg] eqn:Hts;
      cbn [andThen] in Hinfo; [|discriminate].
    injection Hinfo as <-. cbn [threads].
    apply pushEach_Returned in Hts. destruct Hts as [-> _]. cbn [app].
    set (f := fun section => itemsOf (documentThreadOfGroup E uri isBase fc section)).
    split.
    + apply (@group_threads_distinct f); [assumption|].
      intros k first rest. unfold f. rewrite documentThreadOfGroup_spec. cbn [itemsOf].
      destruct (_ <? 0)%Z; [now left|]. right. eexists. split; reflexivity.
    + intros t Ht. apply (@thread_of_some_group f) in Ht. destruct Ht as (k & Hne & Ht).
      destruct (group_of positionKey (c0 :: cs') k) as [|first rest];
        [now contradiction Hne|].
      unfold f in Ht. rewrite documentThreadOfGroup_spec in Ht. cbn [itemsOf] in Ht.
      destruct (_ <? 0)%Z; [contradiction|]. destruct Ht as [<- | []].
      split; [reflexivity|]. now exists (convertToVSCodeComment first None),
        (map (fun comment => convertToVSCodeComment comment None) rest).
  - intros fc state ts Hts. apply workspaceLocal_Returned in Hts. destruct Hts as [-> _].
    set (cmd := if GitChangeType_eqb (status fc) DELETE then Some "pr.viewChanges"%string
                else None).
    set (f := fun section => itemsOf (workspaceThreadOfGroup E cmd state section)).
    assert (Hf : forall k first rest,
               f (k, first :: rest) = []
               \/ f (k, first :: rest)
                  = [mkThread (JS.toString (id first)) (workspaceUri E first)
                              (let line := getZeroBased (absolutePosition_or_0 first) in
                               mkRange line 0 line 0)
                              (map (fun comment => convertToVSCodeComment comment cmd)
                                   (first :: rest))
                              state None]).
    { intros k first rest. unfold f. rewrite workspaceThreadOfGroup_spec.
      destruct (_ <? 0)%Z; [now left | now right]. }
    split.
    + apply (@group_threads_distinct f); [assumption|].
      intros k first rest. destruct (Hf k first rest) as [H | H]; [now left|].
      right. eexists. split; [exact H | reflexivity].
    + intros t Ht. apply (@thread_of_some_group f) in Ht. destruct Ht as (k & Hne & Ht).
      destruct (group_of positionKey cs k) as [|first rest];
        [now contradiction Hne|].
      destruct (Hf k first rest) as [H | H]; rewrite H in Ht; [contradiction|].
      destruct Ht as [<- | []]. split; [reflexivity|].
      eexists. eexists. split; reflexivity.
  - intros fc state ts Hts. unfold outdatedCommentsToCommentThreads in Hts.
    destruct cs as [|c0 cs']; [injection Hts as <-; split; [constructor | intros t []]|].
    apply pushEach_Returned in Hts. destruct Hts as [-> _]. cbn [app].
    set (f := fun section => itemsOf (outdatedThreadOfGroup fc state section)).
    split.
    + apply (@group_threads_distinct f); [assumption|].
      intros k first rest. unfold f.
      destruct (outdatedThreadOfGroup_items fc state k first rest)
        as [H | (t & H & Hid & _)]; [now left|].
      right. now exists t.
    + intros t Ht. apply (@thread_of_some_group f) in Ht. destruct Ht as (k & Hne & Ht).
      destruct (group_of positionKey (c0 :: cs') k) as [|first rest];
        [now contradiction Hne|].
      unfold f in Ht.
      destruct (outdatedThreadOfGroup_items fc state k first rest)
        as [H | (t0 & H & _ & Hres & Hcs)]; rewrite H in Ht; [contradiction|].
      destruct Ht as [<- | []]. split; assumption.
Qed.

(** ** The comments of a deleted review in the file changes *)

Lemma findIndex_map {A B} (f : A -> B) (p : B -> bool) (l : list A) :
  JS.findIndex (fun x => p (f x)) l = JS.findIndex p (map f l).
Proof.
  induction l as [|x l IH]; simpl; [reflexivity|]. now rewrite IH.
Qed.

Lemma update_nth_map {A B} (f : A -> B) (upd : A -> A) (i : nat) (l : list A) :
  (forall x, f (upd x) = f x) -> map f (Review.update_nth i upd l) = map f l.
Proof.
  intros H. revert i. induction l as [|x l IH]; intros [|i]; simpl; try reflexivity.
  - now rewrite H.
  - now rewrite IH.
Qed.

Lemma update_nth_at {A} (upd : A -> A) (i j : nat) (l : list A) (x : A) :
  nth_error l j = Some x ->
  nth_error (Review.update_nth i upd l) j = Some (if Nat.eqb i j then upd x else x).
Proof.
  intros Hx. destruct (Nat.eqb_spec i j) as [-> | Hne].
  - now rewrite update_nth_same, Hx.
  - rewrite update_nth_other by congruence. exact Hx.
Qed.

Lemma touch_first_names {A} (name : A -> string) (upd : A -> A) (l : list A) (k : string) :
  (forall x, name (upd x) = name x) ->
  map name (touch_first name upd l k) = map name l.
Proof.
  intros H. unfold touch_first.
  destruct (JS.findIndex _ l); [now apply update_nth_map | reflexivity].
Qed.

Lemma first_named_names {A} (name : A -> string) (l l' : list A) (i : nat) (x x' : A) :
  map name l' = map name l -> name x' = name x ->
  first_named name l' i x' = first_named name l i x.
Proof.
  intros Hl Hx. unfold first_named.
  rewrite (@findIndex_map _ _ name (fun n => String.eqb n (name x')) l').
  rewrite (@findIndex_map _ _ name (fun n => String.eqb n (name x)) l).
  now rewrite Hl, Hx.
Qed.

(** The loop [for (k in keys) { f = l.find(x => x.name === k); if (f) update f }]
    updates the elements that are the first of their name when a key is
    their name, and no other. *)
Lemma touch_first_fold {A} (name : A -> string) (upd : A -> A) (keys : list string) :
  (forall x, name (upd x) = name x) ->
  (forall x, upd (upd x) = upd x) ->
  forall (l : list A) (i : nat) (x : A),
    nth_error l i = Some x ->
    nth_error (fold_left (touch_first name upd) keys l) i
    = Some (if (existsb (String.eqb (name x)) keys && first_named name l i x)%bool
            then upd x else x).
Proof.
  intros Hname Hidem. induction keys as [|k keys IH]; intros l i x Hx; [exact Hx|].
  cbn [fold_left existsb].
  set (x1 := if (String.eqb (name x) k && first_named name l i x)%bool then upd x else x).
  assert (Hx1 : nth_error (touch_first name upd l k) i = Some x1).
  { unfold touch_first, x1, first_named.
    destruct (String.eqb_spec (name x) k) as [<- | Hne]; cbn [andb].
    - destruct (JS.findIndex (fun y => String.eqb (name y) (name x)) l) as [j|] eqn:Hj.
      + now apply update_nth_at.
      + exact Hx.
    - destruct (JS.findIndex (fun y => String.eqb (name y) k) l) as [j|] eqn:Hj;
        [|exact Hx].
      rewrite (@update_nth_at _ upd j _ _ _ Hx).
      destruct (Nat.eqb_spec j i) as [-> | _]; [|reflexivity].
      destruct (@findIndex_Some _ _ _ _ Hj) as (y & Hy & Hpy & _).
      rewrite Hx in Hy. injection Hy as <-. apply String.eqb_eq in Hpy. contradiction. }
  rewrite (@IH _ _ _ Hx1).
  assert (Hn1 : name x1 = name x) by (unfold x1; destruct (_ && _)%bool; auto).
  rewrite (@first_named_names _ name l (touch_first name upd l k) i x x1)
    by (auto using touch_first_names).
  rewrite Hn1. f_equal. unfold x1.
  destruct (String.eqb (name x) k), (existsb (String.eqb (name x)) keys),
    (first_named name l i x); cbn [andb orb]; auto.
Qed.

Lemma fold_left_keys {A K V} (f : A -> K -> A) (l : list (K * V)) (a : A) :
  fold_left (fun acc (e : K * V) => f acc (fst e)) l a = fold_left f (map fst l) a.
Proof.
  revert a. induction l as [|e l IH]; intros a; simpl; [reflexivity | apply IH].
Qed.

Lemma groupBy_path_keys (deleted : list Comment) (k : string) :
  existsb (String.eqb k) (map fst (Obj.for_in (groupBy deleted path)))
  = names_path deleted k.
Proof.
  unfold names_path. apply eq_true_iff_eq. rewrite !existsb_exists. split.
  - intros (k' & Hin & Hk). apply String.eqb_eq in Hk. subst k'.
    apply in_map_iff in Hin. destruct Hin as ([k' g] & Hk' & Hin). cbn [fst] in Hk'. subst k'.
    apply groupBy_In in Hin. destruct Hin as [-> Hne].
    destruct (group_of path deleted k) as [|d g] eqn:Hg; [now contradiction Hne|].
    assert (Hd : In d (group_of path deleted k)) by (rewrite Hg; now left).
    apply group_of_In in Hd. destruct Hd as [Hd Hp]. exists d. split; [assumption|].
    now apply String.eqb_eq.
  - intros (d & Hd & Hp). apply String.eqb_eq in Hp. exists k. split; [|apply String.eqb_refl].
    apply in_map_iff. exists (k, group_of path deleted k). split; [reflexivity|].
    apply groupBy_In. split; [reflexivity|]. intros Hnil.
    assert (Hin : In d (group_of path deleted k)) by (apply group_of_In; now split).
    rewrite Hnil in Hin. contradiction.
Qed.

Lemma update_nth_ext_at {A} (g h : A -> A) (i : nat) (l : list A) :
  (forall x, nth_error l i = Some x -> g x = h x) ->
  Review.update_nth i g l = Review.update_nth i h l.
Proof.
  revert i. induction l as [|x l IH]; intros [|i] H; simpl; try reflexivity.
  - now rewrite (H x eq_refl).
  - f_equal. apply IH. exact H.
Qed.

Lemma update_nth_id {A} (g : A -> A) (i : nat) (l : list A) :
  (forall x, nth_error l i = Some x -> g x = x) -> Review.update_nth i g l = l.
Proof.
  revert i. induction l as [|x l IH]; intros [|i] H; simpl; try reflexivity.
  - now rewrite (H x eq_refl).
  - f_equal. apply IH. exact H.
Qed.

Lemma inMemFirst_cons (n : FileChangeNode) (l : list FileChangeNode) (k : string) :
  inMemFirst (n :: l) k
  = if String.eqb (node_fileName n) k
    then match n with InMemFileChangeNode _ => true | RemoteFileChangeNode _ => false end
    else inMemFirst l k.
Proof.
  unfold inMemFirst. simpl. destruct (String.eqb (node_fileName n) k); [reflexivity|].
  now destruct (JS.findIndex _ l).
Qed.

Lemma inMemFirst_update (reviewId : Z) (l : list FileChangeNode) (j : nat) (k : string) :
  inMemFirst (Review.update_nth j (nodeWithoutReview reviewId) l) k = inMemFirst l k.
Proof.
  revert j. induction l as [|n l IH]; intros [|j]; simpl; try reflexivity.
  - rewrite !inMemFirst_cons. now destruct n.
  - rewrite !inMemFirst_cons. now rewrite IH.
Qed.

Lemma inMemFirst_touch (reviewId : Z) (l : list FileChangeNode) (p k : string) :
  inMemFirst (touch_first node_fileName (nodeWithoutReview reviewId) l p) k = inMemFirst l k.
Proof.
  unfold touch_first. destruct (JS.findIndex _ l); [apply inMemFirst_update | reflexivity].
Qed.

(** One turn of the loop of [deleteReview] of the pull request node. *)
Lemma deleteReview_path_step (reviewId : Z) (deleted : list Comment) (s : PRNode.State)
      (p : string) :
  PRNode.deleteReview_path reviewId deleted s p
  = let ms := if inMemFirst (PRNode._fileChanges s) p
              then Review.deleteReview_entry deleted
                     (PRNode._fileChangeCommentThreads s, PRNode.store s) p
              else (PRNode._fileChangeCommentThreads s, PRNode.store s) in
    PRNode.mkState
      (touch_first node_fileName (nodeWithoutReview reviewId) (PRNode._fileChanges s) p)
      (fst ms) (snd ms).
Proof.
  unfold PRNode.deleteReview_path, inMemFirst, touch_first.
  destruct (JS.findIndex _ (PRNode._fileChanges s)) as [i|] eqn:Hi;
    [|now destruct s].
  destruct (@findIndex_Some _ _ _ _ Hi) as (n & Hn & Hp & _). rewrite Hn.
  apply String.eqb_eq in Hp.
  destruct n as [name|f]; cbn [node_fileName] in Hp.
  - cbn [fst snd]. rewrite update_nth_id; [now destruct s|].
    intros x Hx. rewrite Hn in Hx. now injection Hx as <-.
  - subst p.
    assert (Hms : match Obj.get (PRNode._fileChangeCommentThreads s) (fileName f) with
                  | Some _ =>
                      Review.deleteReview_entry deleted
                        (PRNode._fileChangeCommentThreads s, PRNode.store s) (fileName f)
                  | None => (PRNode._fileChangeCommentThreads s, PRNode.store s)
                  end
                  = Review.deleteReview_entry deleted
                      (PRNode._fileChangeCommentThreads s, PRNode.store s) (fileName f)).
    { unfold Review.deleteReview_entry. cbn [fst snd].
      now destruct (Obj.get (PRNode._fileChangeCommentThreads s) (fileName f)). }
    rewrite Hms.
    destruct (Review.deleteReview_entry deleted _ (fileName f)) as [m st].
    cbn [fst snd]. f_equal. apply update_nth_ext_at.
    intros x Hx. rewrite Hn in Hx. now injection Hx as <-.
Qed.

Lemma deleteReview_paths_fold (reviewId : Z) (deleted : list Comment) (keys : list string) :
  forall s : PRNode.State,
    fold_left (PRNode.deleteReview_path reviewId deleted) keys s
    = let ms := fold_left (Review.deleteReview_entry deleted)
                          (filter (inMemFirst (PRNode._fileChanges s)) keys)
                          (PRNode._fileChangeCommentThreads s, PRNode.store s) in
      PRNode.mkState
        (fold_left (touch_first node_fileName (nodeWithoutReview reviewId)) keys
                   (PRNode._fileChanges s))
        (fst ms) (snd ms).
Proof.
  induction keys as [|k keys IH]; intros s; [now destruct s|].
  cbn [fold_left filter]. rewrite IH, deleteReview_path_step.
  cbn [PRNode._fileChanges PRNode._fileChangeCommentThreads PRNode.store].
  rewrite (filter_ext _ (inMemFirst (PRNode._fileChanges s)))
    by (intros a; apply inMemFirst_touch).
  destruct (inMemFirst (PRNode._fileChanges s) k); cbn [fold_left];
    [now destruct (Review.deleteReview_entry _ _ k) | reflexivity].
Qed.

(** [deleteReview] of the pull request node, when the remote deletion
    returns the deleted comments.  A file name is hit when a deleted
    comment has it as its path and the first file change of that name is
    held in memory.  The first file change of a hit name keeps the
    comments that do not belong to the deleted review, every other file
    change is as before.  The entry of a hit name in the map of live
    threads keeps, in order, its threads that still have a comment when
    the deleted ones are taken out, each of them pruned, and is deleted
    when there is none; the other entries are as before.  The threads that
    are emptied are disposed, and no other thread is. *)
Theorem PRNode_deleteReview_prunes :
  forall (R : Remote) (s : PRNode.State) (reviewId : Z) (deleted : list Comment),
    remote_deleteReview R = Returned (reviewId, deleted) ->
    NoDup (Obj.keys (PRNode._fileChangeCommentThreads s)) ->
    let s' := fst (PRNode.deleteReview R s) in
    let hit := fun k => (names_path deleted k && inMemFirst (PRNode._fileChanges s) k)%bool in
    snd (PRNode.deleteReview R s) = Returned tt
    /\ (forall i n,
           nth_error (PRNode._fileChanges s) i = Some n ->
           nth_error (PRNode._fileChanges s') i
           = Some (if (names_path deleted (node_fileName n)
                       && first_named node_fileName (PRNode._fileChanges s) i n)%bool
                   then nodeWithoutReview reviewId n else n))
    /\ (forall k, Obj.get (PRNode._fileChangeCommentThreads s') k
                  = if hit k
                    then prunedEntry deleted (PRNode.store s)
                                     (Obj.get (PRNode._fileChangeCommentThreads s) k)
                    else Obj.get (PRNode._fileChangeCommentThreads s) k)
    /\ (forall k ths r,
           hit k = true ->
           Obj.get (PRNode._fileChangeCommentThreads s) k = Some ths -> In r ths ->
           Store.read (PRNode.store s') r = pruned deleted (Store.read (PRNode.store s) r))
    /\ prunes deleted (PRNode.store s) (PRNode.store s')
    /\ (forall r, In r (Store.disposed (PRNode.store s')) <->
                  In r (Store.disposed (PRNode.store s))
                  \/ exists k ths,
                       hit k = true
                       /\ Obj.get (PRNode._fileChangeCommentThreads s) k = Some ths
                       /\ In r ths
                       /\ keeps deleted (PRNode.store s) r = false).
Proof.
  intros R s reviewId deleted Hremote Hnd s' hit.
  assert (Hrun : PRNode.deleteReview R s
                 = (fold_left (PRNode.deleteReview_path reviewId deleted)
                              (map fst (Obj.for_in (groupBy deleted path))) s,
                    Returned tt)).
  { unfold PRNode.deleteReview, bind, await, modify. now rewrite Hremote. }
  unfold s'. rewrite Hrun. cbn [fst snd]. rewrite deleteReview_paths_fold. cbv zeta.
  cbn [PRNode._fileChanges PRNode._fileChangeCommentThreads PRNode.store].
  set (keys := map fst (Obj.for_in (groupBy deleted path))).
  set (m := PRNode._fileChangeCommentThreads s). set (st := PRNode.store s).
  assert (Hkeys : forall k, In k (List.rev (filter (inMemFirst (PRNode._fileChanges s)) keys))
                            <-> hit k = true).
  { intros k. rewrite <- in_rev, filter_In. unfold hit, keys.
    rewrite andb_true_iff, <- groupBy_path_keys, existsb_exists.
    split.
    - intros [Hin Hf]. split; [|assumption]. exists k. split; [assumption|].
      apply String.eqb_refl.
    - intros [(k' & Hin & Hk) Hf]. apply String.eqb_eq in Hk. subst k'. now split. }
  assert (Hinit : visitedPruned deleted st m (Store.disposed st) [] m st).
  { repeat split; try assumption; try contradiction.
    - apply prunes_refl.
    - intros H. now left.
    - intros [H | (k & ths & [] & _)]. assumption. }
  pose proof (@visitedPruned_fold deleted st m (Store.disposed st)
                (filter (inMemFirst (PRNode._fileChanges s)) keys) [] m st Hinit)
    as (_ & Hprunes & Hvis & Hnot & Hdisp).
  rewrite app_nil_r in *.
  split; [reflexivity|]. split; [|split; [|split; [|split]]].
  - intros i n Hn.
    rewrite (@touch_first_fold _ node_fileName (nodeWithoutReview reviewId) keys
               (fun x => ltac:(now destruct x)) (fun x => ltac:(destruct x; [reflexivity|]; unfold nodeWithoutReview, withoutReview; cbn [set_fc_comments fc_comments]; now rewrite filter_idem))
               _ _ _ Hn).
    unfold keys. now rewrite groupBy_path_keys.
  - intros k. destruct (hit k) eqn:Hhit.
    + apply Hkeys in Hhit. now destruct (Hvis k Hhit).
    + apply Hnot. intros Hin. apply Hkeys in Hin. congruence.
  - intros k ths r Hhit Hget Hr. apply Hkeys in Hhit.
    destruct (Hvis k Hhit) as [_ Hd]. now apply (Hd ths).
  - exact Hprunes.
  - intros r. rewrite Hdisp. split.
    + intros [H | (k & ths & Hk & Hrest)]; [now left | right].
      exists k, ths. split; [now apply Hkeys | assumption].
    + intros [H | (k & ths & Hk & Hrest)]; [now left | right].
      exists k, ths. split; [now apply Hkeys | assumption].
Qed.


(** ** [deleteDraft] of the event-emitter revision *)

Lemma deleteDraft_files_fold (reviewId : Z) (groups : list (string * list Comment)) :
  forall files : list FileChange,
    fold_left
      (fun files (group : string * list Comment) =>
         match JS.findIndex (fun fileChange => String.eqb (fileName fileChange) (fst group))
                            files with
         | Some i =>
             Review.update_nth i
               (fun matchedFile =>
                  set_fc_comments matchedFile
                    (filter (fun comment =>
                               negb (match pullRequestReviewId comment with
                                     | Some r => (r =? reviewId)%Z
                                     | None => false
                                     end))
                            (fc_comments matchedFile)))
               files
         | None => files
         end)
      groups files
    = fold_left (touch_first fileName (withoutReview reviewId)) (map fst groups) files.
Proof.
  induction groups as [|g groups IH]; intros files; [reflexivity|].
  cbn [fold_left map]. rewrite IH. reflexivity.
Qed.

(** [deleteDraft] without an active pull request throws and leaves the
    provider as it was.  When the remote deletion returns the deleted
    comments and the threads of the comments before the deletion can be
    built, the event has no added thread and the draft mode [false]; these
    threads are each reported once, without the deleted comments: as
    removed when no comment is left, as changed otherwise, also when the
    thread lost no comment.  The flat list keeps the comments whose id is
    not the id of a deleted comment.  The first file change named by the
    path of a deleted comment keeps the comments that do not belong to the
    deleted review; every other file change, also a later one of the same
    name, is as before.  When the threads cannot be built (a position is
    negative), [deleteDraft] throws after the remote deletion and the
    provider still holds the deleted comments. *)
Theorem deleteDraft_reports_every_thread :
  forall (E : Env) (R : Remote) (s : ReviewEvents.State),
    ReviewEvents.deleteDraft E R false s = (s, Threw "Unable to find active pull request")
    /\ forall (reviewId : Z) (deleted : list Comment),
        remote_deleteReview R = Returned (reviewId, deleted) ->
        (forall olds : list CommentThread,
            ReviewEvents.allCommentsToCommentThreads
              E s (ReviewEvents._comments s) Expanded = Returned olds ->
            let emptied := fun t : CommentThread =>
                             match Review.survivors deleted (comments t) with
                             | [] => true
                             | _ :: _ => false
                             end in
            exists (ev : ReviewEvents.CommentThreadChangedEvent) (s' : ReviewEvents.State),
              ReviewEvents.deleteDraft E R true s = (s', Returned ev)
              /\ ReviewEvents.added ev = []
              /\ ReviewEvents.removed ev = map (pruned deleted) (filter emptied olds)
              /\ ReviewEvents.changed ev
                 = map (pruned deleted) (filter (fun t => negb (emptied t)) olds)
              /\ ReviewEvents.draftMode ev = false
              /\ ReviewEvents._comments s'
                 = filter (fun c => negb (existsb (fun d => (id d =? id c)%Z) deleted))
                          (ReviewEvents._comments s)
              /\ (forall i f,
                     nth_error (ReviewEvents._localFileChanges s) i = Some f ->
                     nth_error (ReviewEvents._localFileChanges s') i
                     = Some (if (names_path deleted (fileName f)
                                 && first_named fileName (ReviewEvents._localFileChanges s)
                                                i f)%bool
                             then withoutReview reviewId f else f)))
        /\ (forall msg : string,
               ReviewEvents.allCommentsToCommentThreads
                 E s (ReviewEvents._comments s) Expanded = Threw msg ->
               ReviewEvents.deleteDraft E R true s = (s, Threw msg)).
Proof.
  intros E R s. split; [reflexivity|].
  intros reviewId deleted Hremote. split.
  - intros olds Holds emptied.
    unfold ReviewEvents.deleteDraft, bind, await, call, modify, get, ret. cbv beta iota.
    rewrite Hremote. cbv beta iota zeta. rewrite Holds. cbv beta iota. cbn [fst snd].
    eexists _, _. split; [reflexivity|].
    cbn [ReviewEvents.added ReviewEvents.removed ReviewEvents.changed
         ReviewEvents.draftMode ReviewEvents._comments ReviewEvents._localFileChanges].
    split; [reflexivity|]. split; [|split; [|split; [reflexivity|split; [reflexivity|]]]].
    + clear Holds. induction olds as [|t olds IH]; [reflexivity|].
      cbn [map filter]. unfold emptied at 1. cbn [comments set_comments].
      destruct t as [tid u rg cs st dm]. cbn [comments set_comments].
      destruct (Review.survivors deleted cs) eqn:Hs; cbn [map]; rewrite IH.
      * unfold pruned. cbn [comments set_comments]. now rewrite Hs.
      * reflexivity.
    + clear Holds. induction olds as [|t olds IH]; [reflexivity|].
      cbn [map filter]. unfold emptied at 1.
      destruct t as [tid u rg cs st dm]. cbn [comments set_comments].
      destruct (Review.survivors deleted cs) eqn:Hs; cbn [map negb]; rewrite IH.
      * reflexivity.
      * unfold pruned. cbn [comments set_comments]. now rewrite Hs.
    + intros i f Hf. rewrite deleteDraft_files_fold.
      rewrite (@touch_first_fold _ fileName (withoutReview reviewId) _
                 (fun x => eq_refl)
                 (fun x => ltac:(unfold withoutReview, set_fc_comments; cbn [fc_comments]; now rewrite filter_idem))
                 _ _ _ Hf).
      now rewrite groupBy_path_keys.
  - intros msg Holds.
    unfold ReviewEvents.deleteDraft, bind, await, call, modify, get, ret. cbv beta iota.
    rewrite Hremote. cbv beta iota zeta. now rewrite Holds.
Qed.

(** ** The event of [updateComments] *)

Lemma filter_none_existsb {A} (p : A -> bool) (l : list A) :
  filter p l = [] <-> existsb p l = false.
Proof.
  induction l as [|x l IH]; simpl; [tauto|].
  destruct (p x); simpl; [split; discriminate | exact IH].
Qed.

Lemma removedThreads_filter (olds news : list CommentThread) :
  ReviewEvents.removedThreads olds news = filter (fun t => negb (sharesId news t)) olds.
Proof.
  unfold ReviewEvents.removedThreads.
  rewrite (@fold_left_push_gen _ _ _
             (fun t => if negb (sharesId news t) then [t] else []) olds []).
  - cbn [app]. rewrite flat_map_single. now rewrite map_id.
  - intros acc t. unfold sharesId.
    destruct (filter (fun newThread => String.eqb (threadId newThread) (threadId t)) news)
      as [|x xs] eqn:Hf.
    + apply filter_none_existsb in Hf. now rewrite Hf.
    + destruct (existsb _ news) eqn:He; cbn [negb]; [now rewrite app_nil_r|].
      apply filter_none_existsb in He. congruence.
Qed.

Lemma changed_loop_In (c : CommentThread -> bool) (thread : CommentThread)
      (matching : list CommentThread) :
  forall (init : list CommentThread) (t : CommentThread),
    In t (fold_left (fun changed match_ => if c match_ then changed ++ [thread] else changed)
                    matching init) ->
    In t init \/ (t = thread /\ matching <> []).
Proof.
  induction matching as [|m matching IH]; intros init t Ht; [now left|].
  cbn [fold_left] in Ht. apply IH in Ht. destruct Ht as [Ht | [Ht _]].
  - destruct (c m); [|now left]. apply in_app_or in Ht. destruct Ht as [Ht | [<- | []]].
    + now left.
    + right. split; [reflexivity | discriminate].
  - right. split; [assumption | discriminate].
Qed.

Lemma addedAndChanged_spec (olds news : list CommentThread) :
  fst (ReviewEvents.addedAndChanged olds news)
  = map collapsedOnFile (filter (fun t => negb (sharesId olds t)) news)
  /\ forall t, In t (snd (ReviewEvents.addedAndChanged olds news)) ->
               In t news /\ sharesId olds t = true.
Proof.
  unfold ReviewEvents.addedAndChanged.
  match goal with |- context [fold_left ?F news ([], [])] => set (F0 := F) end.
  assert (Hgen : forall l acc,
             fst (fold_left F0 l acc)
             = fst acc ++ map collapsedOnFile (filter (fun t => negb (sharesId olds t)) l)
             /\ forall t, In t (snd (fold_left F0 l acc)) ->
                          In t (snd acc) \/ (In t l /\ sharesId olds t = true)).
  { induction l as [|n l IH]; intros acc.
    - cbn [fold_left filter map]. rewrite app_nil_r. split; [reflexivity | now left].
    - cbn [fold_left]. destruct (IH (F0 acc n)) as [Hadd Hch]. split.
      + rewrite Hadd. unfold F0. cbv zeta. cbn [fst filter]. unfold sharesId at 2.
        destruct (filter (fun oldComment => String.eqb (threadId oldComment) (threadId n)) olds)
          as [|x xs] eqn:Hf.
        * apply filter_none_existsb in Hf. rewrite Hf. cbn [negb map].
          rewrite <- app_assoc. reflexivity.
        * destruct (existsb _ olds) eqn:He; cbn [negb]; [reflexivity|].
          apply filter_none_existsb in He. congruence.
      + intros t Ht. apply Hch in Ht. destruct Ht as [Ht | [Ht Hs]].
        * unfold F0 in Ht. cbv zeta in Ht. cbn [snd] in Ht.
          apply changed_loop_In in Ht. destruct Ht as [Ht | [Ht Hne]]; [now left|].
          right.
          destruct (filter (fun oldComment => String.eqb (threadId oldComment) (threadId n))
                           olds) as [|x xs] eqn:Hf; [now contradiction Hne|].
          subst t. split; [now left|]. unfold sharesId.
          destruct (existsb _ olds) eqn:He; [reflexivity|].
          apply filter_none_existsb in He. congruence.
        * right. split; [now right | assumption]. }
  destruct (Hgen news ([], [])) as [Hadd Hch]. split; [exact Hadd|].
  intros t Ht. apply Hch in Ht. destruct Ht as [[] | Ht]. exact Ht.
Qed.

(** [updateComments] compares the threads of the comments it holds with the
    threads of the comments it is given, by thread id (both lists of
    threads can be built).  When it returns with an event, the draft mode
    of the event is the answer of the remote query; the removed threads
    are the old threads whose id no new thread carries, in their order; the
    added threads are the new threads whose id no old thread carries, in
    their order, collapsed when they are on a file of the workspace; every
    changed thread is a new thread whose id an old thread carries, so that
    no thread is reported as added and as changed; the flat list becomes
    the given comments and every file change holds the given comments of
    its path that have a position.  When it returns without an event,
    every old thread has a new thread of its id and every new thread an
    old one, and the provider is left as it was: the given comments are
    not stored.  When there is something to report and the query of the
    draft mode fails, it throws, no event is fired and nothing is stored;
    whenever it throws the provider is left as it was. *)
Theorem updateComments_event_by_thread_id :
  forall (E : Env) (R : Remote) (cs : list Comment) (s : ReviewEvents.State),
    (forall olds news : list CommentThread,
        ReviewEvents.allCommentsToCommentThreads
          E s (ReviewEvents._comments s) Expanded = Returned olds ->
        ReviewEvents.allCommentsToCommentThreads E s cs Expanded = Returned news ->
        let silent :=
          (forall t, In t olds -> sharesId news t = true)
          /\ (forall t, In t news -> sharesId olds t = true) in
        (forall (ev : ReviewEvents.CommentThreadChangedEvent) (s' : ReviewEvents.State),
            ReviewEvents.updateComments E R cs s = (s', Returned (Some ev)) ->
            remote_inDraftMode R = Returned (ReviewEvents.draftMode ev)
            /\ ReviewEvents.removed ev = filter (fun t => negb (sharesId news t)) olds
            /\ ReviewEvents.added ev
               = map collapsedOnFile (filter (fun t => negb (sharesId olds t)) news)
            /\ (forall t, In t (ReviewEvents.changed ev) ->
                          In t news /\ sharesId olds t = true)
            /\ ReviewEvents._comments s' = cs
            /\ ReviewEvents._localFileChanges s'
               = map (fun change =>
                        set_fc_comments change
                          (filter (fun comment =>
                                     (String.eqb (fileName change) (path comment)
                                      && match position comment with
                                         | Some _ => true
                                         | None => false
                                         end)%bool) cs))
                     (ReviewEvents._localFileChanges s))
        /\ (forall s' : ReviewEvents.State,
               ReviewEvents.updateComments E R cs s = (s', Returned None) ->
               s' = s /\ silent)
        /\ (forall msg : string,
               remote_inDraftMode R = Threw msg ->
               ReviewEvents.updateComments E R cs s = (s, Returned None)
               \/ ReviewEvents.updateComments E R cs s = (s, Threw msg)))
    /\ (forall (s' : ReviewEvents.State) (msg : string),
           ReviewEvents.updateComments E R cs s = (s', Threw msg) -> s' = s).
Proof.
  intros E R cs s. split.
  2:{ intros s' msg Hrun. exact (@updateComments_state _ _ _ _ _ _ Hrun). }
  intros olds news Holds Hnews silent.
  pose proof (removedThreads_filter olds news) as Hrem.
  destruct (addedAndChanged_spec olds news) as [Hadd Hch].
  unfold ReviewEvents.updateComments, bind, get, call, await, modify, ret. cbv beta iota.
  rewrite Holds, Hnews. cbv beta iota zeta.
  set (added := fst (ReviewEvents.addedAndChanged olds news)) in *.
  set (changed := snd (ReviewEvents.addedAndChanged olds news)) in *.
  set (removed := ReviewEvents.removedThreads olds news) in *.
  assert (Hnone : forall {A} (p : A -> bool) (l : list A),
             filter (fun t => negb (p t)) l = [] -> forall t, In t l -> p t = true).
  { intros A p l Hf t Ht. destruct (p t) eqn:Hp; [reflexivity|].
    assert (Hin : In t (filter (fun t => negb (p t)) l))
      by (apply filter_In; split; [assumption | now rewrite Hp]).
    rewrite Hf in Hin. contradiction. }
  assert (Hfire :
            forall (ev : ReviewEvents.CommentThreadChangedEvent) (s' : ReviewEvents.State),
              match remote_inDraftMode R with
              | Returned a =>
                  (ReviewEvents.mkState
                     (map (fun change =>
                             set_fc_comments change
                               (filter (fun comment =>
                                          (String.eqb (fileName change) (path comment)
                                           && match position comment with
                                              | Some _ => true
                                              | None => false
                                              end)%bool) cs))
                          (ReviewEvents._localFileChanges s)) cs,
                   Returned (Some (ReviewEvents.mkEvent added removed changed a)))
              | Threw msg0 => (s, Threw msg0)
              end = (s', Returned (Some ev)) ->
              remote_inDraftMode R = Returned (ReviewEvents.draftMode ev)
              /\ ReviewEvents.removed ev = filter (fun t => negb (sharesId news t)) olds
              /\ ReviewEvents.added ev
                 = map collapsedOnFile (filter (fun t => negb (sharesId olds t)) news)
              /\ (forall t, In t (ReviewEvents.changed ev) ->
                            In t news /\ sharesId olds t = true)
              /\ ReviewEvents._comments s' = cs
              /\ ReviewEvents._localFileChanges s'
                 = map (fun change =>
                          set_fc_comments change
                            (filter (fun comment =>
                                       (String.eqb (fileName change) (path comment)
                                        && match position comment with
                                           | Some _ => true
                                           | None => false
                                           end)%bool) cs))
                       (ReviewEvents._localFileChanges s)).
  { intros ev s'. destruct (remote_inDraftMode R) as [a|m]; [|discriminate].
    intros [= <- <-].
    cbn [ReviewEvents.removed ReviewEvents.added ReviewEvents.changed ReviewEvents.draftMode
         ReviewEvents._comments ReviewEvents._localFileChanges].
    repeat split; try assumption; now apply Hch. }
  split; [|split].
  - intros ev s'. destruct added, removed, changed; try (apply Hfire); discriminate.
  - intros s' Hrun.
    assert (Hall : added = [] /\ removed = [] /\ changed = [] /\ s' = s).
    { destruct added, removed, changed;
        try (destruct (remote_inDraftMode R); discriminate Hrun).
      injection Hrun as <-. now repeat split. }
    destruct Hall as (Ha & Hr & _ & ->). split; [reflexivity|]. split.
    + apply Hnone. now rewrite <- Hrem.
    + assert (Hf : filter (fun t => negb (sharesId olds t)) news = []).
      { rewrite Ha in Hadd. symmetry in Hadd. now apply map_eq_nil in Hadd. }
      exact (Hnone _ _ _ Hf).
  - intros msg Hdraft. rewrite Hdraft.
    destruct added, removed, changed; (now left) || (now right).
Qed.

(** ** The reconciliation of the pull request node *)

Lemma disposeOld_all (olds : list nat) (news : list CommentThread) :
  forall st : Store.t,
    PRNode.disposeOld olds (Some news) st
    = Store.mk (Store.heap st) (Store.next st) (Store.disposed st ++ olds).
Proof.
  unfold PRNode.disposeOld. induction olds as [|r olds IH]; intros st.
  - cbn [fold_left]. rewrite app_nil_r. now destruct st.
  - cbn [fold_left option_map]. rewrite IH. unfold Store.dispose.
    cbn [Store.heap Store.next Store.disposed]. now rewrite <- app_assoc.
Qed.

Lemma sameThreadIds_refl (st : Store.t) : sameThreadIds st st.
Proof. repeat split. Qed.

Lemma sameThreadIds_trans (a b c : Store.t) :
  sameThreadIds a b -> sameThreadIds b c -> sameThreadIds a c.
Proof.
  intros (Hn1 & Hd1 & Hi1) (Hn2 & Hd2 & Hi2).
  split; [congruence | split; [congruence | intros r; now rewrite Hi2]].
Qed.

Lemma assign_loop_ids (c : Store.t -> nat -> bool) (cs : list VSComment)
      (matching : list nat) :
  forall st : Store.t,
    sameThreadIds st
      (fold_left (fun st match_ =>
                    if c st match_
                    then Store.write match_ (set_comments (Store.read st match_) cs) st
                    else st) matching st).
Proof.
  induction matching as [|m matching IH]; intros st; [apply sameThreadIds_refl|].
  cbn [fold_left]. eapply sameThreadIds_trans; [|apply IH].
  destruct (c st m); [|apply sameThreadIds_refl].
  repeat split. intros r. unfold Store.read, Store.write. cbn [Store.heap].
  destruct (Nat.eqb r m) eqn:Hr; [|reflexivity].
  apply Nat.eqb_eq in Hr. subst r. now destruct (Store.heap st m).
Qed.

Lemma isNewFor_ids (st st' : Store.t) (olds : list nat) (t : CommentThread) :
  sameThreadIds st st' -> isNewFor st' olds t = isNewFor st olds t.
Proof.
  intros (_ & _ & Hids). unfold isNewFor. f_equal.
  induction olds as [|r olds IH]; [reflexivity|]. cbn [existsb]. now rewrite Hids, IH.
Qed.

Lemma addOrUpdate_fold (olds : list nat) (news : list CommentThread) :
  forall (acc : list CommentThread) (st : Store.t),
    fst (fold_left (PRNode.addOrUpdate olds) news (acc, st))
    = acc ++ map collapsedOnFile (filter (isNewFor st olds) news)
    /\ sameThreadIds st (snd (fold_left (PRNode.addOrUpdate olds) news (acc, st))).
Proof.
  induction news as [|n news IH]; intros acc st.
  - cbn [fold_left filter map fst snd]. rewrite app_nil_r.
    split; [reflexivity | apply sameThreadIds_refl].
  - cbn [fold_left].
    rewrite (surjective_pairing (PRNode.addOrUpdate olds (acc, st) n)).
    destruct (IH (fst (PRNode.addOrUpdate olds (acc, st) n))
                 (snd (PRNode.addOrUpdate olds (acc, st) n))) as [Hadd Hids].
    assert (Hstep : sameThreadIds st (snd (PRNode.addOrUpdate olds (acc, st) n))).
    { unfold PRNode.addOrUpdate. cbv zeta. cbn [fst snd].
      apply (assign_loop_ids
               (fun st0 match_ =>
                  (negb (Nat.eqb (List.length (comments (Store.read st0 match_))) _)
                   || commentsEditedInThread _ _)%bool)). }
    split.
    + rewrite Hadd. rewrite (filter_ext _ _ (fun t => isNewFor_ids olds t Hstep)).
      unfold PRNode.addOrUpdate at 1. cbv zeta. cbn [fst snd filter]. unfold isNewFor at 2.
      destruct (filter (fun oldComment =>
                          String.eqb (threadId (Store.read st oldComment)) (threadId n)) olds)
        as [|x xs] eqn:Hf.
      * apply filter_none_existsb in Hf. rewrite Hf. cbn [negb map].
        rewrite <- app_assoc. reflexivity.
      * destruct (existsb _ olds) eqn:He; cbn [negb]; [reflexivity|].
        apply filter_none_existsb in He. congruence.
    + eapply sameThreadIds_trans; [exact Hstep | exact Hids].
Qed.

Lemma createAll_fold (inDraftMode : bool) (descriptors : list CommentThread) :
  forall (acc : list nat) (st : Store.t),
    let res := fold_left (fun (acc : list nat * Store.t) thread =>
                            let '(r, st') := createVSCodeCommentThread thread inDraftMode
                                                                       (snd acc) in
                            (fst acc ++ [r], st'))
                         descriptors (acc, st) in
    fst res = acc ++ seq (Store.next st) (List.length descriptors)
    /\ Store.disposed (snd res) = Store.disposed st
    /\ (forall r, r < Store.next st -> Store.read (snd res) r = Store.read st r)
    /\ (forall i t, nth_error descriptors i = Some t ->
                    threadId (Store.read (snd res) (Store.next st + i)) = threadId t
                    /\ comments (Store.read (snd res) (Store.next st + i)) = comments t).
Proof.
  induction descriptors as [|d descriptors IH]; intros acc st res.
  - subst res. cbn [fold_left fst snd seq List.length]. rewrite app_nil_r.
    repeat split; try reflexivity; destruct i; discriminate.
  - subst res. cbn [fold_left fst snd].
    unfold createVSCodeCommentThread at 2. unfold Store.alloc.
    match goal with
    | |- context [fold_left _ descriptors (?a, ?st1)] =>
        destruct (IH a st1) as (Hrefs & Hdisp & Hold & Hnew)
    end.
    cbn [Store.next Store.disposed] in Hrefs, Hdisp, Hold, Hnew.
    split; [|split; [|split]].
    + rewrite Hrefs. cbn [List.length seq]. now rewrite <- app_assoc.
    + exact Hdisp.
    + intros r Hr. rewrite Hold by lia. unfold Store.read. cbn [Store.heap].
      destruct (Nat.eqb r (Store.next st)) eqn:He; [|reflexivity].
      apply Nat.eqb_eq in He. lia.
    + intros [|i] t Ht.
      * cbn [nth_error] in Ht. injection Ht as <-. rewrite Nat.add_0_r.
        rewrite Hold by lia. unfold Store.read. cbn [Store.heap].
        rewrite Nat.eqb_refl. split; reflexivity.
      * cbn [nth_error] in Ht. replace (Store.next st + S i) with (S (Store.next st) + i) by lia.
        now apply Hnew.
Qed.

Lemma collapsedOnFile_fields (t : CommentThread) :
  threadId (collapsedOnFile t) = threadId t /\ comments (collapsedOnFile t) = comments t.
Proof.
  unfold collapsedOnFile. destruct (String.eqb _ _); split; reflexivity.
Qed.

(** [updateFileChangeCommentThreads] of the pull request node, given the
    new threads of one side of a file.  It calls [dispose()] on every old
    thread of that side, in order, also on the threads that a new thread
    matches by id, and on no other thread.  It leaves the file changes as
    they are and no thread changes its id.  The new threads whose id no old
    thread carries are created, in order; when there is one, the entry of
    the file in the map of live threads is replaced by the created threads
    alone, and otherwise the map is left as it was, so that the disposed
    threads stay in it. *)
Theorem PRNode_reconciliation_disposes_every_old_thread :
  forall (oldCommentThreads : list nat) (newCommentThreads : list CommentThread)
         (newFileChange : FileChange) (inDraftMode : bool) (s : PRNode.State),
    let s' := PRNode.updateFileChangeCommentThreads
                oldCommentThreads (Some newCommentThreads) newFileChange inDraftMode s in
    let added := filter (isNewFor (PRNode.store s) oldCommentThreads) newCommentThreads in
    let first := Store.next (PRNode.store s) in
    Store.disposed (PRNode.store s')
    = (Store.disposed (PRNode.store s) ++ oldCommentThreads)%list
    /\ PRNode._fileChanges s' = PRNode._fileChanges s
    /\ PRNode._fileChangeCommentThreads s'
       = match added with
         | [] => PRNode._fileChangeCommentThreads s
         | _ :: _ => Obj.set (PRNode._fileChangeCommentThreads s) (fileName newFileChange)
                             (seq first (List.length added))
         end
    /\ (forall r, r < first ->
                  threadId (Store.read (PRNode.store s') r)
                  = threadId (Store.read (PRNode.store s) r))
    /\ (forall i t, nth_error added i = Some t ->
                    threadId (Store.read (PRNode.store s') (first + i)) = threadId t
                    /\ comments (Store.read (PRNode.store s') (first + i)) = comments t).
Proof.
  intros olds news newFile draft s s' added first.
  set (st1 := Store.mk (Store.heap (PRNode.store s)) (Store.next (PRNode.store s))
                       (Store.disposed (PRNode.store s) ++ olds)).
  assert (Hnew1 : forall t, isNewFor st1 olds t = isNewFor (PRNode.store s) olds t)
    by reflexivity.
  destruct news as [|n news].
  - subst s' added. unfold PRNode.updateFileChangeCommentThreads. cbv zeta.
    rewrite disposeOld_all.
    cbn [filter PRNode.store PRNode._fileChanges PRNode.set_store
         PRNode._fileChangeCommentThreads Store.disposed].
    repeat split; try reflexivity; destruct i; discriminate.
  - destruct (addOrUpdate_fold olds (n :: news) [] st1) as [Hadd (Hn & Hd & Hids)].
    cbn [app] in Hadd. rewrite (filter_ext _ _ Hnew1) in Hadd. fold added in Hadd.
    subst s'. unfold PRNode.updateFileChangeCommentThreads. cbv zeta.
    rewrite disposeOld_all. unfold PRNode.set_store.
    cbn [PRNode._fileChanges PRNode._fileChangeCommentThreads PRNode.store].
    fold st1.
    destruct (fold_left (PRNode.addOrUpdate olds) (n :: news) ([], st1)) as [added' st2].
    cbn [fst snd] in Hadd, Hn, Hd, Hids. subst added'.
    cbn [Store.next Store.disposed st1] in Hn, Hd.
    destruct added as [|a added].
    + cbn [map PRNode.store PRNode._fileChanges PRNode._fileChangeCommentThreads].
      split; [exact Hd|]. split; [reflexivity|]. split; [reflexivity|]. split.
      * intros r _. apply Hids.
      * intros i t Ht. destruct i; discriminate.
    + cbn [map]. unfold PRNode.createCommentThread, createAll.
      cbn [PRNode.store PRNode._fileChanges PRNode._fileChangeCommentThreads].
      pose proof (@createAll_fold draft (map collapsedOnFile (a :: added)) [] st2)
        as Hcreate.
      cbv zeta in Hcreate. cbn [map] in Hcreate.
      destruct (fold_left _ (collapsedOnFile a :: map collapsedOnFile added) ([], st2))
        as [refs st3].
      cbn [fst snd app] in Hcreate. destruct Hcreate as (Hrefs & Hdisp & Hold & Hcreated).
      cbn [PRNode.store PRNode._fileChanges PRNode._fileChangeCommentThreads].
      rewrite Hn in *.
      split; [now rewrite Hdisp|]. split; [reflexivity|]. split; [|split].
      * rewrite Hrefs. cbn [List.length]. now rewrite length_map.
      * intros r Hr. rewrite Hold by exact Hr. apply Hids.
      * intros i t Ht.
        assert (Ht' : nth_error (collapsedOnFile a :: map collapsedOnFile added) i
                      = Some (collapsedOnFile t)).
        { change (nth_error (map collapsedOnFile (a :: added)) i = Some (collapsedOnFile t)).
          now rewrite nth_error_map, Ht. }
        destruct (Hcreated i _ Ht') as [Hid Hcs].
        destruct (collapsedOnFile_fields t) as [Hid' Hcs'].
        unfold first. split; congruence.
Qed.

(** * Instances on the sample pull request *)

Lemma provideDocumentContent_from_diff_hunks_witness :
  status (Sample.file [Sample.comment3]) = ADD
  /\ PRNode.provideDocumentContent Sample.env Sample.prNodeState Sample.prBase
     = Returned (String.concat (String "010"%char EmptyString) ["ctx1"; "ctx2"; "ctx3"]%string).
Proof.
  split; [reflexivity|].
  exact (proj1 (@provideDocumentContent_from_diff_hunks
                  Sample.env Sample.prNodeState Sample.prBase
                  (mkPRUriParams "a.ts" true "b0" 1) (Sample.file [Sample.comment3]) []
                  eq_refl eq_refl (or_intror (or_introl eq_refl)))).
Defined.

Lemma matched_thread_changed_iff_witness :
  let st := PRNode.store Sample.prNodeState in
  let thread :=
    Sample.liveThread Sample.prHead
      [mkComment 3 (Some 8%Z) "a.ts" (Some 4%Z) (Some 4%Z) (Some "c0"%string) "changed" ""
                 None None None] in
  filter (fun o => String.eqb (threadId (Store.read st o)) (threadId thread)) [1%nat]
  = [1%nat]
  /\ snd (PRNode.addOrUpdate [1%nat] ([], st) thread)
     = Store.write 1 (set_comments (Store.read st 1) (comments thread)) st.
Proof.
  split; [reflexivity|].
  exact (proj1 (proj2 matched_thread_changed_iff) [1%nat]
               (PRNode.store Sample.prNodeState) []
               (Sample.liveThread Sample.prHead
                  [mkComment 3 (Some 8%Z) "a.ts" (Some 4%Z) (Some 4%Z) (Some "c0"%string)
                             "changed" "" None None None])
               1%nat eq_refl).
Defined.

Lemma live_view_threads_resolved_positions_witness :
  let cs := [Sample.comment1; Sample.comment2; Sample.comment3] in
  exists info,
    provideDocumentComments Sample.env Sample.prHead false
      (Some (InMemFileChangeNode (Sample.file cs))) cs false = Returned (Some info)
    /\ exactly_one_shows (threads info) Sample.comment2.
Proof.
  intros cs.
  destruct (proj1 (@live_view_threads_resolved_positions Sample.env)
                  Sample.prHead false (Sample.file cs) cs false) as (info & Hinfo & H).
  { right. intros h [<- | []]. cbn. lia. }
  exists info. split; [exact Hinfo|].
  apply (H Sample.comment2 Sample.comment1 [Sample.comment2]).
  - simpl. auto.
  - reflexivity.
  - apply Z.leb_le. reflexivity.
Defined.

Lemma editComment_replaces_in_place_witness :
  let comment := convertToVSCodeComment Sample.comment1 None in
  let s' := fst (Review.editComment Sample.env Sample.remote 0 comment Sample.reviewState) in
  exists (file : Review.FileRef) (edited : Comment),
    Review.findMatchedFileByUri Sample.env Sample.reviewState
      (resource (Store.read (Review.store Sample.reviewState) 0)) = Returned (Some file)
    /\ (exists raw,
           find (Review.number_id comment) (Review.file_comments Sample.reviewState file)
           = Some raw
           /\ editReviewComment Sample.remote raw "edited" = Returned edited)
    /\ replaced_in_place (fun c => String.eqb (JS.toString (id c)) (commentId comment)) edited
                         (Review.file_comments Sample.reviewState file)
                         (Review.file_comments s' file)
    /\ replaced_in_place (fun c => String.eqb (JS.toString (id c)) (commentId comment)) edited
                         (Review._comments Sample.reviewState) (Review._comments s')
    /\ replaced_in_place (fun c => String.eqb (commentId c) (commentId comment))
                         (convertToVSCodeComment edited None)
                         (comments (Store.read (Review.store Sample.reviewState) 0))
                         (comments (Store.read (Review.store s') 0))
    /\ threadId (Store.read (Review.store s') 0)
       = threadId (Store.read (Review.store Sample.reviewState) 0).
Proof.
  intros comment s'.
  apply (@editComment_replaces_in_place Sample.env Sample.remote Sample.reviewState s' 0
                                       comment "edited").
  - reflexivity.
  - reflexivity.
  - intros raw v e H. simpl in H. injection H as <-. reflexivity.
  - reflexivity.
  - simpl. repeat constructor; simpl; intuition discriminate.
  - intros [[|i]|i]; simpl.
    + repeat constructor; simpl; intuition discriminate.
    + destruct i; constructor.
    + destruct i; constructor.
  - reflexivity.
Defined.

Lemma remote_failure_keeps_local_state_witness :
  let comment := convertToVSCodeComment Sample.comment1 None in
  (exists msg, Review.editReaction Sample.env Sample.failingRemote Sample.workspaceFile
                 comment (mkReaction "+1" true 1) true Sample.reviewState
               = (Sample.reviewState, Threw msg))
  /\ (exists msg, Review.deleteComment Sample.env Sample.failingRemote 0 comment
                    Sample.reviewState
                  = (Sample.reviewState, Threw msg))
  /\ (exists msg, Review.updateCommentThreadRoot Sample.env Sample.failingRemote 0 "new"
                    Sample.reviewState
                  = (Sample.reviewState, Threw msg)).
Proof.
  intros comment.
  destruct (@remote_failure_keeps_local_state Sample.env Sample.failingRemote
                                             Sample.reviewState) as (H1 & H2 & H3).
  split; [|split].
  - apply H1. intros raw. exists "502"%string. reflexivity.
  - apply (H2 0%nat comment "502"%string). reflexivity.
  - apply H3. intros name pos. exists "502"%string. reflexivity.
Defined.

Lemma reconcileThreads_disposes_exactly_unmatched_witness :
  let st := Review.store Sample.reviewState in
  let news :=
    itemsOf (workspaceLocalCommentsToCommentThreads Sample.env
               (Some (Sample.file [Sample.comment3])) [Sample.comment3] Collapsed) in
  Store.disposed (snd (Review.reconcileThreads [0; 1]%nat news false st)) = [0%nat].
Proof.
  intros st news.
  refine (proj1 (@reconcileThreads_disposes_exactly_unmatched [0; 1]%nat news false st _)).
  intros r [<- | [<- | []]]; repeat constructor.
Defined.

Lemma deleteReview_prunes_live_threads_witness :
  snd (Review.deleteReview Sample.remote Sample.reviewState) = Returned tt.
Proof.
  refine (proj1 (@deleteReview_prunes_live_threads Sample.remote Sample.reviewState 7%Z
                   [Sample.comment1; Sample.comment2] eq_refl _)).
  intros m [<- | [<- | [<- | [<- | []]]]]; simpl; repeat constructor; simpl; tauto.
Defined.

Lemma updateComments_idempotent_witness :
  let cs := [Sample.comment1; Sample.comment2; Scenario.comment6] in
  let s' := fst (ReviewEvents.updateComments Sample.env Sample.remote cs
                   Scenario.eventsState) in
  ReviewEvents._comments s' = cs
  /\ ReviewEvents.updateComments Sample.env Sample.remote cs s' = (s', Returned None).
Proof.
  intros cs s'. split; [reflexivity|].
  destruct (ReviewEvents.updateComments Sample.env Sample.remote cs Scenario.eventsState)
    as [s1 [fired|msg]] eqn:Hrun; [|vm_compute in Hrun; discriminate Hrun].
  assert (Hs : s' = s1) by (unfold s'; try rewrite Hrun; reflexivity). rewrite Hs.
  apply (@updateComments_idempotent Sample.env Sample.remote cs Scenario.eventsState s1 fired).
  - repeat constructor; simpl; intuition discriminate.
  - exact Hrun.
Defined.

Lemma updateState_serialises_without_reset_witness :
  let trace :=
    [ReviewManager.Request; ReviewManager.Request;
     ReviewManager.Completes 0 ReviewManager.EarlyReturn; ReviewManager.Request] in
  ReviewManager.run ReviewManager.initial trace
  = Some (ReviewManager.mkState (Some 2%nat) false [1%nat] [(1, 2)%nat] 3)
  /\ (List.length
        (ReviewManager.running
           (ReviewManager.mkState (Some 2%nat) false [1%nat] [(1, 2)%nat] 3)) <= 1)%nat.
Proof.
  intros trace. split; [reflexivity|].
  apply (@updateState_serialises_without_reset trace).
  - repeat constructor.
  - reflexivity.
Defined.

Lemma PRNode_editComment_replaces_in_place_witness :
  let comment := convertToVSCodeComment Sample.comment3 None in
  let s' := fst (PRNode.editComment Sample.env Sample.remote (Some "edited"%string) 1 comment
                   Sample.prNodeState) in
  exists (i : nat) (fileChange fileChange' : FileChange) (edited : Comment),
    PRNode.findMatchingFileNode Sample.env Sample.prNodeState
      (resource (Store.read (PRNode.store Sample.prNodeState) 1)) = Returned (i, fileChange)
    /\ (exists raw,
           find (fun c => String.eqb (JS.toString (id c)) (commentId comment)) (fc_comments fileChange) = Some raw
           /\ editReviewComment Sample.remote raw "edited" = Returned edited)
    /\ nth_error (PRNode._fileChanges s') i = Some (InMemFileChangeNode fileChange')
    /\ replaced_in_place (fun c => String.eqb (JS.toString (id c)) (commentId comment)) edited
                         (fc_comments fileChange) (fc_comments fileChange')
    /\ replaced_in_place (fun c => String.eqb (commentId c) (commentId comment))
                         (convertToVSCodeComment edited None)
                         (comments (Store.read (PRNode.store Sample.prNodeState) 1))
                         (comments (Store.read (PRNode.store s') 1))
    /\ threadId (Store.read (PRNode.store s') 1)
       = threadId (Store.read (PRNode.store Sample.prNodeState) 1).
Proof.
  intros comment s'.
  apply (@PRNode_editComment_replaces_in_place Sample.env Sample.remote Sample.prNodeState s'
                                              "edited" 1 comment).
  - reflexivity.
  - intros raw v e H. simpl in H. injection H as <-. reflexivity.
  - intros [|[|i]] f H; simpl in H; try discriminate.
    injection H as <-. simpl. repeat constructor; simpl; tauto.
  - reflexivity.
Defined.

Lemma deleteComment_removes_exactly_witness :
  let comment := convertToVSCodeComment Sample.comment1 None in
  let s' := fst (Review.deleteComment Sample.env Sample.remote 0 comment Sample.reviewState) in
  map id (Review._comments s') = [2%Z; 3%Z]
  /\ exists file : Review.FileRef,
       Review.findMatchedFileByUri Sample.env Sample.reviewState
         (resource (Store.read (Review.store Sample.reviewState) 0)) = Returned (Some file)
       /\ deleteReviewComment Sample.remote (commentId comment) = Returned tt
       /\ Review.file_comments s' file
          = filter (fun c => negb (String.eqb (JS.toString (id c)) (commentId comment)))
                   (Review.file_comments Sample.reviewState file)
       /\ Review._comments s'
          = filter (fun c => negb (String.eqb (JS.toString (id c)) (commentId comment)))
                   (Review._comments Sample.reviewState)
       /\ comments (Store.read (Review.store s') 0)
          = filter (fun c => negb (String.eqb (commentId c) (commentId comment)))
                   (comments (Store.read (Review.store Sample.reviewState) 0))
       /\ threadId (Store.read (Review.store s') 0)
          = threadId (Store.read (Review.store Sample.reviewState) 0)
       /\ Store.disposed (Review.store s') = Store.disposed (Review.store Sample.reviewState)
       /\ trackedMaps s' = trackedMaps Sample.reviewState.
Proof.
  intros comment s'. split; [reflexivity|].
  apply (@deleteComment_removes_exactly Sample.env Sample.remote Sample.reviewState s' 0
                                       comment).
  - simpl. repeat constructor; simpl; intuition discriminate.
  - intros [[|i]|i]; simpl.
    + repeat constructor; simpl; intuition discriminate.
    + destruct i; constructor.
    + destruct i; constructor.
  - simpl. repeat constructor; simpl; intuition discriminate.
  - reflexivity.
Defined.

Lemma PRNode_deleteComment_removes_exactly_witness :
  let comment := convertToVSCodeComment Sample.comment3 None in
  let s := PRNode.mkNodeState Sample.prNodeState false in
  let s' := fst (PRNode.deleteComment Sample.env Sample.remote 1 comment s) in
  comments (Store.read (PRNode.store (PRNode.node s')) 1) = []
  /\ Store.disposed (PRNode.store (PRNode.node s')) = [].
Proof.
  intros comment s s'.
  assert (Hfiles : forall i f,
             nth_error (PRNode._fileChanges (PRNode.node s)) i = Some (InMemFileChangeNode f) ->
             NoDup (map id (fc_comments f))).
  { intros [|[|i]] f H; simpl in H; try discriminate.
    injection H as <-. simpl. repeat constructor; simpl; tauto. }
  assert (Hthread : NoDup (map commentId
                             (comments (Store.read (PRNode.store (PRNode.node s)) 1)))).
  { simpl. repeat constructor; simpl; tauto. }
  destruct (proj1 (@PRNode_deleteComment_removes_exactly Sample.env Sample.remote s 1 comment
                     Hfiles Hthread) s' eq_refl)
    as (i & fileChange & _ & _ & _ & _ & Hc & _ & Hd & _).
  split; [rewrite Hc; reflexivity | exact Hd].
Defined.

Lemma updateCommentThreadRoot_outcomes_witness :
  let s' := fst (Review.updateCommentThreadRoot Sample.env Sample.remote 1 "new"
                   Sample.reviewState) in
  exists (file : Review.FileRef) (matched : FileChange) (rawComment : Comment)
         (position_ : Z),
    Review.findMatchedFileByUri Sample.env Sample.reviewState
      (resource (Store.read (Review.store Sample.reviewState) 1)) = Returned (Some file)
    /\ Review.file_at Sample.reviewState file = Some matched
    /\ (0 <= position_)%Z
    /\ createComment Sample.remote "new" (fileName matched) position_ = Returned rawComment
    /\ Review.file_comments s' file
       = Review.file_comments Sample.reviewState file ++ [rawComment]
    /\ Review._comments s' = Review._comments Sample.reviewState ++ [rawComment]
    /\ comments (Store.read (Review.store s') 1) = [convertToVSCodeComment rawComment None]
    /\ threadId (Store.read (Review.store s') 1)
       = threadId (Store.read (Review.store Sample.reviewState) 1)
    /\ Store.disposed (Review.store s') = Store.disposed (Review.store Sample.reviewState).
Proof.
  intros s'.
  exact (proj1 (@updateCommentThreadRoot_outcomes Sample.env Sample.remote
                  Sample.reviewState 1 "new") s' eq_refl).
Defined.

Lemma createOrReplyComment_appends_reply_witness :
  exists s',
    Review.createOrReplyComment Sample.env Sample.remote Scenario.replyApi 1
      Sample.reviewState = (s', Returned tt)
    /\ map commentId (comments (Store.read (Review.store s') 1)) = ["3"; "10"]%string
    /\ Review.inputBox s' = Some EmptyString.
Proof.
  destruct (proj1 (@createOrReplyComment_appends_reply Sample.env Sample.remote
                     Scenario.replyApi Sample.reviewState 1)
                  "edited"%string (convertToVSCodeComment Sample.comment3 None) []
                  (mkComment 10 (Some 8%Z) "a.ts" (Some 4%Z) (Some 4%Z) (Some "c0"%string)
                             "edited" "" None None None)
                  eq_refl eq_refl eq_refl eq_refl)
    as (s' & Hrun & Hcs & _ & Hbox & _).
  exists s'. split; [exact Hrun|]. split; [rewrite Hcs; reflexivity | exact Hbox].
Defined.

Lemma review_document_content_witness :
  ReviewData.provideTextDocumentContent Sample.env (fun _ => None) Scenario.reviewData
    (mkUri "review" "a.ts" "h0")
  = Returned (Some (String.concat (String "010"%char EmptyString)
                      ["@ -10,3 +10,4 @@"; "ctx1"; "added1"; "ctx2"; "ctx3"]%string)).
Proof.
  exact (proj1 (proj1 (@review_document_content Sample.env (fun _ => None)
                         Scenario.reviewData (mkUri "review" "a.ts" "h0")
                         (mkReviewUriParams "a.ts" "h0" false false) eq_refl)
                      (Sample.file [Sample.comment1; Sample.comment2; Sample.comment3]) []
                      eq_refl)).
Defined.

Lemma getPullRequestData_sorts_comments_witness :
  let s' := fst (ReviewData.getPullRequestData Scenario.source
                   (ReviewData.mkState [] [] [])) in
  snd (ReviewData.getPullRequestData Scenario.source (ReviewData.mkState [] [] []))
  = Returned tt
  /\ map (fun f => map id (fc_comments f)) (ReviewData._localFileChanges s')
     = [[1%Z; 2%Z; 3%Z]]
  /\ map (fun f => map id (fc_comments f))
         (gitFileChangeNodeFilter (ReviewData._obsoleteFileChanges s'))
     = [[4%Z; 5%Z]].
Proof.
  intros s'. split; [|split; reflexivity].
  exact (proj1 (@getPullRequestData_sorts_comments Scenario.source
                  (ReviewData.mkState [] [] [])
                  [Sample.comment1; Sample.comment2; Sample.comment3;
                   Sample.outdated1; Sample.outdated2]
                  "diff"%string
                  [ReviewData.InMemFileChange ADD "a.ts" false [Sample.hunk]]
                  eq_refl eq_refl eq_refl)).
Defined.

Lemma projected_threads_distinct_ids_witness :
  let cs := [Sample.comment1; Sample.comment2; Sample.comment3] in
  exists ts,
    workspaceLocalCommentsToCommentThreads Sample.env (Some (Sample.file cs)) cs Expanded
    = Returned ts
    /\ NoDup (map threadId ts).
Proof.
  intros cs. eexists. split; [reflexivity|].
  refine (proj1 (proj1 (proj2 (@projected_threads_distinct_ids Sample.env cs _))
                       (Sample.file cs) Expanded _ eq_refl)).
  simpl. repeat constructor; simpl; intuition discriminate.
Defined.

Lemma PRNode_deleteReview_prunes_witness :
  let s' := fst (PRNode.deleteReview Sample.remote Scenario.reviewedNode) in
  nth_error (PRNode._fileChanges s') 0
  = Some (InMemFileChangeNode (Sample.file [Sample.comment3]))
  /\ Obj.get (PRNode._fileChangeCommentThreads s') "a.ts" = Some [1%nat]
  /\ (In 0%nat (Store.disposed (PRNode.store s'))).
Proof.
  assert (Hnd : NoDup (Obj.keys (PRNode._fileChangeCommentThreads Scenario.reviewedNode))).
  { simpl. repeat constructor. intros []. }
  destruct (@PRNode_deleteReview_prunes Sample.remote Scenario.reviewedNode 7%Z
              [Sample.comment1; Sample.comment2] eq_refl Hnd)
    as (_ & Hfiles & Hmap & _ & _ & Hdisp).
  split; [|split].
  - exact (Hfiles 0%nat _ eq_refl).
  - exact (Hmap "a.ts"%string).
  - apply Hdisp. right. exists "a.ts"%string, [0; 1]%nat.
    repeat split; try reflexivity. now left.
Defined.

Lemma deleteDraft_reports_every_thread_witness :
  exists (ev : ReviewEvents.CommentThreadChangedEvent) (s' : ReviewEvents.State),
    ReviewEvents.deleteDraft Sample.env Sample.remote true Scenario.eventsState
    = (s', Returned ev)
    /\ map (fun t => map commentId (comments t)) (ReviewEvents.removed ev) = [[]]
    /\ map (fun t => map commentId (comments t)) (ReviewEvents.changed ev) = [["3"%string]]
    /\ map id (ReviewEvents._comments s') = [3%Z]
    /\ map (fun f => map id (fc_comments f)) (ReviewEvents._localFileChanges s') = [[3%Z]].
Proof.
  destruct (ReviewEvents.allCommentsToCommentThreads
              Sample.env Scenario.eventsState (ReviewEvents._comments Scenario.eventsState)
              Expanded) as [olds|msg] eqn:Holds; [|vm_compute in Holds; discriminate Holds].
  destruct (proj1 (proj2 (@deleteDraft_reports_every_thread Sample.env Sample.remote
                            Scenario.eventsState)
                         7%Z [Sample.comment1; Sample.comment2] eq_refl) olds Holds)
    as (ev & s' & Hrun & _ & Hremoved & Hchanged & _ & Hcomments & _).
  exists ev, s'. split; [exact Hrun|].
  rewrite Hremoved, Hchanged, Hcomments.
  apply (f_equal fst) in Hrun. cbn [fst] in Hrun. subst s'.
  vm_compute in Holds. injection Holds as <-.
  repeat split; reflexivity.
Defined.

Lemma updateComments_event_by_thread_id_witness :
  exists (ev : ReviewEvents.CommentThreadChangedEvent) (s' : ReviewEvents.State),
    ReviewEvents.updateComments Sample.env Sample.remote
      [Sample.comment1; Sample.comment2; Scenario.comment6] Scenario.eventsState
    = (s', Returned (Some ev))
    /\ map (fun t => map commentId (comments t)) (ReviewEvents.removed ev) = [["3"%string]]
    /\ map (fun t => map commentId (comments t)) (ReviewEvents.added ev) = [["6"%string]]
    /\ ReviewEvents.draftMode ev = false
    /\ map id (ReviewEvents._comments s') = [1%Z; 2%Z; 6%Z].
Proof.
  destruct (ReviewEvents.allCommentsToCommentThreads
              Sample.env Scenario.eventsState (ReviewEvents._comments Scenario.eventsState)
              Expanded) as [olds|msg] eqn:Holds; [|vm_compute in Holds; discriminate Holds].
  destruct (ReviewEvents.allCommentsToCommentThreads
              Sample.env Scenario.eventsState
              [Sample.comment1; Sample.comment2; Scenario.comment6] Expanded)
    as [news|msg] eqn:Hnews; [|vm_compute in Hnews; discriminate Hnews].
  destruct (ReviewEvents.updateComments Sample.env Sample.remote
              [Sample.comment1; Sample.comment2; Scenario.comment6] Scenario.eventsState)
    as [s' [[ev|]|msg]] eqn:Hrun; try (vm_compute in Hrun; discriminate Hrun).
  exists ev, s'. split; [reflexivity|].
  destruct (proj1 (proj1 (@updateComments_event_by_thread_id Sample.env Sample.remote
                            [Sample.comment1; Sample.comment2; Scenario.comment6]
                            Scenario.eventsState) olds news Holds Hnews) ev s' Hrun)
    as (Hdraft & Hremoved & Hadded & _ & Hcomments & _).
  rewrite Hremoved, Hadded, Hcomments.
  vm_compute in Holds. injection Holds as <-. vm_compute in Hnews. injection Hnews as <-.
  repeat split; try reflexivity.
  assert (Hd : Returned false = Returned (ReviewEvents.draftMode ev)) by exact Hdraft.
  injection Hd as Hd. now symmetry.
Defined.
